(** * Plan performance and validation engine: a shallow embedding

    The development follows the Python sources file by file:
    - [PyUnicode]  the characters of a text, with the classes of white
                   space and of decimal digits;
    - [PyDate]     the part of [datetime.date] the program uses;
    - [PyDecimal]  the part of [decimal.Decimal] the program uses, under the
                   default context (precision 28, ROUND_HALF_EVEN, traps on
                   InvalidOperation, DivisionByZero and Overflow);
    - [Credit], [Dictionary], [Plan], [Payment] and [store]
                   the tables of [database/models.py];
    - [Requests]   the queries of [database/requests.py], as functions of the
                   database's state;
    - [Main]       the handlers of [main.py].
    The vocabulary of the properties and the properties themselves follow.

    A Python [str] is modelled by the Rocq string of its UTF-8 bytes;
    [PyUnicode] reads the characters back where the code looks at them. *)

From Stdlib Require Import ZArith NArith List String Ascii Bool Lia.
From Stdlib Require Decimal DecimalString.
Import ListNotations.

Local Open Scope string_scope.
Local Open Scope Z_scope.

(** ** Exceptions and results *)

(** The reason carried by a [decimal.InvalidOperation]. *)
Inductive invalid_cond :=
| ConversionSyntax
| InexactConversion
| DivisionUndefined
| SignalingNaN
| InfiniteOperands
| QuantizeRange.

(** The Python exceptions that the modelled code can raise by itself. *)
Inductive exn :=
| ValueError
| OverflowError
| TypeError
| ZeroDivisionError
| InvalidOperation (c : invalid_cond)
| DivisionByZero
| Overflow.

Inductive result (A : Type) :=
| Ok (a : A)
| Raise (e : exn).

Arguments Ok {A} a.
Arguments Raise {A} e.

Definition bind {A B : Type} (r : result A) (k : A -> result B) : result B :=
  match r with
  | Ok a => k a
  | Raise e => Raise e
  end.

Declare Scope py_scope.
Delimit Scope py_scope with py.
Notation "x <- c ;; k" := (bind c (fun x => k))
  (at level 61, c at next level, right associativity) : py_scope.
Local Open Scope py_scope.

(** Python's [ZeroDivisionError] family: the built-in error of [int / int],
    [decimal.DivisionByZero] (x / 0) and [decimal.DivisionUndefined] (0 / 0),
    both of which derive from [ZeroDivisionError]. *)
Definition is_division_by_zero (e : exn) : bool :=
  match e with
  | ZeroDivisionError => true
  | DivisionByZero => true
  | InvalidOperation DivisionUndefined => true
  | _ => false
  end.

(** ** Text helpers *)

(** [str(n)] for an int. *)
Definition str_of_Z (z : Z) : string :=
  DecimalString.NilZero.string_of_int (Z.to_int z).

(** [str(n)] for a natural number. *)
Definition str_of_N (n : N) : string :=
  DecimalString.NilZero.string_of_uint (N.to_uint n).

(** [len(str(n))]. *)
Definition ndigits (n : N) : Z :=
  Z.of_nat (String.length (str_of_N n)).

(** [c * k]: the string made of [k] copies of [c]. *)
Definition replicate (k : nat) (c : ascii) : string :=
  string_of_list_ascii (List.repeat c k).

(** Zero padding on the left up to [width] characters, as [%02d] does. *)
Definition zero_pad (width : nat) (s : string) : string :=
  replicate (width - String.length s) "0"%char ++ s.

(** ** Characters

    The characters of a text, read from its UTF-8 bytes.  White space and
    decimal digits are those of Unicode 14.0, the character database of
    CPython 3.11. *)

Module PyUnicode.

Local Open Scope N_scope.

(** A character of a text: its code point and the bytes that encode it. *)
Record char := mkchar { code : N; bytes : string }.

(** What a byte that belongs to no well-formed sequence counts as: a value
    above every code point, so that it is in no class of characters.  The
    encoding of a [str] has no such byte. *)
Definition stray (n : N) : N := 1114112 + n.

(** The six bits a continuation byte carries. *)
Definition trail (b : ascii) : option N :=
  let n := N_of_ascii b in
  if (128 <=? n) && (n <? 192) then Some (n - 128) else None.

(** The code point that starts with the byte [b0] in front of [s1], and the
    number of bytes of [s1] it takes. *)
Definition decode (b0 : ascii) (s1 : string) : N * nat :=
  let n0 := N_of_ascii b0 in
  if n0 <? 128 then (n0, 0%nat)
  else
    match s1 with
    | String b1 s2 =>
      match trail b1 with
      | Some t1 =>
        if (192 <=? n0) && (n0 <? 224) then ((n0 - 192) * 64 + t1, 1%nat)
        else
          match s2 with
          | String b2 s3 =>
            match trail b2 with
            | Some t2 =>
              if (224 <=? n0) && (n0 <? 240)
              then (((n0 - 224) * 64 + t1) * 64 + t2, 2%nat)
              else
                match s3 with
                | String b3 _ =>
                  match trail b3 with
                  | Some t3 =>
                    if (240 <=? n0) && (n0 <? 248)
                    then ((((n0 - 240) * 64 + t1) * 64 + t2) * 64 + t3,
                          3%nat)
                    else (stray n0, 0%nat)
                  | None => (stray n0, 0%nat)
                  end
                | EmptyString => (stray n0, 0%nat)
                end
            | None => (stray n0, 0%nat)
            end
          | EmptyString => (stray n0, 0%nat)
          end
      | None => (stray n0, 0%nat)
      end
    | EmptyString => (stray n0, 0%nat)
    end.

(** The characters of a text, in order. *)
Fixpoint chars (s : string) : list char :=
  match s with
  | EmptyString => []
  | String b0 s1 =>
    match decode b0 s1, s1 with
    | (cp, 1%nat), String b1 s2 =>
      mkchar cp (String b0 (String b1 "")) :: chars s2
    | (cp, 2%nat), String b1 (String b2 s3) =>
      mkchar cp (String b0 (String b1 (String b2 ""))) :: chars s3
    | (cp, 3%nat), String b1 (String b2 (String b3 s4)) =>
      mkchar cp (String b0 (String b1 (String b2 (String b3 ""))))
        :: chars s4
    | (cp, _), _ => mkchar cp (String b0 "") :: chars s1
    end
  end.

(** The text made of some characters. *)
Definition text_of (cs : list char) : string :=
  String.concat "" (map bytes cs).

(** [c.isspace()]: the 29 characters of white space. *)
Definition isspace (cp : N) : bool :=
  (9 <=? cp) && (cp <=? 13) || (28 <=? cp) && (cp <=? 32) ||
   (cp =? 133) || (cp =? 160) || (cp =? 5760) ||
   (8192 <=? cp) && (cp <=? 8202) || (cp =? 8232) || (cp =? 8233) ||
   (cp =? 8239) || (cp =? 8287) || (cp =? 12288).

(** The code points of the digit zero of every script that has decimal
    digits; the other nine digits of the script follow it. *)
Definition decimal_zeros : list N :=
  [48; 1632; 1776; 1984; 2406; 2534; 2662; 2790; 2918; 3046; 3174; 3302;
   3430; 3558; 3664; 3792; 3872; 4160; 4240; 6112; 6160; 6470; 6608; 6784;
   6800; 6992; 7088; 7232; 7248; 42528; 43216; 43264; 43472; 43504; 43600;
   44016; 65296; 66720; 68912; 69734; 69872; 69942; 70096; 70384; 70736;
   70864; 71248; 71360; 71472; 71904; 72016; 72784; 73040; 73120; 92768;
   92864; 93008; 120782; 120792; 120802; 120812; 120822; 123200; 123632;
   125264; 130032].

(** [unicodedata.decimal(c)]: the value of a decimal digit. *)
Definition decimal (cp : N) : option N :=
  option_map (fun zero => cp - zero)
    (find (fun zero => (zero <=? cp) && (cp <? zero + 10)) decimal_zeros).

(** [c.isdecimal()], the class [\d] of a regular expression. *)
Definition isdecimal (cp : N) : bool :=
  match decimal cp with Some _ => true | None => false end.

Fixpoint drop_spaces (cs : list char) : list char :=
  match cs with
  | [] => []
  | c :: cs' => if isspace (code c) then drop_spaces cs' else cs
  end.

(** The characters without the white space at both ends. *)
Definition strip_chars (cs : list char) : list char :=
  List.rev (drop_spaces (List.rev (drop_spaces cs))).

End PyUnicode.
Export PyUnicode.

(** [s.strip()]. *)
Definition strip (s : string) : string :=
  text_of (strip_chars (chars s)).

(** ** [datetime.date] *)

Module PyDate.

Record date := mkdate { year : Z; month : Z; day : Z }.

Definition MINYEAR : Z := 1.
Definition MAXYEAR : Z := 9999.

Definition is_leap (y : Z) : bool :=
  (y mod 4 =? 0) && (negb (y mod 100 =? 0) || (y mod 400 =? 0)).

Definition days_in_month (y m : Z) : Z :=
  if m =? 2 then (if is_leap y then 29 else 28)
  else if (m =? 4) || (m =? 6) || (m =? 9) || (m =? 11) then 30
  else 31.

(** The range check of the [date] constructor. *)
Definition valid_date (d : date) : bool :=
  (MINYEAR <=? year d) && (year d <=? MAXYEAR) &&
  (1 <=? month d) && (month d <=? 12) &&
  (1 <=? day d) && (day d <=? days_in_month (year d) (month d)).

(** Whether an int fits the C [int] the constructor converts it to. *)
Definition fits_c_int (z : Z) : bool :=
  (- 2147483648 <=? z) && (z <=? 2147483647).

(** [date(y, m, d)]: the three arguments are converted to C ints, which
    raises [OverflowError] for an int that does not fit; the range check
    that follows raises [ValueError]. *)
Definition date_new (y m d : Z) : result date :=
  if negb (fits_c_int y && fits_c_int m && fits_c_int d)
  then Raise OverflowError
  else if valid_date (mkdate y m d) then Ok (mkdate y m d)
  else Raise ValueError.

Definition days_before_year (y : Z) : Z :=
  let y' := y - 1 in y' * 365 + y' / 4 - y' / 100 + y' / 400.

Definition days_before_month (y m : Z) : Z :=
  let table := [0; 31; 59; 90; 120; 151; 181; 212; 243; 273; 304; 334] in
  nth (Z.to_nat (m - 1)) table 0 +
  (if (2 <? m) && is_leap y then 1 else 0).

(** [d.toordinal()]: day 1 is 0001-01-01. *)
Definition toordinal (d : date) : Z :=
  days_before_year (year d) + days_before_month (year d) (month d) + day d.

(** [(a - b).days]. *)
Definition sub_days (a b : date) : Z := toordinal a - toordinal b.

Definition date_eqb (a b : date) : bool :=
  (year a =? year b) && (month a =? month b) && (day a =? day b).

Definition date_ltb (a b : date) : bool :=
  (year a <? year b) ||
  ((year a =? year b) &&
   ((month a <? month b) || ((month a =? month b) && (day a <? day b)))).

Definition date_leb (a b : date) : bool := date_ltb a b || date_eqb a b.

(** [d.strftime('%Y-%m-%d')].  The directives are those of the C library:
    [%m] and [%d] are written with two digits, and [%Y], with glibc, as the
    number is, without leading zeros (999 for the year 999). *)
Definition strftime_Y_m_d (d : date) : string :=
  str_of_Z (year d) ++ "-" ++
  zero_pad 2 (str_of_Z (month d)) ++ "-" ++
  zero_pad 2 (str_of_Z (day d)).

(** [d.strftime('%m.%Y')]. *)
Definition strftime_m_Y (d : date) : string :=
  zero_pad 2 (str_of_Z (month d)) ++ "." ++ str_of_Z (year d).

(** A [datetime.datetime]: a date and a time of day. *)
Record datetime := mkdatetime {
  dt_date : date;
  dt_hour : Z;
  dt_minute : Z;
  dt_second : Z
}.

End PyDate.
Export PyDate.

(** ** [decimal.Decimal]

    The operations follow the reference implementation of the module
    ([_pydecimal]); coefficients are numbers where it keeps strings of
    digits.  The constructor from a text follows the C implementation
    ([_decimal]), the one CPython loads, which differs from the reference
    in the characters and in the exponents it accepts. *)

Module PyDecimal.

(** A decimal is a sign (true for negative), a coefficient and an exponent,
    an infinity, or a NaN (quiet or signaling) with its diagnostic payload, a
    number whose digits follow the letters (none for 0). *)
Inductive Decimal :=
| DFinite (sign : bool) (coeff : N) (exp : Z)
| DInf (sign : bool)
| DNaN (sign : bool) (signaling : bool) (payload : N).

(** The default context. *)
Definition prec : Z := 28.
Definition Emax : Z := 999999.
Definition Emin : Z := -999999.
Definition Etiny : Z := Emin - prec + 1.
Definition Etop : Z := Emax - prec + 1.

Definition pow10 (k : Z) : N := (10 ^ Z.to_N k)%N.

(** [Decimal(n)] for an int. *)
Definition of_int (z : Z) : Decimal := DFinite (z <? 0) (Z.abs_N z) 0.

(** A fixed-point amount of a DECIMAL(_, 2) column, given in hundredths. *)
Definition of_cents (z : Z) : Decimal := DFinite (z <? 0) (Z.abs_N z) (-2).

Definition is_zero (d : Decimal) : bool :=
  match d with
  | DFinite _ c _ => (c =? 0)%N
  | _ => false
  end.

(** [bool(d)]: every decimal but a zero is true. *)
Definition dec_bool (d : Decimal) : bool := negb (is_zero d).

(** [d.adjusted()] for a finite decimal. *)
Definition adjusted (c : N) (e : Z) : Z := e + ndigits c - 1.

(** Dropping the last [k] digits of [c] under ROUND_HALF_EVEN. *)
Definition round_half_even (c : N) (k : Z) : N :=
  let p := pow10 k in
  let q := (c / p)%N in
  let r := (c mod p)%N in
  if (2 * r <? p)%N then q
  else if (p <? 2 * r)%N then (q + 1)%N
  else if N.even q then q else (q + 1)%N.

(** [d._rescale(exp, ROUND_HALF_EVEN)] for a finite decimal. *)
Definition rescale (s : bool) (c : N) (e : Z) (exp : Z) : Decimal :=
  if (c =? 0)%N then DFinite s 0 exp
  else if exp <=? e then DFinite s (c * pow10 (e - exp)) exp
  else DFinite s (round_half_even c (exp - e)) exp.

(** [d._fix_nan(context)]: a payload longer than the precision loses its
    leading digits. *)
Definition fix_nan (sign signaling : bool) (payload : N) : Decimal :=
  DNaN sign signaling
    (if prec <? ndigits payload then (payload mod 10 ^ Z.to_N prec)%N
     else payload).

(** [d._fix(context)]: round to the context's precision and keep the
    exponent in range. *)
Definition fix_ (d : Decimal) : result Decimal :=
  match d with
  | DFinite s c e =>
    if (c =? 0)%N then Ok (DFinite s 0 (Z.min (Z.max e Etiny) Emax))
    else
      let exp_min := ndigits c + e - prec in
      if Etop <? exp_min then Raise Overflow
      else
        let exp_min := Z.max exp_min Etiny in
        if e <? exp_min then
          let c1 := round_half_even c (exp_min - e) in
          let '(c2, exp2) :=
            if prec <? ndigits c1 then ((c1 / 10)%N, exp_min + 1)
            else (c1, exp_min) in
          if Etop <? exp2 then Raise Overflow else Ok (DFinite s c2 exp2)
        else Ok d
  | DInf _ => Ok d
  | DNaN s sig payload => Ok (fix_nan s sig payload)
  end.

(** A decimal that is not a NaN. *)
Inductive number :=
| Fin (s : bool) (c : N) (e : Z)
| Inf (s : bool).

(** [self._check_nans(other)]: a signaling NaN raises, a quiet NaN is the
    result (the first operand's before the second's); otherwise both operands
    are numbers. *)
Definition check_nans (self other : Decimal)
  : result Decimal + number * number :=
  match self, other with
  | DNaN _ true _, _ => inl (Raise (InvalidOperation SignalingNaN))
  | _, DNaN _ true _ => inl (Raise (InvalidOperation SignalingNaN))
  | DNaN s false p, _ => inl (Ok (fix_nan s false p))
  | _, DNaN s false p => inl (Ok (fix_nan s false p))
  | DFinite s1 c1 e1, DFinite s2 c2 e2 => inr (Fin s1 c1 e1, Fin s2 c2 e2)
  | DFinite s1 c1 e1, DInf s2 => inr (Fin s1 c1 e1, Inf s2)
  | DInf s1, DFinite s2 c2 e2 => inr (Inf s1, Fin s2 c2 e2)
  | DInf s1, DInf s2 => inr (Inf s1, Inf s2)
  end.

(** [self.quantize(exp)]. *)
Definition quantize (self exp : Decimal) : result Decimal :=
  match check_nans self exp with
  | inl r => r
  | inr (Inf _, Inf _) => Ok self
  | inr (Inf _, Fin _ _ _) => Raise (InvalidOperation InfiniteOperands)
  | inr (Fin _ _ _, Inf _) => Raise (InvalidOperation InfiniteOperands)
  | inr (Fin s c e, Fin _ _ qe) =>
    if negb ((Etiny <=? qe) && (qe <=? Emax))
    then Raise (InvalidOperation QuantizeRange)
    else if (c =? 0)%N then fix_ (DFinite s 0 qe)
    else if Emax <? adjusted c e then Raise (InvalidOperation QuantizeRange)
    else if prec <? adjusted c e - qe + 1
    then Raise (InvalidOperation QuantizeRange)
    else
      match rescale s c e qe with
      | DFinite s' c' e' =>
        if Emax <? adjusted c' e' then Raise (InvalidOperation QuantizeRange)
        else if prec <? ndigits c' then Raise (InvalidOperation QuantizeRange)
        else fix_ (DFinite s' c' e')
      | ans => Ok ans
      end
  end.

(** [round(d, n)], the two-argument form: [d.quantize(Decimal((0, (1,), -n)))]. *)
Definition dec_round (d : Decimal) (n : Z) : result Decimal :=
  quantize d (DFinite false 1 (- n)).

(** [self * other]. *)
Definition dec_mul (self other : Decimal) : result Decimal :=
  match check_nans self other with
  | inl r => r
  | inr (Inf s1, Inf s2) => Ok (DInf (xorb s1 s2))
  | inr (Inf s1, Fin s2 c2 _) =>
    if (c2 =? 0)%N then Raise (InvalidOperation InfiniteOperands)
    else Ok (DInf (xorb s1 s2))
  | inr (Fin s1 c1 _, Inf s2) =>
    if (c1 =? 0)%N then Raise (InvalidOperation InfiniteOperands)
    else Ok (DInf (xorb s1 s2))
  | inr (Fin s1 c1 e1, Fin s2 c2 e2) =>
    fix_ (DFinite (xorb s1 s2) (c1 * c2) (e1 + e2))
  end.

(** The loop of an exact division: drop trailing zeros of the quotient
    while its exponent is below the ideal one. *)
Fixpoint strip_zeros (ideal_exp : Z) (fuel : nat) (coeff : N) (exp : Z)
  : N * Z :=
  match fuel with
  | O => (coeff, exp)
  | S fuel' =>
    if (exp <? ideal_exp) && (coeff mod 10 =? 0)%N
    then strip_zeros ideal_exp fuel' (coeff / 10)%N (exp + 1)
    else (coeff, exp)
  end.

(** [self / other]. *)
Definition dec_div (self other : Decimal) : result Decimal :=
  match check_nans self other with
  | inl r => r
  | inr (Inf _, Inf _) => Raise (InvalidOperation InfiniteOperands)
  | inr (Inf s1, Fin s2 _ _) => Ok (DInf (xorb s1 s2))
  | inr (Fin s1 _ _, Inf s2) => Ok (DFinite (xorb s1 s2) 0 Etiny)
  | inr (Fin s1 c1 e1, Fin s2 c2 e2) =>
    let sign := xorb s1 s2 in
    if (c2 =? 0)%N then
      if (c1 =? 0)%N then Raise (InvalidOperation DivisionUndefined)
      else Raise DivisionByZero
    else if (c1 =? 0)%N then fix_ (DFinite sign 0 (e1 - e2))
    else
      let shift := ndigits c2 - ndigits c1 + prec + 1 in
      let exp := e1 - e2 - shift in
      let '(coeff, remainder) :=
        if 0 <=? shift
        then N.div_eucl (c1 * pow10 shift) c2
        else N.div_eucl c1 (c2 * pow10 (- shift)) in
      if negb (remainder =? 0)%N then
        (* the result is not exact: make sure it rounds the right way *)
        fix_ (DFinite sign
                (if (coeff mod 5 =? 0)%N then coeff + 1 else coeff)%N exp)
      else
        (* the result is exact: go as near the ideal exponent as possible *)
        let ideal_exp := e1 - e2 in
        let '(coeff', exp') :=
          strip_zeros ideal_exp (Z.to_nat (ideal_exp - exp)) coeff exp in
        fix_ (DFinite sign coeff' exp')
  end.

(** [_normalize(op1, op2, prec)]: give both operands of an addition the
    same exponent. *)
Definition normalize (op1 op2 : N * Z) : (N * Z) * (N * Z) :=
  let swap := snd op1 <? snd op2 in
  let tmp := if swap then op2 else op1 in
  let other := if swap then op1 else op2 in
  let exp := snd tmp + Z.min (-1) (ndigits (fst tmp) - prec - 2) in
  let other' :=
    if ndigits (fst other) + snd other - 1 <? exp then (1%N, exp) else other in
  let tmp' := ((fst tmp * pow10 (snd tmp - snd other'))%N, snd other') in
  if swap then (other', tmp') else (tmp', other').

(** [self + other]. *)
Definition dec_add (self other : Decimal) : result Decimal :=
  match check_nans self other with
  | inl r => r
  | inr (Inf s1, Inf s2) =>
    if xorb s1 s2 then Raise (InvalidOperation InfiniteOperands) else Ok self
  | inr (Inf _, Fin _ _ _) => Ok self
  | inr (Fin _ _ _, Inf _) => Ok other
  | inr (Fin s1 c1 e1, Fin s2 c2 e2) =>
    let exp := Z.min e1 e2 in
    if (c1 =? 0)%N && (c2 =? 0)%N then fix_ (DFinite (s1 && s2) 0 exp)
    else if (c1 =? 0)%N
    then fix_ (rescale s2 c2 e2 (Z.max exp (e2 - prec - 1)))
    else if (c2 =? 0)%N
    then fix_ (rescale s1 c1 e1 (Z.max exp (e1 - prec - 1)))
    else
      let '((i1, x1), (i2, _)) := normalize (c1, e1) (c2, e2) in
      if xorb s1 s2 then
        if (i1 =? i2)%N then fix_ (DFinite false 0 exp)
        else if (i1 <? i2)%N then fix_ (DFinite s2 (i2 - i1) x1)
        else fix_ (DFinite s1 (i1 - i2) x1)
      else fix_ (DFinite s1 (i1 + i2) x1)
  end.

(** *** Text forms *)

Definition is_digit (c : ascii) : bool :=
  let n := N_of_ascii c in ((48 <=? n) && (n <=? 57))%N.

(** The longest prefix of digits, and the rest. *)
Fixpoint span_digits (s : string) : string * string :=
  match s with
  | EmptyString => (EmptyString, EmptyString)
  | String c s' =>
    if is_digit c
    then let (ds, rest) := span_digits s' in (String c ds, rest)
    else (EmptyString, s)
  end.

(** The characters of a number as ASCII text: underscores are dropped,
    white space becomes a space, a decimal digit of any script becomes the
    ASCII digit of its value, and any other character outside ASCII (or the
    character 0) makes the text no number at all. *)
Fixpoint as_ascii (cs : list char) : option string :=
  match cs with
  | [] => Some EmptyString
  | c :: rest =>
    let cp := code c in
    if (cp =? 95)%N then as_ascii rest
    else if ((0 <? cp) && (cp <=? 127))%N
    then option_map (String (ascii_of_N cp)) (as_ascii rest)
    else if isspace cp then option_map (String " "%char) (as_ascii rest)
    else
      match decimal cp with
      | Some value =>
        option_map (String (ascii_of_N (48 + value))) (as_ascii rest)
      | None => None
      end
  end.

(** The text the parser reads: white space at both ends is dropped first. *)
Definition numeric_as_ascii (text : string) : option string :=
  as_ascii (strip_chars (chars text)).

Definition lower (c : ascii) : ascii :=
  let n := N_of_ascii c in
  if ((65 <=? n) && (n <=? 90))%N then ascii_of_N (n + 32) else c.

Fixpoint lower_string (s : string) : string :=
  match s with
  | EmptyString => EmptyString
  | String c s' => String (lower c) (lower_string s')
  end.

(** [int(ds)] for a string of digits; the empty string counts as 0. *)
Definition digits_value (ds : string) : N :=
  match DecimalString.NilEmpty.uint_of_string ds with
  | Some u => N.of_uint u
  | None => 0%N
  end.

Definition parse_sign (s : string) : bool * string :=
  match s with
  | String "-" rest => (true, rest)
  | String "+" rest => (false, rest)
  | _ => (false, s)
  end.

(** What follows the mantissa: nothing, or [E], an optional sign and at least
    one digit, up to the end of the text. *)
Definition parse_exponent (s : string) : option Z :=
  match s with
  | EmptyString => Some 0
  | String c rest =>
    if Ascii.eqb (lower c) "e" then
      let (neg, rest1) := parse_sign rest in
      let (ds, rest2) := span_digits rest1 in
      if negb (ds =? "")%string && (rest2 =? "")%string
      then Some (if neg then - Z.of_N (digits_value ds)
                 else Z.of_N (digits_value ds))
      else None
    else None
  end.

(** A numeric string after its sign: digits with an optional fractional
    part (at least one digit in all) and an optional exponent. *)
Definition parse_number (s : string) : option (N * Z) :=
  let (intpart, rest) := span_digits s in
  let '(fracpart, rest') :=
    match rest with
    | String "." rest1 => span_digits rest1
    | _ => (EmptyString, rest)
    end in
  if (intpart =? "")%string && (fracpart =? "")%string then None
  else
    match parse_exponent rest' with
    | Some exp =>
      Some (digits_value (intpart ++ fracpart),
            exp - Z.of_nat (String.length fracpart))
    | None => None
    end.

(** [NaN] followed by its diagnostic digits: the payload. *)
Definition parse_nan (s : string) : option N :=
  match s with
  | String "n" (String "a" (String "n" rest)) =>
    if (snd (span_digits rest) =? "")%string
    then Some (digits_value rest) else None
  | _ => None
  end.

(** The largest exponent and the smallest exponent of a subnormal number
    that the C implementation can hold (on a 64-bit platform). *)
Definition MAX_EMAX : Z := 999999999999999999.
Definition MIN_ETINY : Z := -1999999999999999997.

(** Whether the number can be held as it is written, without rounding or
    clamping.  (A coefficient of 10^18 digits or more cannot either; no
    text is that long.) *)
Definition held_exactly (coeff : N) (exp : Z) : bool :=
  (MIN_ETINY <=? exp) && (adjusted coeff exp <=? MAX_EMAX).

(** [Decimal(text)]: white space around the text and underscores inside it
    are dropped; the rest is a signed number, infinity or NaN, or the
    constructor raises [InvalidOperation]; it also does for a number it
    cannot hold exactly. *)
Definition of_string (text : string) : result Decimal :=
  match numeric_as_ascii text with
  | None => Raise (InvalidOperation ConversionSyntax)
  | Some digits =>
    let (sign, body) := parse_sign digits in
    match parse_number body with
    | Some (coeff, exp) =>
      if held_exactly coeff exp then Ok (DFinite sign coeff exp)
      else Raise (InvalidOperation InexactConversion)
    | None =>
      let word := lower_string body in
      if (word =? "inf")%string || (word =? "infinity")%string
      then Ok (DInf sign)
      else
        match parse_nan word, word with
        | Some payload, _ => Ok (DNaN sign false payload)
        | None, String "s" word' =>
          match parse_nan word' with
          | Some payload => Ok (DNaN sign true payload)
          | None => Raise (InvalidOperation ConversionSyntax)
          end
        | None, _ => Raise (InvalidOperation ConversionSyntax)
        end
    end
  end.

(** ["%+d" % n]. *)
Definition str_signed (z : Z) : string :=
  if z <? 0 then str_of_Z z else "+" ++ str_of_Z z.

(** [str(d)]: plain notation when the exponent is at most 0 and the number
    is not too small, scientific notation otherwise. *)
Definition to_string (d : Decimal) : string :=
  match d with
  | DInf s => (if s then "-" else "") ++ "Infinity"
  | DNaN s sig payload =>
    (if s then "-" else "") ++ (if sig then "sNaN" else "NaN")
      ++ (if (payload =? 0)%N then "" else str_of_N payload)
  | DFinite s c e =>
    let digits := str_of_N c in
    let len := ndigits c in
    let leftdigits := e + len in
    let dotplace :=
      if (e <=? 0) && (-6 <? leftdigits) then leftdigits else 1 in
    let '(intpart, fracpart) :=
      if dotplace <=? 0
      then ("0", "." ++ replicate (Z.to_nat (- dotplace)) "0" ++ digits)
      else if len <=? dotplace
      then (digits ++ replicate (Z.to_nat (dotplace - len)) "0", "")
      else (substring 0 (Z.to_nat dotplace) digits,
            "." ++ substring (Z.to_nat dotplace)
                             (Z.to_nat (len - dotplace)) digits) in
    let exp :=
      if leftdigits =? dotplace then ""
      else "E" ++ str_signed (leftdigits - dotplace) in
    (if s then "-" else "") ++ intpart ++ fracpart ++ exp
  end.

End PyDecimal.
Export PyDecimal.

(** ** Python numbers

    The amounts the handlers compute with are either ints (the literals 0
    and 1 and what is added to them) or decimals. *)

Inductive pynum :=
| PInt (z : Z)
| PDec (d : Decimal).

(** [bool(x)]. *)
Definition truthy (x : pynum) : bool :=
  match x with
  | PInt z => negb (z =? 0)
  | PDec d => dec_bool d
  end.

(** [x or default]. *)
Definition py_or (x default : pynum) : pynum :=
  if truthy x then x else default.

(** [x or default] for a query result that may be [None]. *)
Definition opt_or (x : option Decimal) (default : pynum) : pynum :=
  match x with
  | Some d => py_or (PDec d) default
  | None => default
  end.

(** The decimal an operand is converted to when the other one is a decimal. *)
Definition as_decimal (x : pynum) : Decimal :=
  match x with
  | PInt z => of_int z
  | PDec d => d
  end.

(** [x + y]; a decimal operand takes the lead, also when it is on the right. *)
Definition py_add (x y : pynum) : result pynum :=
  match x, y with
  | PInt a, PInt b => Ok (PInt (a + b))
  | PInt a, PDec d => r <- dec_add d (of_int a);; Ok (PDec r)
  | PDec d, _ => r <- dec_add d (as_decimal y);; Ok (PDec r)
  end.

(** [x * n] for an int [n]. *)
Definition py_mul_int (x : pynum) (n : Z) : result pynum :=
  match x with
  | PInt a => Ok (PInt (a * n))
  | PDec d => r <- dec_mul d (of_int n);; Ok (PDec r)
  end.

(** [str(round(q, 2)) + "%"] for a decimal quotient. *)
Definition render_percent (q : Decimal) : result string :=
  r <- dec_round q 2;; Ok (to_string r ++ "%").

(** ** The tables of [database/models.py]

    Money columns are DECIMAL(10, 2).  Credits and payments are only read:
    their amounts are kept in hundredths and reach Python as decimals with
    two fractional digits.  A plan's sum is the Python decimal the import
    handed to the store. *)

Module Credit.
Record t := mk {
  id : Z;
  user_id : Z;
  issuance_date : date;
  return_date : date;
  actual_return_date : option date;
  body : Z;
  percent : Z
}.
End Credit.

Module Dictionary.
Record t := mk {
  id : Z;
  name : string
}.
End Dictionary.

Module Plan.
Record t := mk {
  id : Z;
  period : date;
  sum : Decimal;
  category_id : Z
}.
End Plan.

Module Payment.
Record t := mk {
  id : Z;
  sum : Z;
  payment_date : date;
  credit_id : Z;
  type_id : Z
}.
End Payment.

(** The database: one list of rows per table, in storage order. *)
Record store := mkstore {
  credits : list Credit.t;
  payments : list Payment.t;
  dictionaries : list Dictionary.t;
  plans : list Plan.t
}.

(** ** The queries of [database/requests.py] *)

Module Requests.

(** SQL [SUM] over the selected rows of a money column: NULL when no row is
    selected. *)
Definition sql_sum (cents : list Z) : option Decimal :=
  match cents with
  | [] => None
  | _ => Some (of_cents (fold_right Z.add 0 cents))
  end.

(** SQL [COUNT]. *)
Definition sql_count {A : Type} (rows : list A) : Z := Z.of_nat (List.length rows).

Definition get_credit_by_user_id (s : store) (user_id : Z) : list Credit.t :=
  filter (fun c => Credit.user_id c =? user_id) (credits s).

Definition get_loan_payment_amount_by_credit_id (s : store) (credit_id : Z)
  : pynum :=
  opt_or
    (sql_sum (map Payment.sum
       (filter (fun p => Payment.credit_id p =? credit_id) (payments s))))
    (PInt 0).

Definition get_credit_payments_by_type (s : store) (credit_id type_id : Z)
  : pynum :=
  opt_or
    (sql_sum (map Payment.sum
       (filter (fun p => (Payment.type_id p =? type_id) &&
                         (Payment.credit_id p =? credit_id)) (payments s))))
    (PInt 0).

(** The id of the first dictionary row with that name, if any. *)
Definition get_category_id_by_name (s : store) (category_name : string)
  : option Z :=
  option_map Dictionary.id
    (find (fun d => (Dictionary.name d =? category_name)%string)
          (dictionaries s)).

Definition get_plan_by_date_and_category
  (s : store) (period_date : date) (category_id : Z) : option Plan.t :=
  find (fun p => date_eqb (Plan.period p) period_date &&
                 (Plan.category_id p =? category_id)) (plans s).

Definition get_month_plans (s : store) (today_date : date) : list Plan.t :=
  filter (fun p => date_eqb (Plan.period p) today_date) (plans s).

Definition get_category_name_by_id (s : store) (category_id : Z)
  : option string :=
  option_map Dictionary.name
    (find (fun d => Dictionary.id d =? category_id) (dictionaries s)).

Definition incr_month (plan_date : date) : result date :=
  if month plan_date =? 12
  then date_new (year plan_date + 1) 1 1
  else date_new (year plan_date) (month plan_date + 1) 1.

Definition get_sum_issued_loans (s : store) (period actual_date : date)
  : option Decimal :=
  sql_sum (map Credit.body
    (filter (fun c => date_leb period (Credit.issuance_date c) &&
                      date_leb (Credit.issuance_date c) actual_date)
            (credits s))).

Definition get_month_sum_issued_loans (s : store) (period : date)
  : result (option Decimal) :=
  next <- incr_month period;;
  Ok (sql_sum (map Credit.body
    (filter (fun c => date_leb period (Credit.issuance_date c) &&
                      date_ltb (Credit.issuance_date c) next)
            (credits s)))).

Definition get_month_sum_payments (s : store) (plan_date : date)
  : result (option Decimal) :=
  next <- incr_month plan_date;;
  Ok (sql_sum (map Payment.sum
    (filter (fun p => date_leb plan_date (Payment.payment_date p) &&
                      date_ltb (Payment.payment_date p) next)
            (payments s)))).

Definition get_payment_sum (s : store) (period actual_date : date)
  : option Decimal :=
  sql_sum (map Payment.sum
    (filter (fun p => date_leb period (Payment.payment_date p) &&
                      date_leb (Payment.payment_date p) actual_date)
            (payments s))).

(** [ORDER BY period], as a stable insertion sort. *)
Fixpoint insert_by_period (p : Plan.t) (sorted : list Plan.t) : list Plan.t :=
  match sorted with
  | [] => [p]
  | q :: rest =>
    if date_ltb (Plan.period p) (Plan.period q) then p :: q :: rest
    else q :: insert_by_period p rest
  end.

Definition order_by_period (rows : list Plan.t) : list Plan.t :=
  fold_left (fun sorted p => insert_by_period p sorted) rows [].

(** [grouped[plan.period].append(plan)] on a dict that keeps the order in
    which its keys were first seen. *)
Fixpoint group_append (grouped : list (date * list Plan.t)) (p : Plan.t)
  : list (date * list Plan.t) :=
  match grouped with
  | [] => [(Plan.period p, [p])]
  | (k, ps) :: rest =>
    if date_eqb k (Plan.period p) then (k, (ps ++ [p])%list) :: rest
    else (k, ps) :: group_append rest p
  end.

Definition get_year_plans (s : store) (year : Z)
  : result (list (date * list Plan.t)) :=
  first <- date_new year 1 1;;
  last <- date_new year 12 1;;
  let rows :=
    order_by_period
      (filter (fun p => date_leb first (Plan.period p) &&
                        date_leb (Plan.period p) last) (plans s)) in
  Ok (fold_left group_append rows []).

Definition get_amount_of_loans (s : store) (plan_date : date) : result Z :=
  next <- incr_month plan_date;;
  Ok (sql_count
    (filter (fun c => date_leb plan_date (Credit.issuance_date c) &&
                      date_ltb (Credit.issuance_date c) next)
            (credits s))).

Definition get_amount_of_payments (s : store) (plan_date : date) : result Z :=
  next <- incr_month plan_date;;
  Ok (sql_count
    (filter (fun p => date_leb plan_date (Payment.payment_date p) &&
                      date_ltb (Payment.payment_date p) next)
            (payments s))).

(** *** The session of [bulk_insert_plans]

    A session holds the committed tables, the objects staged by
    [session.add] and the rows written inside the open transaction.
    [session.commit] writes the staged rows one by one and then commits;
    when it fails, the rows it wrote stay in the open transaction and the
    objects stay staged, until [session.rollback] drops both. *)

(** The dict of keyword arguments from which a [Plan] object is built. *)
Record plan_data := mkdata {
  pd_period : date;
  pd_sum : Decimal;
  pd_category_id : Z
}.

(** How the store behaves during one commit: [None] when it works,
    [Some (k, msg)] when it fails with message [msg] after [k] staged rows
    were written (at the final commit when there are no more than [k] rows). *)
Definition store_fault : Type := option (nat * string).

Record session := mksession {
  committed : store;
  staged : list plan_data;
  written : list Plan.t
}.

Definition open_session (s : store) : session := mksession s [] [].

Definition session_add (se : session) (pd : plan_data) : session :=
  mksession (committed se) (staged se ++ [pd])%list (written se).

(** The key the store gives to a new row: one more than the largest in use. *)
Definition next_plan_id (rows : list Plan.t) : Z :=
  1 + fold_right (fun p acc => Z.max (Plan.id p) acc) 0 rows.

(** Writing the staged rows, the [k]-th first; stops at the fault. *)
Fixpoint flush (fault : store_fault) (k : nat) (base : list Plan.t)
  (pending : list plan_data) (written : list Plan.t)
  : list Plan.t * option string :=
  match pending with
  | [] =>
    match fault with
    | Some (_, msg) => (written, Some msg)
    | None => (written, None)
    end
  | pd :: rest =>
    match fault with
    | Some (j, msg) =>
      if (j =? k)%nat then (written, Some msg)
      else
        flush fault (S k) base rest
          (written ++ [Plan.mk (next_plan_id (base ++ written))
                         (pd_period pd) (pd_sum pd) (pd_category_id pd)])%list
    | None =>
      flush fault (S k) base rest
        (written ++ [Plan.mk (next_plan_id (base ++ written))
                       (pd_period pd) (pd_sum pd) (pd_category_id pd)])%list
    end
  end.

(** [session.commit()]: the message of the store's exception on failure. *)
Definition session_commit (fault : store_fault) (se : session)
  : session * option string :=
  let s := committed se in
  match flush fault 0 (plans s) (staged se) (written se) with
  | (rows, None) =>
    (mksession
       (mkstore (credits s) (payments s) (dictionaries s)
                (plans s ++ rows)%list) [] [],
     None)
  | (rows, Some msg) => (mksession s (staged se) rows, Some msg)
  end.

(** [session.rollback()]: what the open transaction wrote is undone and
    the staged objects are expunged. *)
Definition session_rollback (se : session) : session :=
  mksession (committed se) [] [].

(** Leaving [async with async_session() as session]: the session is closed
    and the database is left with what was committed; a transaction still
    open is dropped with what it wrote. *)
Definition session_close (se : session) : store := committed se.

(** What a handler raises on purpose: [HTTPException(status_code, detail)]. *)
Inductive http_detail :=
| DetailText (text : string)
| DetailErrors (errors : list string).

(** The body of [bulk_insert_plans], run in the session [se]: the session
    as the body leaves it, and the [HTTPException] it raises, if any. *)
Definition bulk_insert_plans_in (se : session) (fault : store_fault)
  (plans : list plan_data) : session * option (Z * http_detail) :=
  let se := fold_left session_add plans se in
  match session_commit fault se with
  | (se', None) => (se', None)
  | (se', Some msg) =>
    (session_rollback se',
     Some (500, DetailText ("Ошибка при сохранении в БД: " ++ msg)))
  end.

(** [bulk_insert_plans] under its decorator [connection]: the body runs in
    a session of its own, which is closed when the body is left. *)
Definition bulk_insert_plans (s : store) (fault : store_fault)
  (plans : list plan_data) : store * option (Z * http_detail) :=
  let '(se, raised) := bulk_insert_plans_in (open_session s) fault plans in
  (session_close se, raised).

End Requests.

(** ** The handlers of [main.py] *)

Module Main.
Import Requests.

(** How a handler ends: it returns, it raises an [HTTPException] on purpose,
    or an exception escapes it (the framework then answers with status 500). *)
Inductive response (A : Type) :=
| Return (a : A)
| HTTPException (status_code : Z) (detail : http_detail)
| Escaped (e : exn).

Arguments Return {A} a.
Arguments HTTPException {A} status_code detail.
Arguments Escaped {A} e.

(** Running a fallible computation inside a handler. *)
Definition run {A B : Type} (r : result A) (k : A -> response B)
  : response B :=
  match r with
  | Ok a => k a
  | Raise e => Escaped e
  end.

(** *** [get_user_credits] *)

(** The two shapes of the dict built for a credit. *)
Inductive credit_info :=
| Repaid
    (issuance_date actual_return_date : date)
    (body percent : Decimal)
    (loan_payment_amount : pynum)
| Outstanding
    (issuance_date return_date : date)
    (days_overdue : Z)
    (today : date)
    (body percent : Decimal)
    (sum_body_payments sum_percent_payments : pynum).

(** The [else] branch's computation of [days_overdue]. *)
Definition days_overdue_of (return_date today : date) : Z :=
  let days_overdue := sub_days return_date today in
  if 0 <=? days_overdue then 0 else Z.abs days_overdue.

(** The body of the loop over the user's credits; [today] is what
    [date.today()] returns. *)
Definition credit_entry (s : store) (today : date) (credit : Credit.t)
  : credit_info :=
  match Credit.actual_return_date credit with
  | Some returned =>
    Repaid (Credit.issuance_date credit) returned
           (of_cents (Credit.body credit)) (of_cents (Credit.percent credit))
           (get_loan_payment_amount_by_credit_id s (Credit.id credit))
  | None =>
    Outstanding (Credit.issuance_date credit) (Credit.return_date credit)
                (days_overdue_of (Credit.return_date credit) today)
                today
                (of_cents (Credit.body credit))
                (of_cents (Credit.percent credit))
                (get_credit_payments_by_type s (Credit.id credit) 1)
                (get_credit_payments_by_type s (Credit.id credit) 2)
  end.

Definition get_user_credits (s : store) (today : date) (user_id : Z)
  : response (list credit_info) :=
  match get_credit_by_user_id s user_id with
  | [] => HTTPException 404 (DetailText "Користувача не знайдено")
  | user_credits => Return (map (credit_entry s today) user_credits)
  end.

(** *** [upload_plans]

    The handler is modelled from the decoded sheet on: one [row] per line of
    the data frame, indexed from 0. *)

(** What [row['period']] can be: a [datetime] (a pandas [Timestamp] is
    one), pandas' [NaT], which stands for an empty cell in a column of dates
    and is an instance of [datetime] too, a [date], or anything else. *)
Inductive period_cell :=
| PeriodDatetime (dt : datetime)
| PeriodNaT
| PeriodDate (d : date)
| PeriodOther.

(** What [period_date] is after the first test: a date, or [NaT], which is
    what [NaT.date()] returns. *)
Inductive period_value :=
| DateValue (d : date)
| NaT.

(** The test [period_date.day != 1]: the date that goes on when the test
    does not hold.  The day of [NaT] is the float nan, which differs from
    every number. *)
Definition day_is_1 (period_date : period_value) : option date :=
  match period_date with
  | DateValue d => if negb (day d =? 1) then None else Some d
  | NaT => None
  end.

(** What [row['sum']] can be: a missing value ([pd.isna]), or a value given
    by its text [str(row['sum'])]. *)
Inductive sum_cell :=
| SumNA
| SumValue (text : string).

(** A row of the sheet; [category_name] is [str(row['category_name'])]. *)
Record row := mkrow {
  period : period_cell;
  sum : sum_cell;
  category_name : string
}.

(** The prefix of every error message: the row's number, counted from 1. *)
Definition row_label (index : Z) : string :=
  "Рядок " ++ str_of_Z (index + 1) ++ ": ".

(** The body of the loop over the rows: the error message the row adds, or
    the plan it adds to the batch. *)
Definition check_row (s : store) (index : Z) (r : row) : string + plan_data :=
  match
    match period r with
    | PeriodDatetime dt => Some (DateValue (dt_date dt))
    | PeriodNaT => Some NaT
    | PeriodDate d => Some (DateValue d)
    | PeriodOther => None
    end
  with
  | None => inl (row_label index ++ "Некоректний формат дати")
  | Some period_value =>
    match day_is_1 period_value with
    | None =>
      inl (row_label index ++ "Дата повинна бути першим числом місяця")
    | Some period_date =>
      match sum r with
      | SumNA => inl (row_label index ++ "Сума не может бути пустой")
      | SumValue text =>
        match d <- of_string text;; quantize d (DFinite false 0 (-2)) with
        | Raise _ => inl (row_label index ++ "Некоректне значення суми")
        | Ok amount =>
          let category_name := strip (category_name r) in
          match get_category_id_by_name s category_name with
          | None | Some 0 =>
            inl (row_label index ++ "Катігорія '" ++ category_name
                   ++ "' не знайдена")
          | Some category_id =>
            match get_plan_by_date_and_category s period_date category_id with
            | Some _ =>
              inl (row_label index ++ "План на "
                     ++ strftime_Y_m_d period_date ++ " для категорії '"
                     ++ category_name ++ "' вже існує")
            | None => inr (mkdata period_date amount category_id)
            end
          end
        end
      end
    end
  end.

(** The loop over the rows, with its two accumulators. *)
Fixpoint check_rows (s : store) (index : Z) (rows : list row)
  (errors : list string) (plans_to_insert : list plan_data)
  : list string * list plan_data :=
  match rows with
  | [] => (errors, plans_to_insert)
  | r :: rest =>
    match check_row s index r with
    | inl message =>
      check_rows s (index + 1) rest (errors ++ [message])%list plans_to_insert
    | inr plan =>
      check_rows s (index + 1) rest errors (plans_to_insert ++ [plan])%list
    end
  end.

(** The handler: the store it leaves and its answer (the message of the
    JSON response with status 200 when it returns). *)
Definition upload_plans (s : store) (fault : store_fault) (rows : list row)
  : store * response string :=
  let '(errors, plans_to_insert) := check_rows s 0 rows [] [] in
  match errors with
  | _ :: _ => (s, HTTPException 400 (DetailErrors errors))
  | [] =>
    match bulk_insert_plans s fault plans_to_insert with
    | (s', Some (status, detail)) => (s', HTTPException status detail)
    | (s', None) =>
      (s', Return ("Успішно додано "
                     ++ str_of_Z (Z.of_nat (List.length plans_to_insert))
                     ++ " записів в БД"))
    end
  end.

(** *** [get_all_performance] *)

(** The two shapes of the dict built for a plan; the actual sum is what the
    query returned. *)
Inductive status_entry :=
| IssuedStatus (period : date) (category : string) (plan_sum : Decimal)
    (sum_issued_loans : option Decimal) (plan_completion_rate : string)
| PaymentStatus (period : date) (category : string) (plan_sum : Decimal)
    (payment_sum : option Decimal) (plan_completion_rate : string).

(** [str(round(actual*100/(plan_sum or 1), 2))+"%"], where [actual] is what
    the sum query returned: multiplying [None] raises [TypeError]. *)
Definition completion_rate (actual : option Decimal) (plan_sum : Decimal)
  : result string :=
  match actual with
  | None => Raise TypeError
  | Some a =>
    n <- dec_mul a (of_int 100);;
    q <- dec_div n (as_decimal (py_or (PDec plan_sum) (PInt 1)));;
    render_percent q
  end.

(** [category == name], where [category] may be [None]. *)
Definition name_is (category : option string) (name : string) : bool :=
  match category with
  | Some c => (c =? name)%string
  | None => false
  end.

(** The loop over the month's plans. *)
Fixpoint plan_statuses (s : store) (date_obj : date) (month_plans : list Plan.t)
  (plan_status : list status_entry) : result (list status_entry) :=
  match month_plans with
  | [] => Ok plan_status
  | plan :: rest =>
    let category := get_category_name_by_id s (Plan.category_id plan) in
    if name_is category "видача" then
      let sum_issued_loans :=
        get_sum_issued_loans s (Plan.period plan) date_obj in
      rate <- completion_rate sum_issued_loans (Plan.sum plan);;
      plan_statuses s date_obj rest
        (plan_status ++ [IssuedStatus (Plan.period plan) "видача"
                           (Plan.sum plan) sum_issued_loans rate])%list
    else if name_is category "збір" then
      let payment_sum := get_payment_sum s (Plan.period plan) date_obj in
      rate <- completion_rate payment_sum (Plan.sum plan);;
      plan_statuses s date_obj rest
        (plan_status ++ [PaymentStatus (Plan.period plan) "збір"
                           (Plan.sum plan) payment_sum rate])%list
    else plan_statuses s date_obj rest plan_status
  end.

(** The handler, from the outcome of [datetime.strptime(date_str,
    "%d-%m-%Y").date()] on: [None] when the text does not parse. *)
Definition get_all_performance (s : store) (parsed : option date)
  : response (list status_entry) :=
  match parsed with
  | None =>
    HTTPException 400
      (DetailText "Невірний формат дати. Очікується формат DD-MM-YYYY.")
  | Some date_obj =>
    run (date_new (year date_obj) (month date_obj) 1) (fun actual_month =>
    match get_month_plans s actual_month with
    | [] =>
      HTTPException 404
        (DetailText ("На поточний місяць ще не заплановано жодного плану. "
                     ++ "Створіть плани для перегляду виконання."))
    | month_plans =>
      run (plan_statuses s date_obj month_plans []) Return
    end)
  end.

(** *** [get_year_performance] *)

Section YearPerformance.

(** [str(round(x / y, 2))] for two ints with [y] other than 0.  Their
    quotient is a binary float; its arithmetic and its text are not modelled
    and stay a parameter of the handler. *)
Variable float_round2_str : Z -> Z -> string.

(** [str(round(num * 100 / den, 2)) + "%"]. *)
Definition percent_string (num den : pynum) : result string :=
  n <- py_mul_int num 100;;
  match n, den with
  | PInt x, PInt y =>
    if y =? 0 then Raise ZeroDivisionError
    else Ok (float_round2_str x y ++ "%")
  | _, _ => q <- dec_div (as_decimal n) (as_decimal den);; render_percent q
  end.

(** [plan.category_id == category_id], where the looked-up id may be [None]. *)
Definition id_is (plan : Plan.t) (category_id : option Z) : bool :=
  match category_id with
  | Some i => Plan.category_id plan =? i
  | None => false
  end.

(** The body of the first pass: one plan's share of the two annual totals. *)
Definition add_to_year (s : store) (plan_date : date) (plan : Plan.t)
  (totals : pynum * pynum) : result (pynum * pynum) :=
  let '(sum_issues_of_year, sum_payments_of_year) := totals in
  if id_is plan (get_category_id_by_name s "видача") then
    month_sum <- get_month_sum_issued_loans s plan_date;;
    total <- py_add sum_issues_of_year (opt_or month_sum (PInt 0));;
    Ok (total, sum_payments_of_year)
  else
    month_sum <- get_month_sum_payments s plan_date;;
    total <- py_add sum_payments_of_year (opt_or month_sum (PInt 0));;
    Ok (sum_issues_of_year, total).

Fixpoint add_group_to_year (s : store) (plan_date : date)
  (plans_list : list Plan.t) (totals : pynum * pynum)
  : result (pynum * pynum) :=
  match plans_list with
  | [] => Ok totals
  | plan :: rest =>
    totals' <- add_to_year s plan_date plan totals;;
    add_group_to_year s plan_date rest totals'
  end.

(** The first pass over the grouped plans. *)
Fixpoint year_totals (s : store) (groups : list (date * list Plan.t))
  (totals : pynum * pynum) : result (pynum * pynum) :=
  match groups with
  | [] => Ok totals
  | (plan_date, plans_list) :: rest =>
    totals' <- add_group_to_year s plan_date plans_list totals;;
    year_totals s rest totals'
  end.

(** The six variables the second pass resets for every month. *)
Record month_vars := mkvars {
  v_issued_loans_count : Z;
  v_payments_count : Z;
  v_plan_sum_issued_loans : pynum;
  v_plan_sum_payments : pynum;
  v_sum_issued_loans : pynum;
  v_sum_payments : pynum
}.

(** The body of the second pass's inner loop. *)
Definition month_step (s : store) (plan_date : date) (plan : Plan.t)
  (v : month_vars) : result month_vars :=
  if id_is plan (get_category_id_by_name s "видача") then
    amount <- get_amount_of_loans s plan_date;;
    month_sum <- get_month_sum_issued_loans s plan_date;;
    Ok (mkvars (v_issued_loans_count v + amount) (v_payments_count v)
               (PDec (Plan.sum plan)) (v_plan_sum_payments v)
               (opt_or month_sum (PInt 0)) (v_sum_payments v))
  else
    amount <- get_amount_of_payments s plan_date;;
    month_sum <- get_month_sum_payments s plan_date;;
    Ok (mkvars (v_issued_loans_count v) (v_payments_count v + amount)
               (v_plan_sum_issued_loans v) (PDec (Plan.sum plan))
               (v_sum_issued_loans v) (opt_or month_sum (PInt 0))).

Fixpoint month_loop (s : store) (plan_date : date) (plans_list : list Plan.t)
  (v : month_vars) : result month_vars :=
  match plans_list with
  | [] => Ok v
  | plan :: rest =>
    v' <- month_step s plan_date plan v;;
    month_loop s plan_date rest v'
  end.

(** The dict appended to [year_status] for a month. *)
Record month_status := mkmonth {
  date_label : string;
  issued_loans_count : Z;
  plan_sum_issued_loans : pynum;
  sum_issued_loans : pynum;
  plan_issued_completion_rate : string;
  payments_count : Z;
  plan_sum_payments : pynum;
  sum_payments : pynum;
  plan_payments_completion_rate : string;
  monthly_issued_percent_of_year : string;
  monthly_payment_percent_of_year : string
}.

(** One round of the second pass: the month's dict, its values computed in
    the order of its keys. *)
Definition month_entry (s : store) (totals : pynum * pynum)
  (plan_date : date) (plans_list : list Plan.t) : result month_status :=
  let '(sum_issues_of_year, sum_payments_of_year) := totals in
  v <- month_loop s plan_date plans_list
         (mkvars 0 0 (PInt 0) (PInt 0) (PInt 0) (PInt 0));;
  issued_rate <-
    percent_string (v_sum_issued_loans v) (v_plan_sum_issued_loans v);;
  payments_rate <-
    percent_string (v_sum_payments v) (v_plan_sum_payments v);;
  issued_share <-
    percent_string (v_sum_issued_loans v)
                    (py_or sum_issues_of_year (PInt 1));;
  payments_share <-
    percent_string (v_sum_payments v)
                    (py_or sum_payments_of_year (PInt 1));;
  Ok (mkmonth (strftime_m_Y plan_date)
        (v_issued_loans_count v) (v_plan_sum_issued_loans v)
        (v_sum_issued_loans v) issued_rate
        (v_payments_count v) (v_plan_sum_payments v)
        (v_sum_payments v) payments_rate
        issued_share payments_share).

(** The second pass over the grouped plans. *)
Fixpoint year_months (s : store) (totals : pynum * pynum)
  (groups : list (date * list Plan.t)) (year_status : list month_status)
  : result (list month_status) :=
  match groups with
  | [] => Ok year_status
  | (plan_date, plans_list) :: rest =>
    entry <- month_entry s totals plan_date plans_list;;
    year_months s totals rest (year_status ++ [entry])%list
  end.

Definition get_year_performance (s : store) (year : Z)
  : response (list month_status) :=
  run (get_year_plans s year) (fun plans =>
  match plans with
  | [] =>
    HTTPException 404
      (DetailText ("На поточний рік ще не заплановано жодного плану. "
                   ++ "Створіть плани для перегляду виконання."))
  | _ =>
    run (year_totals s plans (PInt 0, PInt 0)) (fun totals =>
    run (year_months s totals plans []) Return)
  end).

End YearPerformance.

End Main.


(** * The handlers from the text of their requests *)

From Stdlib Require Import Permutation Sorted.

(** ** Text of requests *)

Module PyText.

(** [s.endswith(suffix)]. *)
Definition endswith (s suffix : string) : bool :=
  let n := String.length s in
  let m := String.length suffix in
  (m <=? n)%nat && (substring (n - m) m s =? suffix)%string.

(** [sep.join(parts)]. *)
Definition join (sep : string) (parts : list string) : string :=
  String.concat sep parts.

(** [x in xs] for strings. *)
Definition contains (xs : list string) (x : string) : bool :=
  existsb (String.eqb x) xs.

End PyText.
Export PyText.

(** ** [datetime.strptime(text, "%d-%m-%Y")]

    The format compiles to the regular expression
    [(3[0-1]|[1-2]\d|0[1-9]|[1-9]| [1-9])-(1[0-2]|0[1-9]|[1-9])-(\d\d\d\d)],
    matched at the start of the text; alternatives are tried from left to
    right, and text left over after the match is an error.  The class [\d]
    holds the decimal digits of every script; the digits written out in the
    expression are the ASCII ones. *)

Module PyStrptime.

(** The class of the characters listed in [members]. *)
Definition one_of (members : string) (cp : N) : bool :=
  existsb (N.eqb cp) (map N_of_ascii (list_ascii_of_string members)).

(** A sequence of character classes against the start of a text: the
    characters it matches and the rest. *)
Fixpoint match_classes (classes : list (N -> bool)) (s : list char)
  : option (list char * list char) :=
  match classes with
  | [] => Some ([], s)
  | cl :: classes' =>
    match s with
    | c :: s' =>
      if cl (code c) then
        match match_classes classes' s' with
        | Some (matched, rest) => Some (c :: matched, rest)
        | None => None
        end
      else None
    | [] => None
    end
  end.

(** An alternation followed by the rest of the expression [k]: the first
    alternative after which the rest matches. *)
Fixpoint alternation {A : Type} (alternatives : list (list (N -> bool)))
  (k : list char -> list char -> option A) (s : list char) : option A :=
  match alternatives with
  | [] => None
  | classes :: others =>
    match match_classes classes s with
    | Some (matched, rest) =>
      match k matched rest with
      | Some a => Some a
      | None => alternation others k s
      end
    | None => alternation others k s
    end
  end.

(** A literal character followed by the rest of the expression. *)
Definition literal {A : Type} (c : ascii) (k : list char -> option A)
  (s : list char) : option A :=
  match s with
  | c' :: s' => if (code c' =? N_of_ascii c)%N then k s' else None
  | [] => None
  end.

Definition day_alternatives : list (list (N -> bool)) :=
  [[one_of "3"; one_of "01"];
   [one_of "12"; isdecimal];
   [one_of "0"; one_of "123456789"];
   [one_of "123456789"];
   [one_of " "; one_of "123456789"]].

Definition month_alternatives : list (list (N -> bool)) :=
  [[one_of "1"; one_of "012"];
   [one_of "0"; one_of "123456789"];
   [one_of "123456789"]].

Definition year_alternatives : list (list (N -> bool)) :=
  [[isdecimal; isdecimal; isdecimal; isdecimal]].

(** [int(group)] for a matched group: decimal digits, after a space at
    most. *)
Definition group_value (group : list char) : Z :=
  Z.of_N
    (fold_left
       (fun value c =>
          match decimal (code c) with
          | Some digit => (10 * value + digit)%N
          | None => value
          end)
       group 0%N).

(** The three groups and the text left after the match. *)
Definition match_d_m_Y (text : string)
  : option (list char * list char * list char * list char) :=
  alternation day_alternatives (fun d =>
    literal "-" (alternation month_alternatives (fun m =>
      literal "-" (alternation year_alternatives (fun y rest =>
        Some (d, m, y, rest)))))) (chars text).

(** [datetime.strptime(text, "%d-%m-%Y").date()]: [ValueError] when the text
    does not match, when text is left over, and when the three numbers are
    not a date. *)
Definition strptime_d_m_Y (text : string) : result date :=
  match match_d_m_Y text with
  | None => Raise ValueError
  | Some (d, m, y, rest) =>
    match rest with
    | [] => date_new (group_value y) (group_value m) (group_value d)
    | _ :: _ => Raise ValueError
    end
  end.

End PyStrptime.
Export PyStrptime.

(** ** The handlers *)

Module Handlers.
Import Requests Main.

(** [get_all_performance(date_str)]: a text that [strptime] refuses with
    [ValueError] is answered with status 400. *)
Definition get_all_performance_str (s : store) (date_str : string)
  : response (list status_entry) :=
  match strptime_d_m_Y date_str with
  | Ok date_obj => get_all_performance s (Some date_obj)
  | Raise ValueError => get_all_performance s None
  | Raise e => Escaped e
  end.

(** The data frame [pd.read_excel] returns: its column names and its rows. *)
Record sheet := mksheet {
  columns : list string;
  sheet_rows : list row
}.

(** What reading and decoding the uploaded file gives: an exception, known
    by its text [str(e)], or a data frame. *)
Inductive decoded :=
| Unreadable (message : string)
| Sheet (df : sheet).

Definition required_columns : list string :=
  ["period"; "sum"; "category_name"].

(** [upload_plans(file)], from the name of the file and from what reading it
    gives. *)
Definition upload_plans_file (s : store) (fault : store_fault)
  (filename : string) (contents : decoded) : store * response string :=
  if negb (endswith filename ".xls" || endswith filename ".xlsx") then
    (s, HTTPException 400
          (DetailText "Файл повинен бути у форматі Excel (.xls, .xlsx)"))
  else
    match contents with
    | Unreadable message =>
      (s, HTTPException 500 (DetailText ("Помилка обробки файлу: " ++ message)))
    | Sheet df =>
      if negb (forallb (contains (columns df)) required_columns) then
        let missing :=
          filter (fun col => negb (contains (columns df) col))
                 required_columns in
        (s, HTTPException 400
              (DetailText ("В файлі відсутні обов'язкові колонки: "
                             ++ join ", " missing)))
      else upload_plans s fault (sheet_rows df)
    end.

End Handlers.
(** * Vocabulary of the properties

    The definitions below are not part of the program: they name what the
    properties talk about, and the sample data the examples run on. *)

Import Requests Main.

(** ** Month arithmetic *)

(** [d'] is the first day of the month that follows the month of [d]. *)
Definition first_of_next_month (d d' : date) : Prop :=
  day d' = 1 /\
  (month d = 12 -> month d' = 1 /\ year d' = year d + 1) /\
  (month d <> 12 -> month d' = month d + 1 /\ year d' = year d).

(** ** Credit status *)

(** The [days_overdue] entry of a credit's dict, when it has one. *)
Definition info_days_overdue (info : credit_info) : option Z :=
  match info with
  | Outstanding _ _ days _ _ _ _ _ => Some days
  | Repaid _ _ _ _ _ => None
  end.

(** What the dict of an outstanding credit says about the delay: the days
    from the return date to today, or 0 when that is negative. *)
Definition reports_overdue (today : date) (credit : Credit.t)
  (info : credit_info) : Prop :=
  exists days,
    info_days_overdue info = Some days /\
    days = Z.max 0 (sub_days today (Credit.return_date credit)) /\
    0 <= days /\
    (sub_days today (Credit.return_date credit) <= 0 -> days = 0) /\
    (valid_date today = true ->
     valid_date (Credit.return_date credit) = true ->
     date_leb today (Credit.return_date credit) = true -> days = 0) /\
    (sub_days today (Credit.return_date credit) = 10 -> days = 10).

(** ** Plan import *)

(** The outcome of every row, in input order: row [i] is checked under
    index [i], against the store as it was when the import started. *)
Fixpoint row_results (s : store) (index : Z) (rows : list row)
  : list (string + plan_data) :=
  match rows with
  | [] => []
  | r :: rest => check_row s index r :: row_results s (index + 1) rest
  end.

Fixpoint lefts {A B : Type} (l : list (A + B)) : list A :=
  match l with
  | [] => []
  | inl a :: rest => a :: lefts rest
  | inr _ :: rest => lefts rest
  end.

Fixpoint rights {A B : Type} (l : list (A + B)) : list B :=
  match l with
  | [] => []
  | inl _ :: rest => rights rest
  | inr b :: rest => b :: rights rest
  end.

(** Whether row [i] of the sheet fails a check. *)
Definition fails (s : store) (rows : list row) (i : nat) : bool :=
  match nth_error rows i with
  | Some r =>
    match check_row s (Z.of_nat i) r with
    | inl _ => true
    | inr _ => false
    end
  | None => false
  end.

(** The positions of the failing rows, counted from 0, in input order. *)
Definition failing_rows (s : store) (rows : list row) : list nat :=
  filter (fails s rows) (seq 0 (List.length rows)).

(** A message that names row [i] by its number counted from 1, whether the
    row is kept or not. *)
Definition names_row (i : nat) (message : string) : Prop :=
  exists reason,
    message = "Рядок " ++ str_of_Z (Z.of_nat i + 1) ++ ": " ++ reason.

(** The session in which [bulk_insert_plans] stages the batch. *)
Definition staging (s : store) (batch : list plan_data) : session :=
  fold_left session_add batch (open_session s).

(** The columns of a stored plan that come from the import. *)
Definition plan_fields (p : Plan.t) : plan_data :=
  mkdata (Plan.period p) (Plan.sum p) (Plan.category_id p).

(** *** The order of the checks

    The six checks of a row, following the specification: each is a
    predicate on the row and the store, and a row is rejected with the
    message of the first check, in this order, that it does not pass. *)

Inductive check :=
| DateParses
| FirstOfMonth
| SumPresent
| SumParses
| CategoryResolves
| NoExistingPlan.

Definition checks_in_order : list check :=
  [DateParses; FirstOfMonth; SumPresent; SumParses; CategoryResolves;
   NoExistingPlan].

(** The calendar date the period cell of a row stands for, in its date-only
    form: an empty cell stands for none, and neither does a cell that holds
    something else than a date. *)
Definition row_date (r : row) : option date :=
  match period r with
  | PeriodDatetime dt => Some (dt_date dt)
  | PeriodDate d => Some d
  | PeriodNaT => None
  | PeriodOther => None
  end.

Definition row_amount (r : row) : option Decimal :=
  match sum r with
  | SumNA => None
  | SumValue text =>
    match d <- of_string text;; quantize d (DFinite false 0 (-2)) with
    | Ok amount => Some amount
    | Raise _ => None
    end
  end.

Definition row_category (s : store) (r : row) : option Z :=
  match get_category_id_by_name s (strip (category_name r)) with
  | Some id => if id =? 0 then None else Some id
  | None => None
  end.

Definition is_some {A : Type} (x : option A) : bool :=
  match x with Some _ => true | None => false end.

Definition passes (s : store) (r : row) (c : check) : bool :=
  match c with
  | DateParses => is_some (row_date r)
  | FirstOfMonth =>
    match row_date r with Some d => day d =? 1 | None => false end
  | SumPresent => match sum r with SumNA => false | SumValue _ => true end
  | SumParses => is_some (row_amount r)
  | CategoryResolves => is_some (row_category s r)
  | NoExistingPlan =>
    match row_date r, row_category s r with
    | Some d, Some id => negb (is_some (get_plan_by_date_and_category s d id))
    | _, _ => false
    end
  end.

Definition first_failure (s : store) (r : row) : option check :=
  find (fun c => negb (passes s r c)) checks_in_order.

Definition must_be_first_of_month : string :=
  "Дата повинна бути першим числом місяця".

Definition message_of (index : Z) (r : row) (c : check) : string :=
  row_label index ++
  match c with
  | DateParses => "Некоректний формат дати"
  | FirstOfMonth => must_be_first_of_month
  | SumPresent => "Сума не может бути пустой"
  | SumParses => "Некоректне значення суми"
  | CategoryResolves =>
    "Катігорія '" ++ strip (category_name r) ++ "' не знайдена"
  | NoExistingPlan =>
    "План на "
      ++ match row_date r with
         | Some d => strftime_Y_m_d d
         | None => ""
         end
      ++ " для категорії '" ++ strip (category_name r) ++ "' вже існує"
  end.

(** The message for a row whose date is not the first of a month. *)
Definition first_of_month_error (index : Z) : string :=
  row_label index ++ must_be_first_of_month.

(** *** Rounding of the sum *)

(** The number of hundredths [quantize] keeps of the coefficient [c] at
    exponent [e]. *)
Definition to_hundredths (c : N) (e : Z) : N :=
  if (c =? 0)%N then 0%N
  else if -2 <=? e then (c * pow10 (e + 2))%N
  else round_half_even c (-2 - e).

(** [q] units of 10^(e+k) are a nearest neighbour of [c] units of 10^e,
    and the even one of the two when [c] lies half way. *)
Definition nearest_even (c : N) (k : Z) (q : N) : Prop :=
  let err := Z.abs (Z.of_N c - Z.of_N q * Z.of_N (pow10 k)) in
  2 * err <= Z.of_N (pow10 k) /\
  (2 * err = Z.of_N (pow10 k) -> N.even q = true).

(** *** Uniqueness of plans *)

(** The pair that must identify a plan: its period and its category id. *)
Definition key : Type := date * Z.

Definition key_eqb (a b : key) : bool :=
  date_eqb (fst a) (fst b) && (snd a =? snd b).

Fixpoint unique_keys (ks : list key) : bool :=
  match ks with
  | [] => true
  | k :: rest => negb (existsb (key_eqb k) rest) && unique_keys rest
  end.

Definition plan_key (p : Plan.t) : key := (Plan.period p, Plan.category_id p).

Definition data_key (pd : plan_data) : key :=
  (pd_period pd, pd_category_id pd).

(** At most one plan for a (period, category id) pair. *)
Definition unique_plans (ps : list Plan.t) : bool :=
  unique_keys (map plan_key ps).

(** ** Month performance *)

(** The ledger rows a plan's rate is computed from: a credit for an issuance
    plan, a payment for a collection plan, dated from the plan's period to
    the requested date. *)
Definition has_ledger_rows (s : store) (date_obj : date) (plan : Plan.t)
  : Prop :=
  let category := get_category_name_by_id s (Plan.category_id plan) in
  (name_is category "видача" = true ->
   exists c,
     In c (credits s) /\
     date_leb (Plan.period plan) (Credit.issuance_date c) = true /\
     date_leb (Credit.issuance_date c) date_obj = true) /\
  (name_is category "збір" = true ->
   exists p,
     In p (payments s) /\
     date_leb (Plan.period plan) (Payment.payment_date p) = true /\
     date_leb (Payment.payment_date p) date_obj = true).

(** ** Year performance *)

(** The variables of the second pass as they are set at the start of every
    month. *)
Definition fresh_vars : month_vars :=
  mkvars 0 0 (PInt 0) (PInt 0) (PInt 0) (PInt 0).

(** ** Sample data *)

Module Sample.

(** The dictionary: the two payment types and the two plan categories. *)
Definition dictionary : list Dictionary.t :=
  [Dictionary.mk 1 "body"; Dictionary.mk 2 "percent";
   Dictionary.mk 3 "видача"; Dictionary.mk 4 "збір"].

(** Two credits of user 7: one outstanding and due on 2024-03-10, one
    repaid. *)
Definition ledger_credits : list Credit.t :=
  [Credit.mk 1 7 (mkdate 2024 3 5) (mkdate 2024 3 10) None 400000 1000;
   Credit.mk 2 7 (mkdate 2024 3 12) (mkdate 2024 4 10)
     (Some (mkdate 2024 3 30)) 200000 1000].

Definition ledger_payments : list Payment.t :=
  [Payment.mk 1 500000 (mkdate 2024 3 7) 1 1;
   Payment.mk 2 320000 (mkdate 2024 3 19) 2 2].

(** A ledger without any plan. *)
Definition no_plans : store :=
  mkstore ledger_credits ledger_payments dictionary [].

(** March 2024 with an issuance target of 10000 and a collection target
    of 8000. *)
Definition march : store :=
  mkstore ledger_credits ledger_payments dictionary
    [Plan.mk 1 (mkdate 2024 3 1) (of_cents 1000000) 3;
     Plan.mk 2 (mkdate 2024 3 1) (of_cents 800000) 4].

(** March 2024 with a collection plan only. *)
Definition collection_only : store :=
  mkstore ledger_credits ledger_payments dictionary
    [Plan.mk 1 (mkdate 2024 3 1) (of_cents 800000) 4].

(** March 2024 with an issuance plan and a plan filed under the payment
    type "body", which is neither issuance nor collection. *)
Definition other_category : store :=
  mkstore ledger_credits ledger_payments dictionary
    [Plan.mk 1 (mkdate 2024 3 1) (of_cents 1000000) 3;
     Plan.mk 2 (mkdate 2024 3 1) (of_cents 800000) 1].

(** March 2024 with an issuance target of 0, and 50.00 issued on the 5th. *)
Definition zero_target : store :=
  mkstore
    [Credit.mk 1 7 (mkdate 2024 3 5) (mkdate 2024 4 5) None 5000 1000]
    [] dictionary
    [Plan.mk 1 (mkdate 2024 3 1) (of_cents 0) 3].

(** The no-break space U+00A0, in its two bytes. *)
Definition nbsp : string :=
  String (ascii_of_N 194) (String (ascii_of_N 160) "").

(** A sheet row for a collection plan for March 2024. *)
Definition collection_row (sum_text : string) : row :=
  mkrow (PeriodDate (mkdate 2024 3 1)) (SumValue sum_text) "збір".

End Sample.

(** * More vocabulary *)

Import Handlers.

(** The last day of the month of [p]. *)
Definition last_of_month (p : date) : date :=
  mkdate (year p) (month p) (days_in_month (year p) (month p)).

(** The order of dates, field by field. *)
Definition date_before (a b : date) : Prop :=
  year a < year b \/
  (year a = year b /\
   (month a < month b \/ (month a = month b /\ day a < day b))).

Definition date_same (a b : date) : Prop :=
  year a = year b /\ month a = month b /\ day a = day b.

(** [d] lies in the month that starts on [p]. *)
Definition same_month (p d : date) : bool :=
  (year d =? year p) && (month d =? month p).

(** The total of a list of payments, in hundredths. *)
Definition total_cents (ps : list Payment.t) : Z :=
  fold_right Z.add 0 (map Payment.sum ps).

(** The payments made against a credit, and those of one type. *)
Definition payments_of (s : store) (credit_id : Z) : list Payment.t :=
  filter (fun p => Payment.credit_id p =? credit_id) (payments s).

Definition payments_of_type (s : store) (credit_id type_id : Z)
  : list Payment.t :=
  filter (fun p => Payment.type_id p =? type_id) (payments_of s credit_id).

(** How a total of [z] hundredths reaches the handler: as the int 0 when it
    is zero, as a decimal with two fractional digits otherwise. *)
Definition is_amount (x : pynum) (z : Z) : Prop :=
  (z = 0 /\ x = PInt 0) \/ (z <> 0 /\ x = PDec (of_cents z)).

(** What the dict of a credit must say, given the credit. *)
Definition describes (s : store) (today : date) (credit : Credit.t)
  (info : credit_info) : Prop :=
  match Credit.actual_return_date credit with
  | Some returned =>
    exists amount,
      info = Repaid (Credit.issuance_date credit) returned
               (of_cents (Credit.body credit))
               (of_cents (Credit.percent credit)) amount /\
      is_amount amount (total_cents (payments_of s (Credit.id credit)))
  | None =>
    exists days body_paid percent_paid,
      info = Outstanding (Credit.issuance_date credit)
               (Credit.return_date credit) days today
               (of_cents (Credit.body credit))
               (of_cents (Credit.percent credit)) body_paid percent_paid /\
      is_amount body_paid
        (total_cents (payments_of_type s (Credit.id credit) 1)) /\
      is_amount percent_paid
        (total_cents (payments_of_type s (Credit.id credit) 2))
  end.

(** A sum as the import can store it: a number with two fractional digits,
    or a quiet NaN. *)
Definition storable_sum (d : Decimal) : Prop :=
  (exists sg c, d = DFinite sg c (-2)) \/
  (exists sg payload, d = DNaN sg false payload).

(** A plan as the import can add it to a store. *)
Definition importable (s : store) (p : Plan.t) : Prop :=
  day (Plan.period p) = 1 /\
  Plan.category_id p <> 0 /\
  (exists d, In d (dictionaries s) /\ Dictionary.id d = Plan.category_id p) /\
  (forall q, In q (plans s) -> key_eqb (plan_key q) (plan_key p) = false) /\
  storable_sum (Plan.sum p).

(** A plan the month report has a branch for. *)
Definition recognised (s : store) (plan : Plan.t) : bool :=
  let category := get_category_name_by_id s (Plan.category_id plan) in
  name_is category "видача" || name_is category "збір".

(** The dict the month report holds for a plan: the sum of the ledger from
    the plan's period to the requested day, and the rate computed from it. *)
Definition reports (s : store) (date_obj : date) (plan : Plan.t)
  (entry : status_entry) : Prop :=
  exists rate,
    if name_is (get_category_name_by_id s (Plan.category_id plan)) "видача"
    then
      completion_rate (get_sum_issued_loans s (Plan.period plan) date_obj)
                      (Plan.sum plan) = Ok rate /\
      entry = IssuedStatus (Plan.period plan) "видача" (Plan.sum plan)
                (get_sum_issued_loans s (Plan.period plan) date_obj) rate
    else
      completion_rate (get_payment_sum s (Plan.period plan) date_obj)
                      (Plan.sum plan) = Ok rate /\
      entry = PaymentStatus (Plan.period plan) "збір" (Plan.sum plan)
                (get_payment_sum s (Plan.period plan) date_obj) rate.

(** The text DD-MM-YYYY of a date: day and month written with two digits
    and the year with four, in ASCII digits. *)
Definition format_d_m_Y (d : date) : string :=
  zero_pad 2 (str_of_Z (day d)) ++ "-" ++
  zero_pad 2 (str_of_Z (month d)) ++ "-" ++
  zero_pad 4 (str_of_Z (year d)).

(** The numbers from [a] to [b]. *)
Definition numbers (a b : Z) : list Z :=
  map (fun i => a + Z.of_nat i) (seq 0 (Z.to_nat (b - a + 1))).

(** The characters of a text written in ASCII: one for every byte. *)
Definition ascii_chars (s : string) : list char :=
  map (fun b => mkchar (N_of_ascii b) (String b ""))
      (list_ascii_of_string s).

Definition is_ascii (b : ascii) : bool := (N_of_ascii b <? 128)%N.

(** The character that separates day, month and year. *)
Definition dash : char := mkchar 45 "-".

(** The text is made of ASCII digits and reads back as the number [n]. *)
Definition reads_back (text : string) (n : Z) : bool :=
  forallb is_digit (list_ascii_of_string text) &&
  (group_value (ascii_chars text) =? n).

(** The test of the year report's branches. *)
Definition is_issuance (s : store) (plan : Plan.t) : bool :=
  id_is plan (get_category_id_by_name s "видача").

(** The plans of a month group that take the first branch, and the rest. *)
Definition issuance_plans (s : store) (ps : list Plan.t) : list Plan.t :=
  filter (is_issuance s) ps.

Definition other_plans (s : store) (ps : list Plan.t) : list Plan.t :=
  filter (fun p => negb (is_issuance s p)) ps.

(** The target a month ends up with: the sum of the last of its plans, the
    int 0 without any. *)
Definition last_target (ps : list Plan.t) : pynum :=
  fold_left (fun _ p => PDec (Plan.sum p)) ps (PInt 0).

(** What the second pass holds for a sum of the ledger: the int 0 without a
    plan to ask for it, the sum with 0 in the place of an absent one
    otherwise. *)
Definition month_sum_of (ps : list Plan.t) (month_sum : option Decimal)
  : pynum :=
  match ps with
  | [] => PInt 0
  | _ => opt_or month_sum (PInt 0)
  end.

(** A plan of the year: its period lies from the first of January to the
    first of December. *)
Definition in_year (year : Z) (p : Plan.t) : bool :=
  date_leb (mkdate year 1 1) (Plan.period p) &&
  date_leb (Plan.period p) (mkdate year 12 1).

(** [p] does not come after [q]. *)
Definition period_le (p q : Plan.t) : Prop :=
  date_ltb (Plan.period q) (Plan.period p) = false.

Definition date_lt (a b : date) : Prop := date_ltb a b = true.

(** The groups so far: keys in ascending order, and under every key a
    group, not empty, of plans of that period. *)
Definition well_grouped (groups : list (date * list Plan.t)) : Prop :=
  StronglySorted date_lt (map fst groups) /\
  forall k ps, In (k, ps) groups ->
               ps <> [] /\ forall q, In q ps -> Plan.period q = k.

(** ** More sample data *)

Module Sample2.

(** March 2024 with two issuance plans and one collection plan. *)
Definition two_issuance_plans : store :=
  mkstore Sample.ledger_credits Sample.ledger_payments Sample.dictionary
    [Plan.mk 1 (mkdate 2024 3 1) (of_cents 1000000) 3;
     Plan.mk 2 (mkdate 2024 3 1) (of_cents 1200000) 3;
     Plan.mk 3 (mkdate 2024 3 1) (of_cents 800000) 4].

(** Plans of three months, stored out of order, and one of another year. *)
Definition three_months : store :=
  mkstore Sample.ledger_credits Sample.ledger_payments Sample.dictionary
    [Plan.mk 1 (mkdate 2024 5 1) (of_cents 1000000) 3;
     Plan.mk 2 (mkdate 2024 3 1) (of_cents 1200000) 3;
     Plan.mk 3 (mkdate 2023 3 1) (of_cents 500000) 3;
     Plan.mk 4 (mkdate 2024 12 1) (of_cents 800000) 4;
     Plan.mk 5 (mkdate 2024 3 1) (of_cents 800000) 4].

(** An issuance plan and a collection plan for March of the year 999. *)
Definition year_999 : store :=
  mkstore Sample.ledger_credits Sample.ledger_payments Sample.dictionary
    [Plan.mk 1 (mkdate 999 3 1) (of_cents 1000000) 3;
     Plan.mk 2 (mkdate 999 3 1) (of_cents 800000) 4].

End Sample2.

(** The label of a month in the year report: the month written with two
    digits, a dot, and the year written as the number is, without leading
    zeros. *)
Definition month_label (d : date) : string :=
  zero_pad 2 (str_of_Z (month d)) ++ "." ++ str_of_Z (year d).

(** The text D-M-YYYY of a date: day and month without leading zeros, as a
    request may also be written, and the year with four digits. *)
Definition format_plain (d : date) : string :=
  str_of_Z (day d) ++ "-" ++ str_of_Z (month d) ++ "-" ++
  zero_pad 4 (str_of_Z (year d)).
(** * Properties *)

(** ** Month arithmetic *)

Lemma valid_date_bounds (d : date) :
  valid_date d = true ->
  1 <= year d <= 9999 /\ 1 <= month d <= 12 /\
  1 <= day d <= days_in_month (year d) (month d).
Proof.
  unfold valid_date, MINYEAR, MAXYEAR.
  rewrite !andb_true_iff, !Z.leb_le. lia.
Qed.

Lemma valid_first_of_month (y m : Z) :
  1 <= y <= 9999 -> 1 <= m <= 12 -> valid_date (mkdate y m 1) = true.
Proof.
  intros Hy Hm. unfold valid_date, MINYEAR, MAXYEAR. cbn [year month day].
  rewrite !andb_true_iff, !Z.leb_le.
  assert (28 <= days_in_month y m).
  { unfold days_in_month.
    destruct (m =? 2); [destruct (is_leap y); lia|].
    destruct ((m =? 4) || (m =? 6) || (m =? 9) || (m =? 11)); lia. }
  lia.
Qed.

Lemma fits_c_int_range (z : Z) :
  fits_c_int z = true <-> - 2147483648 <= z <= 2147483647.
Proof.
  unfold fits_c_int. rewrite andb_true_iff, !Z.leb_le. reflexivity.
Qed.

(** Within the C ints the constructor is its range check. *)
Lemma date_new_fits (y m d : Z) :
  fits_c_int y = true -> fits_c_int m = true -> fits_c_int d = true ->
  date_new y m d =
  if valid_date (mkdate y m d) then Ok (mkdate y m d) else Raise ValueError.
Proof.
  intros Hy Hm Hd. unfold date_new. now rewrite Hy, Hm, Hd.
Qed.

Lemma date_new_valid (y m d : Z) :
  valid_date (mkdate y m d) = true -> date_new y m d = Ok (mkdate y m d).
Proof.
  intros Hvalid.
  pose proof (valid_date_bounds _ Hvalid) as (Hy & Hm & Hd).
  cbn [year month day] in *.
  assert (days_in_month y m <= 31).
  { unfold days_in_month.
    destruct (m =? 2); [destruct (is_leap y); lia|].
    destruct ((m =? 4) || (m =? 6) || (m =? 9) || (m =? 11)); lia. }
  rewrite date_new_fits, Hvalid; [reflexivity | ..];
    apply fits_c_int_range; lia.
Qed.

Lemma date_new_ok (y m d : Z) (x : date) :
  date_new y m d = Ok x -> x = mkdate y m d /\ valid_date x = true.
Proof.
  unfold date_new.
  destruct (negb (fits_c_int y && fits_c_int m && fits_c_int d));
    [discriminate|].
  destruct (valid_date (mkdate y m d)) eqn:Hvalid; [|discriminate].
  now intros [= <-].
Qed.

(** The constructor raises nothing but the two errors of its checks. *)
Lemma date_new_raises (y m d : Z) (e : exn) :
  date_new y m d = Raise e -> e = OverflowError \/ e = ValueError.
Proof.
  unfold date_new.
  destruct (negb (fits_c_int y && fits_c_int m && fits_c_int d));
    [intros [= <-]; now left|].
  destruct (valid_date (mkdate y m d)); [discriminate|].
  intros [= <-]. now right.
Qed.

(** C9, as amended: for every first day of a month other than December 9999,
    [incr_month] returns the first day of the following month: day 1, the
    month one higher, and January of the next year after a December. *)
Theorem incr_month_first_of_next (d : date) :
  valid_date d = true ->
  day d = 1 ->
  year d < 9999 \/ month d < 12 ->
  exists d',
    incr_month d = Ok d' /\ first_of_next_month d d' /\ valid_date d' = true.
Proof.
  intros Hvalid Hday Hrange.
  apply valid_date_bounds in Hvalid as (Hy & Hm & _).
  unfold incr_month.
  destruct (Z.eqb_spec (month d) 12) as [Hdec | Hdec].
  - rewrite date_new_valid by (apply valid_first_of_month; lia).
    eexists; split; [reflexivity|].
    split; [|apply valid_first_of_month; lia].
    unfold first_of_next_month; cbn [year month day]. lia.
  - rewrite date_new_valid by (apply valid_first_of_month; lia).
    eexists; split; [reflexivity|].
    split; [|apply valid_first_of_month; lia].
    unfold first_of_next_month; cbn [year month day]. lia.
Qed.

Lemma incr_month_first_of_next_witness :
  exists d',
    incr_month (mkdate 2024 12 1) = Ok d' /\
    first_of_next_month (mkdate 2024 12 1) d' /\ valid_date d' = true.
Proof.
  apply (incr_month_first_of_next (mkdate 2024 12 1));
    [reflexivity | reflexivity | cbn; lia].
Defined.

(** C9, as stated, fails at the first of December 9999: the date is valid and
    a first of the month, but the following month is outside the range of
    [date] and the constructor raises [ValueError]. *)
Lemma incr_month_december_9999 :
  valid_date (mkdate 9999 12 1) = true /\
  day (mkdate 9999 12 1) = 1 /\
  incr_month (mkdate 9999 12 1) = Raise ValueError /\
  ~ (exists d',
       incr_month (mkdate 9999 12 1) = Ok d' /\
       first_of_next_month (mkdate 9999 12 1) d').
Proof.
  repeat split.
  intros (d' & H & _). discriminate H.
Qed.

(** *** Ordinals follow the order of dates *)

Lemma days_before_year_succ (y : Z) :
  days_before_year (y + 1) =
  days_before_year y + (if is_leap y then 366 else 365).
Proof.
  unfold days_before_year, is_leap. cbv zeta.
  replace (y + 1 - 1) with y by lia.
  destruct (Z.eqb_spec (y mod 4) 0), (Z.eqb_spec (y mod 100) 0),
    (Z.eqb_spec (y mod 400) 0); cbn [negb andb orb];
    Z.div_mod_to_equations; lia.
Qed.

Lemma days_before_year_mono (a b : Z) :
  a <= b -> days_before_year a <= days_before_year b.
Proof. unfold days_before_year. cbv zeta. Z.div_mod_to_equations. lia. Qed.

Lemma month_cases (m : Z) :
  1 <= m <= 12 ->
  m = 1 \/ m = 2 \/ m = 3 \/ m = 4 \/ m = 5 \/ m = 6 \/
  m = 7 \/ m = 8 \/ m = 9 \/ m = 10 \/ m = 11 \/ m = 12.
Proof. lia. Qed.

Lemma days_before_month_succ (y m : Z) :
  1 <= m <= 11 ->
  days_before_month y (m + 1) = days_before_month y m + days_in_month y m.
Proof.
  intros Hm.
  assert (H : 1 <= m <= 12) by lia.
  apply month_cases in H.
  unfold days_before_month, days_in_month.
  repeat (destruct H as [-> | H]; [destruct (is_leap y); reflexivity|]).
  lia.
Qed.

Lemma days_before_month_le (y m1 m2 : Z) :
  1 <= m1 -> m1 < m2 <= 12 ->
  days_before_month y m1 + days_in_month y m1 <= days_before_month y m2.
Proof.
  intros H1 H2.
  assert (C1 := month_cases m1 ltac:(lia)).
  assert (C2 := month_cases m2 ltac:(lia)).
  unfold days_before_month, days_in_month.
  decompose [or] C1; decompose [or] C2; subst; try lia;
    destruct (is_leap y); apply Z.leb_le; reflexivity.
Qed.

Lemma days_before_month_range (y m : Z) :
  1 <= m <= 12 ->
  0 <= days_before_month y m /\
  days_before_month y m + days_in_month y m <=
    (if is_leap y then 366 else 365).
Proof.
  intros Hm. assert (C := month_cases m Hm).
  unfold days_before_month, days_in_month.
  decompose [or] C; subst; destruct (is_leap y);
    split; apply Z.leb_le; reflexivity.
Qed.

Lemma toordinal_lt (a b : date) :
  valid_date a = true -> valid_date b = true ->
  date_ltb a b = true -> toordinal a < toordinal b.
Proof.
  intros Ha Hb.
  apply valid_date_bounds in Ha as (_ & Hma & Hda).
  apply valid_date_bounds in Hb as (_ & Hmb & Hdb).
  unfold date_ltb, toordinal.
  rewrite orb_true_iff, andb_true_iff, orb_true_iff, andb_true_iff,
    !Z.ltb_lt, !Z.eqb_eq.
  pose proof (days_before_month_range (year a) (month a) Hma) as Ra.
  pose proof (days_before_month_range (year b) (month b) Hmb) as Rb.
  intros [Hy | [Hy [Hm | [Hm Hd]]]].
  - pose proof (days_before_year_succ (year a)) as Hs.
    pose proof (days_before_year_mono (year a + 1) (year b) ltac:(lia)).
    destruct (is_leap (year a)); lia.
  - rewrite Hy in *.
    pose proof (days_before_month_le (year b) (month a) (month b)
                  ltac:(lia) ltac:(lia)).
    lia.
  - rewrite Hy, Hm. lia.
Qed.

Lemma toordinal_le (a b : date) :
  valid_date a = true -> valid_date b = true ->
  date_leb a b = true -> toordinal a <= toordinal b.
Proof.
  intros Ha Hb. unfold date_leb. rewrite orb_true_iff.
  intros [Hlt | Heq].
  - pose proof (toordinal_lt a b Ha Hb Hlt). lia.
  - unfold date_eqb in Heq. rewrite !andb_true_iff, !Z.eqb_eq in Heq.
    destruct Heq as [[Hy Hm] Hd]. unfold toordinal. rewrite Hy, Hm, Hd. lia.
Qed.

(** ** Credit status *)

Lemma days_overdue_of_max (return_date today : date) :
  days_overdue_of return_date today = Z.max 0 (sub_days today return_date).
Proof.
  unfold days_overdue_of, sub_days.
  destruct (Z.leb_spec 0 (toordinal return_date - toordinal today)); lia.
Qed.

(** C8: for every outstanding credit of the user, the reported
    [days_overdue] is max(0, today - return_date) in days: it is never
    negative, it is 0 when the return date is today or later, and it is 10
    when the return date is 10 days back. *)
Theorem days_overdue_outstanding
  (s : store) (today : date) (user_id : Z) (infos : list credit_info) :
  get_user_credits s today user_id = Return infos ->
  Forall2
    (fun credit info =>
       Credit.actual_return_date credit = None ->
       reports_overdue today credit info)
    (get_credit_by_user_id s user_id) infos.
Proof.
  unfold get_user_credits.
  destruct (get_credit_by_user_id s user_id) as [| c cs] eqn:Hcs;
    [discriminate|].
  intros [= <-].
  change (credit_entry s today c :: map (credit_entry s today) cs)
    with (map (credit_entry s today) (c :: cs)).
  generalize (c :: cs). clear.
  induction l as [| credit l IH]; cbn [map]; constructor; [|exact IH].
  intros Hout. unfold reports_overdue, credit_entry. rewrite Hout.
  cbn [info_days_overdue].
  eexists; split; [reflexivity|].
  rewrite days_overdue_of_max.
  repeat split; try lia.
  intros Ht Hr Hle.
  pose proof (toordinal_le _ _ Ht Hr Hle). unfold sub_days. lia.
Qed.

Lemma days_overdue_outstanding_witness :
  Forall2
    (fun credit info =>
       Credit.actual_return_date credit = None ->
       reports_overdue (mkdate 2024 3 20) credit info)
    (get_credit_by_user_id Sample.march 7)
    [Outstanding (mkdate 2024 3 5) (mkdate 2024 3 10) 10 (mkdate 2024 3 20)
       (of_cents 400000) (of_cents 1000) (PDec (of_cents 500000)) (PInt 0);
     Repaid (mkdate 2024 3 12) (mkdate 2024 3 30)
       (of_cents 200000) (of_cents 1000) (PDec (of_cents 320000))].
Proof.
  apply (days_overdue_outstanding Sample.march (mkdate 2024 3 20) 7).
  reflexivity.
Defined.

(** Ten days late, due today, and due in five days. *)
Lemma days_overdue_examples :
  days_overdue_of (mkdate 2024 3 10) (mkdate 2024 3 20) = 10 /\
  days_overdue_of (mkdate 2024 3 20) (mkdate 2024 3 20) = 0 /\
  days_overdue_of (mkdate 2024 3 25) (mkdate 2024 3 20) = 0 /\
  days_overdue_of (mkdate 2024 3 1) (mkdate 2024 2 20) = 0 /\
  days_overdue_of (mkdate 2023 12 25) (mkdate 2024 1 4) = 10.
Proof. repeat split. Qed.

(** ** Plan import *)

Lemma row_results_length (s : store) (rows : list row) :
  forall index, List.length (row_results s index rows) = List.length rows.
Proof.
  induction rows as [| r rest IH]; intros index; cbn; [|rewrite IH];
    reflexivity.
Qed.

Lemma row_results_nth (s : store) (rows : list row) :
  forall index i,
    nth_error (row_results s index rows) i =
    option_map (check_row s (index + Z.of_nat i)) (nth_error rows i).
Proof.
  induction rows as [| r rest IH]; intros index [| i]; cbn [row_results nth_error option_map];
    try reflexivity.
  - now rewrite Z.add_0_r.
  - rewrite IH. now replace (index + 1 + Z.of_nat i) with (index + Z.of_nat (S i)) by lia.
Qed.

Lemma lefts_length {A B : Type} (l : list (A + B)) :
  (List.length (lefts l) + List.length (rights l) = List.length l)%nat.
Proof.
  induction l as [| [a | b] l IH]; cbn; lia.
Qed.

Lemma lefts_nil_iff {A B : Type} (l : list (A + B)) :
  lefts l = [] <-> forall i x, nth_error l i = Some x -> exists b, x = inr b.
Proof.
  induction l as [| [a | b] l IH]; cbn [lefts].
  - split; [intros _ [| i] x H; discriminate H | reflexivity].
  - split; [discriminate|].
    intros H. destruct (H 0%nat (inl a) eq_refl) as [b Hb]. discriminate Hb.
  - rewrite IH. split.
    + intros H [| i] x Hx; [injection Hx as <-; eauto | eapply H; exact Hx].
    + intros H i x Hx. apply (H (S i) x Hx).
Qed.

(** The loop of the handler adds, to each accumulator, the errors and the
    plans of the rows in input order. *)
Lemma check_rows_results (s : store) (rows : list row) :
  forall index errors plans_to_insert,
    check_rows s index rows errors plans_to_insert =
    ((errors ++ lefts (row_results s index rows))%list,
     (plans_to_insert ++ rights (row_results s index rows))%list).
Proof.
  induction rows as [| r rest IH]; intros index errors batch;
    cbn [check_rows row_results lefts rights].
  - now rewrite !app_nil_r.
  - destruct (check_row s index r) as [message | plan]; rewrite IH;
      cbn [lefts rights]; now rewrite <- app_assoc.
Qed.

Lemma append_assoc (a b c : string) : ((a ++ b) ++ c = a ++ b ++ c)%string.
Proof. induction a as [| x a IH]; cbn; [|rewrite IH]; reflexivity. Qed.

(** Every message names its row by the number counted from 1. *)
Lemma check_row_names_row (s : store) (i : nat) (r : row) (message : string) :
  check_row s (Z.of_nat i) r = inl message -> names_row i message.
Proof.
  assert (Hlabel : forall reason,
            names_row i (row_label (Z.of_nat i) ++ reason)).
  { intros reason. exists reason. unfold row_label.
    now rewrite !append_assoc. }
  unfold check_row.
  destruct (match period r with
            | PeriodDatetime dt => Some (DateValue (dt_date dt))
            | PeriodNaT => Some NaT
            | PeriodDate d => Some (DateValue d)
            | PeriodOther => None
            end) as [value |]; [|intros [= <-]; apply Hlabel].
  destruct (day_is_1 value) as [period_date |];
    [|intros [= <-]; apply Hlabel].
  destruct (sum r) as [| text]; [intros [= <-]; apply Hlabel|].
  destruct (d <- of_string text;; quantize d (DFinite false 0 (-2)))
    as [amount | e]; [|intros [= <-]; apply Hlabel].
  destruct (get_category_id_by_name s (strip (category_name r)))
    as [[| id | id] |]; try (intros [= <-]; apply Hlabel).
  all: match goal with
       | |- context [get_plan_by_date_and_category ?s ?d ?id] =>
         destruct (get_plan_by_date_and_category s d id)
       end; [intros [= <-]; apply Hlabel | discriminate].
Qed.

(** The messages of the handler are those of the failing rows, one each, in
    row order. *)
Lemma failing_rows_from (s : store) (all : list row) (rows : list row) :
  forall start,
    (forall i, nth_error rows i = nth_error all (start + i)) ->
    Forall2
      (fun i message =>
         exists r,
           nth_error all i = Some r /\
           check_row s (Z.of_nat i) r = inl message)
      (filter (fails s all) (seq start (List.length rows)))
      (lefts (row_results s (Z.of_nat start) rows)).
Proof.
  induction rows as [| r rest IH]; intros start Hnth;
    cbn [List.length seq filter row_results lefts]; [constructor|].
  assert (Hrest : forall i, nth_error rest i = nth_error all (S start + i)).
  { intros i. replace (S start + i)%nat with (start + S i)%nat by lia.
    now rewrite <- Hnth. }
  pose proof (Hnth 0%nat) as Hr. rewrite Nat.add_0_r in Hr.
  cbn [nth_error] in Hr.
  replace (Z.of_nat start + 1) with (Z.of_nat (S start)) by lia.
  unfold fails at 1. rewrite <- Hr.
  destruct (check_row s (Z.of_nat start) r) as [message | plan] eqn:Hrow;
    cbn [lefts].
  - constructor; [|now apply IH]. exists r. now split.
  - now apply IH.
Qed.

Lemma failing_rows_messages (s : store) (rows : list row) :
  Forall2
    (fun i message =>
       names_row i message /\
       exists r,
         nth_error rows i = Some r /\
         check_row s (Z.of_nat i) r = inl message)
    (failing_rows s rows) (lefts (row_results s 0 rows)).
Proof.
  pose proof (failing_rows_from s rows rows 0%nat (fun i => eq_refl)) as H.
  change (Z.of_nat 0) with 0 in H. unfold failing_rows.
  induction H as [| i message positions messages (r & Hnth & Hrow) _ IH];
    constructor; [|exact IH].
  split; [now apply (check_row_names_row s i r) | eauto].
Qed.

Lemma failing_rows_nil (s : store) (rows : list row) :
  failing_rows s rows = [] <-> lefts (row_results s 0 rows) = [].
Proof.
  pose proof (failing_rows_messages s rows) as H.
  split; intros Hnil; rewrite Hnil in H; now inversion H.
Qed.

(** *** The session *)

Lemma staged_rows (plans : list plan_data) :
  forall se,
    fold_left session_add plans se =
    mksession (committed se) (staged se ++ plans)%list (written se).
Proof.
  induction plans as [| pd rest IH]; intros [c st w]; cbn [fold_left].
  - cbn. now rewrite app_nil_r.
  - rewrite IH. cbn. now rewrite <- app_assoc.
Qed.

Lemma staging_rows (s : store) (batch : list plan_data) :
  staging s batch = mksession s batch [].
Proof. unfold staging. now rewrite staged_rows. Qed.

Lemma flush_works (base : list Plan.t) (pending : list plan_data) :
  forall k written,
    exists rows,
      flush None k base pending written = ((written ++ rows)%list, None) /\
      map plan_fields rows = pending.
Proof.
  induction pending as [| pd rest IH]; intros k written; cbn [flush].
  - exists []. now rewrite app_nil_r.
  - destruct (IH (S k)
                (written ++ [Plan.mk (next_plan_id (base ++ written))
                               (pd_period pd) (pd_sum pd)
                               (pd_category_id pd)])%list)
      as (rows & Hflush & Hfields).
    eexists (_ :: rows). split.
    + rewrite Hflush, <- app_assoc. reflexivity.
    + cbn [map]. rewrite Hfields. unfold plan_fields. cbn.
      now destruct pd.
Qed.

(** A commit that fails after [j] rows leaves the rows it wrote before in
    the open transaction: [j] of them, or all when the batch is shorter. *)
Lemma flush_fails (base : list Plan.t) (j : nat) (msg : string)
  (pending : list plan_data) :
  forall k written,
    (k <= j)%nat ->
    exists rows,
      flush (Some (j, msg)) k base pending written =
      ((written ++ rows)%list, Some msg) /\
      List.length rows = Nat.min (j - k) (List.length pending) /\
      map plan_fields rows = firstn (j - k) pending.
Proof.
  induction pending as [| pd rest IH]; intros k written Hk; cbn [flush].
  - exists []. rewrite app_nil_r, firstn_nil, Nat.min_0_r. repeat split.
  - destruct (Nat.eqb_spec j k) as [-> | Hjk].
    + exists []. rewrite app_nil_r, Nat.sub_diag. repeat split.
    + destruct (IH (S k)
                  (written ++ [Plan.mk (next_plan_id (base ++ written))
                                 (pd_period pd) (pd_sum pd)
                                 (pd_category_id pd)])%list)
        as (rows & Hflush & Hlen & Hfields); [lia|].
      eexists (_ :: rows). split; [|split].
      * rewrite Hflush, <- app_assoc. reflexivity.
      * cbn [List.length]. rewrite Hlen.
        replace (j - k)%nat with (S (j - S k)) by lia. reflexivity.
      * replace (j - k)%nat with (S (j - S k)) by lia.
        cbn [map firstn]. rewrite Hfields. unfold plan_fields. cbn.
        now destruct pd.
Qed.

Lemma commit_fails (s : store) (k : nat) (msg : string)
  (batch : list plan_data) :
  exists partial,
    session_commit (Some (k, msg)) (staging s batch) =
    (mksession s batch partial, Some msg) /\
    List.length partial = Nat.min k (List.length batch) /\
    map plan_fields partial = firstn k batch.
Proof.
  rewrite staging_rows. unfold session_commit.
  cbn [committed staged written].
  destruct (flush_fails (plans s) k msg batch 0 []) as
    (rows & Hflush & Hlen & Hfields); [lia|].
  rewrite Nat.sub_0_r in *. cbn [app] in Hflush. rewrite Hflush.
  exists rows. repeat split; assumption.
Qed.

Lemma bulk_insert_in_fails (s : store) (k : nat) (msg : string)
  (batch : list plan_data) :
  bulk_insert_plans_in (open_session s) (Some (k, msg)) batch =
  (mksession s [] [],
   Some (500, DetailText ("Ошибка при сохранении в БД: " ++ msg))).
Proof.
  unfold bulk_insert_plans_in. fold (staging s batch).
  destruct (commit_fails s k msg batch) as (partial & Hcommit & _).
  rewrite Hcommit. reflexivity.
Qed.

Lemma bulk_insert_works (s : store) (batch : list plan_data) :
  exists new,
    bulk_insert_plans s None batch =
    (mkstore (credits s) (payments s) (dictionaries s) (plans s ++ new)%list,
     None) /\
    map plan_fields new = batch.
Proof.
  unfold bulk_insert_plans, bulk_insert_plans_in, session_commit.
  rewrite staged_rows. cbn [open_session committed staged written app].
  destruct (flush_works (plans s) batch 0 []) as (rows & Hflush & Hfields).
  rewrite Hflush. cbn [app committed session_close]. eauto.
Qed.

Lemma bulk_insert_fails (s : store) (k : nat) (msg : string)
  (batch : list plan_data) :
  bulk_insert_plans s (Some (k, msg)) batch =
  (s, Some (500, DetailText ("Ошибка при сохранении в БД: " ++ msg))).
Proof.
  unfold bulk_insert_plans. now rewrite bulk_insert_in_fails.
Qed.

(** C1: the import is all-or-nothing.  When at least one row fails a check,
    the store is left as it was and the caller gets the messages of all
    failing rows, one for each in row order, each naming its row by the
    number counted from 1.  When no row fails and the store works, the plans
    table grows by exactly one new record per row, carrying the validated
    data in row order, and nothing else changes.  When no row fails and the
    store fails during the commit, after it wrote some of the rows, the
    session is rolled back: it is left without any written row and without
    any staged plan, the store is left as it was and a store failure
    (status 500) is reported. *)
Theorem import_all_or_nothing
  (s : store) (fault : store_fault) (rows : list row) :
  let results := row_results s 0 rows in
  Forall2
    (fun i message =>
       names_row i message /\
       exists r,
         nth_error rows i = Some r /\
         check_row s (Z.of_nat i) r = inl message)
    (failing_rows s rows) (lefts results) /\
  ((exists i r message,
       nth_error rows i = Some r /\
       check_row s (Z.of_nat i) r = inl message) ->
   upload_plans s fault rows =
   (s, HTTPException 400 (DetailErrors (lefts results)))) /\
  ((forall i r, nth_error rows i = Some r ->
                exists plan, check_row s (Z.of_nat i) r = inr plan) ->
   match fault with
   | None =>
     exists new,
       upload_plans s fault rows =
       (mkstore (credits s) (payments s) (dictionaries s)
                (plans s ++ new)%list,
        Return ("Успішно додано "
                  ++ str_of_Z (Z.of_nat (List.length rows))
                  ++ " записів в БД")) /\
       List.length new = List.length rows /\
       map plan_fields new = rights results
   | Some (k, msg) =>
     (exists partial,
        session_commit fault (staging s (rights results)) =
        (mksession s (rights results) partial, Some msg) /\
        List.length partial = Nat.min k (List.length rows) /\
        map plan_fields partial = firstn k (rights results)) /\
     bulk_insert_plans_in (open_session s) fault (rights results) =
     (mksession s [] [],
      Some (500, DetailText ("Ошибка при сохранении в БД: " ++ msg))) /\
     upload_plans s fault rows =
     (s, HTTPException 500
           (DetailText ("Ошибка при сохранении в БД: " ++ msg)))
   end).
Proof.
  intros results. split; [apply failing_rows_messages|].
  unfold upload_plans.
  rewrite check_rows_results. cbn [app]. fold results.
  split.
  - intros (i & r & message & Hrow & Hcheck).
    destruct (lefts results) as [| e es] eqn:Hlefts; [|reflexivity].
    exfalso. rewrite lefts_nil_iff in Hlefts.
    destruct (Hlefts i (inl message)) as [b Hb]; [|discriminate Hb].
    unfold results. rewrite row_results_nth, Hrow. cbn. now rewrite Hcheck.
  - intros Hall.
    assert (Hlefts : lefts results = []).
    { apply lefts_nil_iff. intros i x Hx.
      unfold results in Hx. rewrite row_results_nth in Hx.
      destruct (nth_error rows i) as [r |] eqn:Hrow; [|discriminate Hx].
      destruct (Hall i r Hrow) as [plan Hplan].
      cbn in Hx. rewrite Hplan in Hx. injection Hx as <-. eauto. }
    assert (Hlen : List.length (rights results) = List.length rows).
    { pose proof (lefts_length results) as H. rewrite Hlefts in H.
      unfold results in *. rewrite row_results_length in H. exact H. }
    rewrite Hlefts.
    destruct fault as [[k msg] |].
    + rewrite bulk_insert_fails, bulk_insert_in_fails.
      destruct (commit_fails s k msg (rights results))
        as (partial & Hcommit & Hpartial & Hfields).
      rewrite Hlen in Hpartial.
      split; [exists partial|]; repeat split; assumption.
    + destruct (bulk_insert_works s (rights results)) as (new & Hins & Hnew).
      rewrite Hins, Hlen. exists new. repeat split; [|exact Hnew].
      rewrite <- Hlen, <- Hnew. now rewrite length_map.
Qed.

(** A sheet with one row failing each check: nothing is stored and the six
    messages come back in row order. *)
Lemma rejected_sheet :
  upload_plans Sample.march None
    [mkrow (PeriodDate (mkdate 2024 3 15)) (SumValue "x") "збір";
     mkrow (PeriodDate (mkdate 2024 3 1)) (SumValue "1") " збір ";
     mkrow (PeriodDate (mkdate 2024 4 1)) (SumValue "1e") "збір";
     mkrow PeriodOther (SumValue "1") "збір";
     mkrow (PeriodDate (mkdate 2024 4 1)) SumNA "збір";
     mkrow (PeriodDate (mkdate 2024 4 1)) (SumValue "1") "zbir";
     mkrow (PeriodDate (mkdate 2024 4 1)) (SumValue "1") "збір"] =
  (Sample.march,
   HTTPException 400
     (DetailErrors
        ["Рядок 1: Дата повинна бути першим числом місяця";
         "Рядок 2: План на 2024-03-01 для категорії 'збір' вже існує";
         "Рядок 3: Некоректне значення суми";
         "Рядок 4: Некоректний формат дати";
         "Рядок 5: Сума не может бути пустой";
         "Рядок 6: Катігорія 'zbir' не знайдена"])).
Proof. reflexivity. Qed.

(** A sheet of two good rows, with a store that works and with a store that
    fails after the first row was written. *)
Lemma accepted_sheet :
  upload_plans Sample.march None
    [mkrow (PeriodDate (mkdate 2024 4 1)) (SumValue "12.345") "видача";
     mkrow (PeriodDatetime (mkdatetime (mkdate 2024 4 1) 0 0 0))
       (SumValue "8000") " збір "] =
  (mkstore Sample.ledger_credits Sample.ledger_payments Sample.dictionary
     (plans Sample.march ++
      [Plan.mk 3 (mkdate 2024 4 1) (DFinite false 1234 (-2)) 3;
       Plan.mk 4 (mkdate 2024 4 1) (DFinite false 800000 (-2)) 4])%list,
   Return "Успішно додано 2 записів в БД") /\
  upload_plans Sample.march (Some (1%nat, "connection lost"))
    [mkrow (PeriodDate (mkdate 2024 4 1)) (SumValue "12.345") "видача";
     mkrow (PeriodDatetime (mkdatetime (mkdate 2024 4 1) 0 0 0))
       (SumValue "8000") " збір "] =
  (Sample.march,
   HTTPException 500
     (DetailText "Ошибка при сохранении в БД: connection lost")).
Proof. split; reflexivity. Qed.

(** Texts with characters outside ASCII: the white space and the decimal
    digits of other scripts count as such, in the name of the category and
    in the sum; a number too small to be held exactly is refused. *)
Lemma texts_of_other_scripts :
  strip (Sample.nbsp ++ " збір" ++ Sample.nbsp) = "збір" /\
  of_string "١٢.٣٤٥" = Ok (DFinite false 12345 (-3)) /\
  of_string (Sample.nbsp ++ "1_000") = Ok (DFinite false 1000 0) /\
  of_string "1 000" = Raise (InvalidOperation ConversionSyntax) /\
  of_string "1e-99999999999999999999999" =
    Raise (InvalidOperation InexactConversion) /\
  check_row Sample.march 0
    (mkrow (PeriodDate (mkdate 2024 4 1)) (SumValue "١٢.٣٤٥")
       ("збір" ++ Sample.nbsp)) =
    inr (mkdata (mkdate 2024 4 1) (DFinite false 1234 (-2)) 4).
Proof. repeat split. Qed.

(** *** The order of the checks *)

(** A row whose period cell is not the empty cell of a column of dates is
    answered with the message of the first check it fails, in the order of
    the specification. *)
Lemma check_row_first_failure (s : store) (index : Z) (r : row) :
  period r <> PeriodNaT ->
  match first_failure s r with
  | Some c => check_row s index r = inl (message_of index r c)
  | None => exists plan, check_row s index r = inr plan
  end.
Proof.
  intros Hcell.
  unfold first_failure, checks_in_order, check_row, message_of.
  cbn [find passes]. unfold row_date, row_amount, row_category.
  destruct (period r) as [dt | | d |]; cbn [is_some negb day_is_1];
    try reflexivity; [| contradiction |].
  all: match goal with
       | |- context [day ?d =? 1] => destruct (day d =? 1)
       end; cbn [negb]; try reflexivity.
  all: destruct (sum r) as [| text]; cbn [is_some negb]; try reflexivity.
  all: destruct (d <- of_string text;; quantize d (DFinite false 0 (-2)))
         as [amount | e]; cbn [is_some negb]; try reflexivity.
  all: destruct (get_category_id_by_name s (strip (category_name r)))
         as [[| id | id] |]; cbn [Z.eqb is_some negb]; try reflexivity.
  all: match goal with
       | |- context [get_plan_by_date_and_category ?s ?d ?id] =>
         destruct (get_plan_by_date_and_category s d id)
       end; cbn [is_some negb]; try reflexivity; eauto.
Qed.

Lemma dated_row (r : row) (d : date) :
  row_date r = Some d -> period r <> PeriodNaT.
Proof. unfold row_date. intros H Hcell. now rewrite Hcell in H. Qed.

Lemma not_first_rejected (s : store) (index : Z) (r : row) (d : date) :
  row_date r = Some d -> day d <> 1 ->
  check_row s index r = inl (first_of_month_error index).
Proof.
  intros Hdate Hday. unfold first_of_month_error.
  unfold check_row, row_date in *.
  destruct (period r) as [dt | | d0 |]; cbn [day_is_1];
    inversion Hdate; subst; apply Z.eqb_neq in Hday; now rewrite Hday.
Qed.

(** The empty cell of a column of dates passes the test for a date and
    fails the test of the day. *)
Lemma empty_period_rejected (s : store) (index : Z) (r : row) :
  period r = PeriodNaT ->
  check_row s index r = inl (first_of_month_error index) /\
  first_failure s r = Some DateParses.
Proof.
  intros Hcell.
  unfold check_row, first_failure, checks_in_order, first_of_month_error.
  cbn [find passes]. unfold row_date. rewrite Hcell.
  split; reflexivity.
Qed.

(** The order of the checks for every row that has a period: it is
    rejected with the message of the first check it fails, and only that
    one.  A row dated the 15th, such as 2024-03-15, gets the
    first-of-the-month message whatever its other fields are; it adds
    exactly this one message to the errors and nothing to the batch, and
    the rows after it are processed as usual. *)
Lemma validation_order_short_circuit (s : store) (index : Z) (r : row) :
  (period r <> PeriodNaT ->
   match first_failure s r with
   | Some c => check_row s index r = inl (message_of index r c)
   | None => exists plan, check_row s index r = inr plan
   end) /\
  (forall sum_cell name,
     check_row s index
       (mkrow (PeriodDate (mkdate 2024 3 15)) sum_cell name) =
     inl (first_of_month_error index)) /\
  (forall d, row_date r = Some d -> day d <> 1 ->
     check_row s index r = inl (first_of_month_error index) /\
     forall rest errors batch,
       check_rows s index (r :: rest) errors batch =
       ((errors ++ first_of_month_error index
                :: lefts (row_results s (index + 1) rest))%list,
        (batch ++ rights (row_results s (index + 1) rest))%list)).
Proof.
  split; [apply check_row_first_failure|]. split.
  - intros sum_cell name.
    now apply (not_first_rejected s index _ (mkdate 2024 3 15)).
  - intros d Hdate Hday.
    pose proof (not_first_rejected s index r d Hdate Hday) as Hrow.
    split; [exact Hrow|].
    intros rest errors batch.
    rewrite check_rows_results. cbn [row_results]. rewrite Hrow.
    reflexivity.
Qed.

(** C6 at its failing input: a sheet whose period column holds dates and one
    empty cell.  The empty cell is not a calendar date, so the first check
    of the order fails and its message is the one for the format of the
    date, the message a cell that holds no date at all is answered with;
    but the empty cell of such a column is an instance of [datetime], the
    test for a date lets it through, and the row is answered with the
    message of the second check, that the date must be the first of the
    month.  This holds for every row with such a cell, whatever its other
    fields are. *)
Theorem empty_period_fails_day_check :
  upload_plans Sample.march None
    [mkrow PeriodNaT (SumValue "100") "збір"] =
  (Sample.march,
   HTTPException 400
     (DetailErrors ["Рядок 1: Дата повинна бути першим числом місяця"])) /\
  first_failure Sample.march (mkrow PeriodNaT (SumValue "100") "збір") =
    Some DateParses /\
  message_of 0 (mkrow PeriodNaT (SumValue "100") "збір") DateParses =
    "Рядок 1: Некоректний формат дати" /\
  upload_plans Sample.march None
    [mkrow PeriodOther (SumValue "100") "збір"] =
  (Sample.march,
   HTTPException 400 (DetailErrors ["Рядок 1: Некоректний формат дати"])) /\
  (forall s index sum_cell name,
     first_failure s (mkrow PeriodNaT sum_cell name) = Some DateParses /\
     check_row s index (mkrow PeriodNaT sum_cell name) =
       inl (first_of_month_error index) /\
     first_of_month_error index <>
       message_of index (mkrow PeriodNaT sum_cell name) DateParses).
Proof.
  repeat split.
  unfold first_of_month_error, message_of, must_be_first_of_month.
  intros H. apply (f_equal (fun m => substring (String.length (row_label index)) 2 m)) in H.
  revert H. generalize (row_label index). intros label.
  induction label as [| c label IH]; cbn; [discriminate | exact IH].
Qed.

(** *** What an accepted row went through *)

Lemma check_row_accepted (s : store) (index : Z) (r : row) (plan : plan_data) :
  check_row s index r = inr plan ->
  row_date r = Some (pd_period plan) /\
  day (pd_period plan) = 1 /\
  (exists text d,
     sum r = SumValue text /\ of_string text = Ok d /\
     quantize d (DFinite false 0 (-2)) = Ok (pd_sum plan)) /\
  get_category_id_by_name s (strip (category_name r)) =
    Some (pd_category_id plan) /\
  pd_category_id plan <> 0 /\
  get_plan_by_date_and_category s (pd_period plan) (pd_category_id plan) =
    None.
Proof.
  unfold check_row, row_date.
  destruct (period r) as [dt | | d0 |]; cbn [day_is_1];
    try discriminate.
  all: match goal with
       | |- context [day ?d =? 1] =>
         destruct (Z.eqb_spec (day d) 1) as [Hday | _]
       end; cbn [negb]; [|discriminate].
  all: destruct (sum r) as [| text]; [discriminate|].
  all: destruct (of_string text) as [d | e] eqn:Hparse; [|discriminate].
  all: cbn [bind].
  all: destruct (quantize d (DFinite false 0 (-2))) as [amount | e] eqn:Hq;
    [|discriminate].
  all: destruct (get_category_id_by_name s (strip (category_name r)))
    as [[| id | id] |] eqn:Hcat; try discriminate.
  all: match goal with
       | |- context [get_plan_by_date_and_category ?s ?d ?id] =>
         destruct (get_plan_by_date_and_category s d id) eqn:Hplan
       end; [discriminate|].
  all: intros [= <-]; cbn [pd_period pd_sum pd_category_id].
  all: repeat split; eauto; discriminate.
Qed.

(** *** Rounding of the sum *)

Lemma pow10_pos (k : Z) : (0 < pow10 k)%N.
Proof.
  unfold pow10. apply N.neq_0_lt_0, N.pow_nonzero. discriminate.
Qed.

Lemma round_half_even_nearest (c : N) (k : Z) :
  nearest_even c k (round_half_even c k).
Proof.
  unfold nearest_even, round_half_even.
  pose proof (pow10_pos k) as Hp.
  set (p := pow10 k) in *.
  pose proof (N.div_mod c p ltac:(lia)) as Hdiv.
  pose proof (N.mod_lt c p ltac:(lia)) as Hmod.
  set (q := (c / p)%N) in *. set (r := (c mod p)%N) in *.
  cbv zeta.
  destruct (N.ltb_spec (2 * r) p) as [Hlt | Hge].
  - split; [nia | intros Htie; nia].
  - destruct (N.ltb_spec p (2 * r)) as [Hgt | Hle].
    + split; [nia | intros Htie; nia].
    + destruct (N.even q) eqn:Heven.
      * split; [nia | intros _; exact Heven].
      * split; [nia|]. intros _.
        rewrite N.add_1_r, N.even_succ, <- N.negb_even, Heven. reflexivity.
Qed.

Lemma quantize_hundredths
  (s : bool) (c : N) (e : Z) (s2 : bool) (c2 : N) (r : Decimal) :
  quantize (DFinite s c e) (DFinite s2 c2 (-2)) = Ok r ->
  r = DFinite s (to_hundredths c e) (-2).
Proof.
  unfold quantize, to_hundredths. cbn [check_nans].
  change (negb ((Etiny <=? -2) && (-2 <=? Emax))) with false. cbv iota.
  destruct (N.eqb_spec c 0) as [-> | Hc].
  - cbn. intros [= <-]. reflexivity.
  - destruct (Emax <? adjusted c e); [discriminate|].
    destruct (prec <? adjusted c e - -2 + 1); [discriminate|].
    unfold rescale. destruct (N.eqb_spec c 0) as [? | _]; [contradiction|].
    replace (e - -2) with (e + 2) by lia.
    set (c' := if -2 <=? e then (c * pow10 (e + 2))%N
               else round_half_even c (-2 - e)).
    assert (Hrescaled :
      (if -2 <=? e then DFinite s (c * pow10 (e + 2)) (-2)
       else DFinite s (round_half_even c (-2 - e)) (-2)) =
      DFinite s c' (-2)) by (unfold c'; destruct (-2 <=? e); reflexivity).
    rewrite Hrescaled. clear Hrescaled.
    destruct (Emax <? adjusted c' (-2)); [discriminate|].
    destruct (Z.ltb_spec prec (ndigits c')) as [? | Hdigits]; [discriminate|].
    unfold fix_.
    destruct (N.eqb_spec c' 0) as [-> | Hc'].
    + intros [= <-]. reflexivity.
    + unfold Etop, Etiny, Emax, Emin, prec in *.
      destruct (Z.ltb_spec (999999 - 28 + 1) (ndigits c' + -2 - 28));
        [lia|].
      destruct (Z.ltb_spec (-2)
                  (Z.max (ndigits c' + -2 - 28) (-999999 - 28 + 1)));
        [lia|].
      intros [= <-]. reflexivity.
Qed.

Lemma to_hundredths_nearest (c : N) (e : Z) :
  if -2 <=? e then to_hundredths c e = (c * pow10 (e + 2))%N
  else nearest_even c (-2 - e) (to_hundredths c e).
Proof.
  unfold to_hundredths.
  destruct (N.eqb_spec c 0) as [-> | Hc].
  - destruct (-2 <=? e); [reflexivity|].
    unfold nearest_even. pose proof (pow10_pos (-2 - e)).
    cbn. split; [lia | intros; reflexivity].
  - destruct (-2 <=? e); [reflexivity | apply round_half_even_nearest].
Qed.

(** The sum of an accepted row whose text denotes a finite number is stored
    with exactly 2 fractional digits, as the nearest number of hundredths,
    the even one on a tie (the value itself when it has no more than 2
    fractional digits); the stored value depends on the text of the sum
    alone; and the text 12.345 is stored as 12.34. *)
Lemma stored_sum_half_even
  (s : store) (index : Z) (r : row) (plan : plan_data) (text : string)
  (sg : bool) (c : N) (e : Z) :
  check_row s index r = inr plan ->
  sum r = SumValue text ->
  of_string text = Ok (DFinite sg c e) ->
  pd_sum plan = DFinite sg (to_hundredths c e) (-2) /\
  (if -2 <=? e then to_hundredths c e = (c * pow10 (e + 2))%N
   else nearest_even c (-2 - e) (to_hundredths c e)) /\
  (forall s' index' r' plan',
     sum r' = SumValue text -> check_row s' index' r' = inr plan' ->
     pd_sum plan' = pd_sum plan) /\
  (text = "12.345" ->
   pd_sum plan = DFinite false 1234 (-2) /\ to_string (pd_sum plan) = "12.34").
Proof.
  intros Hrow Hsum Hparse.
  destruct (check_row_accepted s index r plan Hrow)
    as (_ & _ & (text0 & d & Hsum0 & Hparse0 & Hq) & _).
  rewrite Hsum in Hsum0. injection Hsum0 as <-.
  rewrite Hparse in Hparse0. injection Hparse0 as <-.
  pose proof (quantize_hundredths sg c e _ _ _ Hq) as Hstored.
  split; [exact Hstored|]. split; [apply to_hundredths_nearest|]. split.
  - intros s' index' r' plan' Hsum' Hrow'.
    destruct (check_row_accepted s' index' r' plan' Hrow')
      as (_ & _ & (text1 & d1 & Hsum1 & Hparse1 & Hq1) & _).
    rewrite Hsum' in Hsum1. injection Hsum1 as <-.
    rewrite Hparse in Hparse1. injection Hparse1 as <-.
    rewrite Hq in Hq1. now injection Hq1.
  - intros ->. vm_compute in Hparse. injection Hparse as <- <- <-.
    rewrite Hstored. split; reflexivity.
Qed.

Lemma stored_sum_half_even_witness :
  pd_sum (mkdata (mkdate 2024 3 1) (DFinite false 1234 (-2)) 4) =
    DFinite false (to_hundredths 12345 (-3)) (-2) /\
  (if -2 <=? -3 then to_hundredths 12345 (-3) = (12345 * pow10 (-3 + 2))%N
   else nearest_even 12345 (-2 - -3) (to_hundredths 12345 (-3))) /\
  (forall s' index' r' plan',
     sum r' = SumValue "12.345" -> check_row s' index' r' = inr plan' ->
     pd_sum plan' =
     pd_sum (mkdata (mkdate 2024 3 1) (DFinite false 1234 (-2)) 4)) /\
  ("12.345" = "12.345" ->
   pd_sum (mkdata (mkdate 2024 3 1) (DFinite false 1234 (-2)) 4) =
     DFinite false 1234 (-2) /\
   to_string (pd_sum (mkdata (mkdate 2024 3 1) (DFinite false 1234 (-2)) 4))
     = "12.34").
Proof.
  apply (stored_sum_half_even Sample.no_plans 0
           (Sample.collection_row "12.345")
           (mkdata (mkdate 2024 3 1) (DFinite false 1234 (-2)) 4)
           "12.345" false 12345 (-3));
    reflexivity.
Defined.

(** C7 at its failing input: a row whose sum cell holds the text NAN.  The
    cell is not a missing value, the decimal constructor reads the text as a
    quiet NaN, and [quantize] hands a quiet NaN back without raising, so the
    row passes the two checks of the sum and its plan goes to the store with
    a sum that has no fractional digits at all: a store that takes it holds
    a NaN, and a store that refuses it makes the import end with status 500,
    not with the message for the sum.  A missing value, an infinity, a
    signaling NaN and a text that is no number are all refused, as the
    checks are meant to. *)
Theorem nan_sum_is_accepted :
  check_row Sample.no_plans 0 (Sample.collection_row "NAN") =
    inr (mkdata (mkdate 2024 3 1) (DNaN false false 0) 4) /\
  ~ (exists sg q,
       pd_sum (mkdata (mkdate 2024 3 1) (DNaN false false 0) 4) =
       DFinite sg q (-2)) /\
  upload_plans Sample.no_plans None [Sample.collection_row "NAN"] =
    (mkstore Sample.ledger_credits Sample.ledger_payments Sample.dictionary
       [Plan.mk 1 (mkdate 2024 3 1) (DNaN false false 0) 4],
     Return "Успішно додано 1 записів в БД") /\
  (forall k msg,
     upload_plans Sample.no_plans (Some (k, msg))
       [Sample.collection_row "NAN"] =
     (Sample.no_plans,
      HTTPException 500
        (DetailText ("Ошибка при сохранении в БД: " ++ msg)))) /\
  check_row Sample.no_plans 0
    (mkrow (PeriodDate (mkdate 2024 3 1)) SumNA "збір") =
    inl "Рядок 1: Сума не может бути пустой" /\
  check_row Sample.no_plans 0 (Sample.collection_row "inf") =
    inl "Рядок 1: Некоректне значення суми" /\
  check_row Sample.no_plans 0 (Sample.collection_row "sNaN") =
    inl "Рядок 1: Некоректне значення суми" /\
  check_row Sample.no_plans 0 (Sample.collection_row "12,5") =
    inl "Рядок 1: Некоректне значення суми".
Proof.
  split; [reflexivity|]. split.
  { intros (sg & q & H). discriminate H. }
  split; [reflexivity|]. split.
  { intros k msg. unfold upload_plans.
    rewrite check_rows_results. cbn [row_results app].
    change (check_row Sample.no_plans 0 (Sample.collection_row "NAN"))
      with (@inr string plan_data
              (mkdata (mkdate 2024 3 1) (DNaN false false 0) 4)).
    cbn [lefts rights]. now rewrite bulk_insert_fails. }
  repeat split.
Qed.

(** *** Uniqueness of plans *)

(** C2 at its failing input: a sheet that names the same month and category
    twice.  The store holds no plan, so both rows pass the check against
    the store; both are committed, and the store then holds two plans for
    (2024-03-01, collection). *)
Lemma duplicate_rows_in_one_sheet :
  unique_plans (plans Sample.no_plans) = true /\
  upload_plans Sample.no_plans None
    [Sample.collection_row "100"; Sample.collection_row "250.5"] =
  (mkstore Sample.ledger_credits Sample.ledger_payments Sample.dictionary
     [Plan.mk 1 (mkdate 2024 3 1) (DFinite false 10000 (-2)) 4;
      Plan.mk 2 (mkdate 2024 3 1) (DFinite false 25050 (-2)) 4],
   Return "Успішно додано 2 записів в БД") /\
  unique_plans
    [Plan.mk 1 (mkdate 2024 3 1) (DFinite false 10000 (-2)) 4;
     Plan.mk 2 (mkdate 2024 3 1) (DFinite false 25050 (-2)) 4] = false.
Proof. repeat split. Qed.

(** A second import of the same month and category, in a call of its own
    after the first was committed, is rejected, and no duplicate is made. *)
Lemma second_import_is_rejected :
  upload_plans Sample.no_plans None [Sample.collection_row "100"] =
  (mkstore Sample.ledger_credits Sample.ledger_payments Sample.dictionary
     [Plan.mk 1 (mkdate 2024 3 1) (DFinite false 10000 (-2)) 4],
   Return "Успішно додано 1 записів в БД") /\
  upload_plans
    (mkstore Sample.ledger_credits Sample.ledger_payments Sample.dictionary
       [Plan.mk 1 (mkdate 2024 3 1) (DFinite false 10000 (-2)) 4])
    None [Sample.collection_row "100"] =
  (mkstore Sample.ledger_credits Sample.ledger_payments Sample.dictionary
     [Plan.mk 1 (mkdate 2024 3 1) (DFinite false 10000 (-2)) 4],
   HTTPException 400
     (DetailErrors
        ["Рядок 1: План на 2024-03-01 для категорії 'збір' вже існує"])).
Proof. split; reflexivity. Qed.

Lemma date_eqb_refl (d : date) : date_eqb d d = true.
Proof. unfold date_eqb. now rewrite !Z.eqb_refl. Qed.

Lemma date_eqb_sym (a b : date) : date_eqb a b = date_eqb b a.
Proof.
  unfold date_eqb.
  now rewrite (Z.eqb_sym (year a)), (Z.eqb_sym (month a)),
    (Z.eqb_sym (day a)).
Qed.

(** Whatever the store holds, a row for a month and category that already
    have a plan is rejected with the "already exists" message, and an import
    made of such a row leaves the store as it was. *)
Lemma existing_plan_rejected
  (s : store) (fault : store_fault) (index : Z) (r : row) (p : Plan.t) :
  In p (plans s) ->
  row_date r = Some (Plan.period p) ->
  day (Plan.period p) = 1 ->
  is_some (row_amount r) = true ->
  row_category s r = Some (Plan.category_id p) ->
  check_row s index r = inl (message_of index r NoExistingPlan) /\
  upload_plans s fault [r] =
  (s, HTTPException 400 (DetailErrors [message_of 0 r NoExistingPlan])).
Proof.
  intros Hin Hdate Hday Hamount Hcat.
  assert (Hfirst : first_failure s r = Some NoExistingPlan).
  { unfold first_failure, checks_in_order. cbn [find passes].
    rewrite Hdate, Hamount, Hcat. cbn [is_some negb].
    apply Z.eqb_eq in Hday. rewrite Hday. cbn [negb].
    assert (Hsum : match sum r with SumNA => false | SumValue _ => true end
                   = true).
    { unfold row_amount in Hamount. now destruct (sum r). }
    rewrite Hsum. cbn [negb].
    destruct (get_plan_by_date_and_category s (Plan.period p)
                (Plan.category_id p)) eqn:Hfind; [reflexivity|].
    unfold get_plan_by_date_and_category in Hfind.
    pose proof (find_none _ _ Hfind p Hin) as Hno. cbn beta in Hno.
    now rewrite date_eqb_refl, Z.eqb_refl in Hno. }
  assert (Hrow : forall i, check_row s i r =
                           inl (message_of i r NoExistingPlan)).
  { intros i.
    pose proof (check_row_first_failure s i r (dated_row r _ Hdate)) as H.
    now rewrite Hfirst in H. }
  split; [apply Hrow|].
  unfold upload_plans. rewrite check_rows_results. cbn [row_results].
  rewrite Hrow. reflexivity.
Qed.

Lemma unique_keys_app (a b : list key) :
  unique_keys (a ++ b) =
  unique_keys a && unique_keys b &&
  forallb (fun k => negb (existsb (key_eqb k) b)) a.
Proof.
  induction a as [| k a IH]; cbn [app unique_keys forallb].
  - now rewrite andb_true_r.
  - rewrite IH, existsb_app, negb_orb.
    destruct (existsb (key_eqb k) a), (existsb (key_eqb k) b),
      (unique_keys a), (unique_keys b); reflexivity.
Qed.

Lemma accepted_rows (s : store) (rows : list row) :
  forall index plan,
    In plan (rights (row_results s index rows)) ->
    exists i r, check_row s i r = inr plan.
Proof.
  induction rows as [| r rest IH]; intros index plan; cbn [row_results rights].
  - intros [].
  - destruct (check_row s index r) as [message | accepted] eqn:Hrow;
      cbn [rights].
    + apply IH.
    + intros [<- | Hin]; [eauto | eapply IH; exact Hin].
Qed.

(** The uniqueness of plans survives every import whose accepted rows name
    pairwise different (period, category id) pairs. *)
Lemma unique_plans_kept
  (s s' : store) (fault : store_fault) (rows : list row) (message : string) :
  unique_plans (plans s) = true ->
  unique_keys (map data_key (rights (row_results s 0 rows))) = true ->
  upload_plans s fault rows = (s', Return message) ->
  unique_plans (plans s') = true.
Proof.
  intros Hunique Hbatch. unfold upload_plans.
  rewrite check_rows_results. cbn [app].
  destruct (lefts (row_results s 0 rows)); [|discriminate].
  destruct fault as [[k msg] |]; [now rewrite bulk_insert_fails|].
  destruct (bulk_insert_works s (rights (row_results s 0 rows)))
    as (new & Hins & Hnew).
  rewrite Hins. intros [= <- _]. cbn [plans].
  unfold unique_plans in *. rewrite map_app, unique_keys_app.
  assert (Hkeys : map plan_key new =
                  map data_key (rights (row_results s 0 rows))).
  { rewrite <- Hnew, map_map. reflexivity. }
  rewrite Hkeys, Hunique, Hbatch. cbn [andb].
  apply forallb_forall. intros k Hk.
  apply in_map_iff in Hk as (p & <- & Hp).
  apply negb_true_iff.
  destruct (existsb (key_eqb (plan_key p))
              (map data_key (rights (row_results s 0 rows)))) eqn:Hex;
    [|reflexivity].
  apply existsb_exists in Hex as (k' & Hk' & Heq).
  apply in_map_iff in Hk' as (pd & <- & Hpd).
  destruct (accepted_rows s rows 0 pd Hpd) as (i & r & Hrow).
  destruct (check_row_accepted s i r pd Hrow) as (_ & _ & _ & _ & _ & Hnone).
  unfold get_plan_by_date_and_category in Hnone.
  pose proof (find_none _ _ Hnone p Hp) as Hno. cbn beta in Hno.
  unfold key_eqb, plan_key, data_key in Heq. cbn [fst snd] in Heq.
  congruence.
Qed.

(** ** Month performance *)

(** *** Which errors decimal arithmetic can raise *)

Lemma fix_raises (d : Decimal) (err : exn) :
  fix_ d = Raise err -> err = Overflow.
Proof.
  unfold fix_. destruct d as [s c e | s | s sig p]; try discriminate.
  destruct (c =? 0)%N; [discriminate|].
  destruct (Etop <? ndigits c + e - prec); [now intros [= <-]|].
  destruct (e <? Z.max (ndigits c + e - prec) Etiny); [|discriminate].
  destruct (prec <? ndigits (round_half_even c
              (Z.max (ndigits c + e - prec) Etiny - e)));
    match goal with
    | |- context [Etop <? ?x] => destruct (Etop <? x)
    end; try discriminate; now intros [= <-].
Qed.

Lemma check_nans_raises (a b : Decimal) (r : result Decimal) (err : exn) :
  check_nans a b = inl r -> r = Raise err -> is_division_by_zero err = false.
Proof.
  destruct a as [? ? ? | ? | ? [|] ?], b as [? ? ? | ? | ? [|] ?]; cbn;
    intros [= <-]; try discriminate; now intros [= <-].
Qed.

Ltac fix_case :=
  match goal with
  | |- fix_ ?d = Raise ?err -> _ =>
    let H := fresh in intros H; apply fix_raises in H; now subst
  end.

Lemma dec_mul_raises (a b : Decimal) (err : exn) :
  dec_mul a b = Raise err -> is_division_by_zero err = false.
Proof.
  unfold dec_mul.
  destruct (check_nans a b) as [r | [[s1 c1 e1 | s1] [s2 c2 e2 | s2]]] eqn:Hn.
  - intros ->. eapply check_nans_raises; eauto.
  - fix_case.
  - destruct (c1 =? 0)%N; [now intros [= <-] | discriminate].
  - destruct (c2 =? 0)%N; [now intros [= <-] | discriminate].
  - discriminate.
Qed.

Lemma quantize_raises (a b : Decimal) (err : exn) :
  quantize a b = Raise err -> is_division_by_zero err = false.
Proof.
  unfold quantize.
  destruct (check_nans a b) as [r | [[s1 c1 e1 | s1] [s2 c2 e2 | s2]]] eqn:Hn.
  - intros ->. eapply check_nans_raises; eauto.
  - destruct (negb ((Etiny <=? e2) && (e2 <=? Emax))); [now intros [= <-]|].
    destruct (c1 =? 0)%N; [fix_case|].
    destruct (Emax <? adjusted c1 e1); [now intros [= <-]|].
    destruct (prec <? adjusted c1 e1 - e2 + 1); [now intros [= <-]|].
    destruct (rescale s1 c1 e1 e2) as [s' c' e' | s' | s' sig' p'];
      try discriminate.
    destruct (Emax <? adjusted c' e'); [now intros [= <-]|].
    destruct (prec <? ndigits c'); [now intros [= <-] | fix_case].
  - now intros [= <-].
  - now intros [= <-].
  - discriminate.
Qed.

(** A decimal division raises one of the division-by-zero errors only when
    the divisor is a zero. *)
Lemma dec_div_raises (a b : Decimal) (err : exn) :
  dec_div a b = Raise err -> is_division_by_zero err = true ->
  is_zero b = true.
Proof.
  unfold dec_div.
  destruct (check_nans a b) as [r | [[s1 c1 e1 | s1] [s2 c2 e2 | s2]]] eqn:Hn.
  - intros -> Hz. erewrite check_nans_raises in Hz; eauto. discriminate.
  - assert (Hb : b = DFinite s2 c2 e2).
    { destruct a as [? ? ? | ? | ? [|] ?], b as [? ? ? | ? | ? [|] ?];
        cbn in Hn; congruence. }
    subst b. cbn [is_zero].
    destruct (c2 =? 0)%N; [reflexivity|].
    destruct (c1 =? 0)%N.
    + intros H Hz. apply fix_raises in H. subst. discriminate.
    + destruct (if 0 <=? ndigits c2 - ndigits c1 + prec + 1
                then N.div_eucl
                       (c1 * pow10 (ndigits c2 - ndigits c1 + prec + 1)) c2
                else N.div_eucl c1
                       (c2 * pow10 (- (ndigits c2 - ndigits c1 + prec + 1))))
        as [coeff remainder].
      destruct (negb (remainder =? 0)%N).
      * intros H Hz. apply fix_raises in H. subst. discriminate.
      * destruct (strip_zeros (e1 - e2)
                    (Z.to_nat
                       (e1 - e2 -
                        (e1 - e2 - (ndigits c2 - ndigits c1 + prec + 1))))
                    coeff (e1 - e2 - (ndigits c2 - ndigits c1 + prec + 1)))
          as [coeff' exp'].
        intros H Hz. apply fix_raises in H. subst. discriminate.
  - discriminate.
  - discriminate.
  - intros [= <-]. discriminate.
Qed.

(** *** The completion rate of a plan *)

Lemma zero_plan_divisor (sg : bool) (e : Z) :
  as_decimal (py_or (PDec (DFinite sg 0 e)) (PInt 1)) = of_int 1.
Proof. reflexivity. Qed.

(** C4: for a plan whose target sum is 0 the rate is computed with 1 in the
    place of the target: actual * 100 / 1, rounded to 2 decimals and followed
    by a percent sign.  No outcome of the computation is a division-by-zero
    failure, and an actual sum of 50 gives "5000.00%". *)
Theorem zero_target_completion_rate
  (actual : option Decimal) (sg : bool) (e : Z) :
  (forall a, actual = Some a ->
     completion_rate actual (DFinite sg 0 e) =
     (n <- dec_mul a (of_int 100);;
      q <- dec_div n (of_int 1);;
      render_percent q)) /\
  (forall err,
     completion_rate actual (DFinite sg 0 e) = Raise err ->
     is_division_by_zero err = false) /\
  (forall rate,
     completion_rate actual (DFinite sg 0 e) = Ok rate ->
     exists q r,
       dec_round q 2 = Ok r /\ rate = to_string r ++ "%" /\
       forall s c e',
         q = DFinite s c e' -> r = DFinite s (to_hundredths c e') (-2)) /\
  completion_rate (Some (of_cents 5000)) (DFinite sg 0 e) = Ok "5000.00%" /\
  completion_rate (Some (of_int 50)) (DFinite sg 0 e) = Ok "5000.00%" /\
  get_all_performance Sample.zero_target (Some (mkdate 2024 3 20)) =
  Return [IssuedStatus (mkdate 2024 3 1) "видача" (of_cents 0)
            (Some (of_cents 5000)) "5000.00%"].
Proof.
  split; [|split; [|split; [|split; [|split]]]].
  - intros a ->. unfold completion_rate. now rewrite zero_plan_divisor.
  - intros err. unfold completion_rate.
    destruct actual as [a |]; [|now intros [= <-]].
    rewrite zero_plan_divisor.
    destruct (dec_mul a (of_int 100)) as [n | e1] eqn:Hmul; cbn [bind].
    + destruct (dec_div n (of_int 1)) as [q | e2] eqn:Hdiv; cbn [bind].
      * unfold render_percent, dec_round.
        destruct (quantize q (DFinite false 1 (- (2)))) as [r | e3] eqn:Hq;
          cbn [bind]; [discriminate|].
        intros [= <-]. eapply quantize_raises; eauto.
      * intros [= <-].
        destruct (is_division_by_zero e2) eqn:Hz; [|reflexivity].
        pose proof (dec_div_raises _ _ _ Hdiv Hz) as H. discriminate H.
    + intros [= <-]. eapply dec_mul_raises; eauto.
  - intros rate. unfold completion_rate.
    destruct actual as [a |]; [|discriminate].
    destruct (dec_mul a (of_int 100)) as [n |]; cbn [bind]; [|discriminate].
    destruct (dec_div n _) as [q |]; cbn [bind]; [|discriminate].
    unfold render_percent.
    destruct (dec_round q 2) as [r |] eqn:Hr; cbn [bind]; [|discriminate].
    intros [= <-]. exists q, r. repeat split; [exact Hr|].
    intros s c e' ->. unfold dec_round in Hr.
    eapply quantize_hundredths; eauto.
  - unfold completion_rate. rewrite zero_plan_divisor. reflexivity.
  - unfold completion_rate. rewrite zero_plan_divisor. reflexivity.
  - reflexivity.
Qed.

(** *** Sums over an empty selection *)

Lemma sql_sum_some (cents : list Z) (d : Decimal) :
  sql_sum cents = Some d -> exists x, In x cents.
Proof.
  destruct cents as [| x rest]; [discriminate|]. intros _. exists x. now left.
Qed.

Lemma completion_rate_needs_sum (actual : option Decimal) (plan_sum : Decimal)
  (rate : string) :
  completion_rate actual plan_sum = Ok rate -> exists d, actual = Some d.
Proof. destruct actual; [eauto | discriminate]. Qed.

Lemma issued_in_range (s : store) (period actual_date : date) (d : Decimal) :
  get_sum_issued_loans s period actual_date = Some d ->
  exists c,
    In c (credits s) /\
    date_leb period (Credit.issuance_date c) = true /\
    date_leb (Credit.issuance_date c) actual_date = true.
Proof.
  unfold get_sum_issued_loans. intros H.
  apply sql_sum_some in H as [x Hx].
  apply in_map_iff in Hx as (c & _ & Hc).
  apply filter_In in Hc as [Hin Hrange].
  apply andb_true_iff in Hrange. eauto.
Qed.

Lemma paid_in_range (s : store) (period actual_date : date) (d : Decimal) :
  get_payment_sum s period actual_date = Some d ->
  exists p,
    In p (payments s) /\
    date_leb period (Payment.payment_date p) = true /\
    date_leb (Payment.payment_date p) actual_date = true.
Proof.
  unfold get_payment_sum. intros H.
  apply sql_sum_some in H as [x Hx].
  apply in_map_iff in Hx as (p & _ & Hp).
  apply filter_In in Hp as [Hin Hrange].
  apply andb_true_iff in Hrange. eauto.
Qed.

Lemma issuance_is_not_collection (category : option string) :
  name_is category "видача" = true -> name_is category "збір" = false.
Proof.
  destruct category as [c |]; cbn; [|discriminate].
  intros H. apply String.eqb_eq in H. now subst.
Qed.

Lemma plan_statuses_rows (s : store) (date_obj : date)
  (month_plans : list Plan.t) :
  forall acc out,
    plan_statuses s date_obj month_plans acc = Ok out ->
    forall plan, In plan month_plans -> has_ledger_rows s date_obj plan.
Proof.
  induction month_plans as [| p rest IH]; intros acc out Hrun plan Hin;
    [destruct Hin|].
  cbn [plan_statuses] in Hrun.
  destruct (name_is (get_category_name_by_id s (Plan.category_id p))
              "видача") eqn:Hissue.
  - destruct (completion_rate
                (get_sum_issued_loans s (Plan.period p) date_obj)
                (Plan.sum p)) as [rate | err] eqn:Hrate;
      cbn [bind] in Hrun; [|discriminate].
    destruct Hin as [<- | Hin]; [|eapply IH; eauto].
    apply completion_rate_needs_sum in Hrate as [d Hd].
    split; [intros _; eapply issued_in_range; eauto|].
    rewrite (issuance_is_not_collection _ Hissue). discriminate.
  - destruct (name_is (get_category_name_by_id s (Plan.category_id p))
                "збір") eqn:Hcollect.
    + destruct (completion_rate
                  (get_payment_sum s (Plan.period p) date_obj)
                  (Plan.sum p)) as [rate | err] eqn:Hrate;
        cbn [bind] in Hrun; [|discriminate].
      destruct Hin as [<- | Hin]; [|eapply IH; eauto].
      apply completion_rate_needs_sum in Hrate as [d Hd].
      split; [rewrite Hissue; discriminate|].
      intros _. eapply paid_in_range; eauto.
    + destruct Hin as [<- | Hin]; [|eapply IH; eauto].
      split; [rewrite Hissue | rewrite Hcollect]; discriminate.
Qed.

(** C10: in the month report the sum of the ledger is used as the query
    returned it, without a guard for an absent value: an absent sum makes
    the rate computation raise [TypeError], where the year report puts 0 in
    its place.  So whenever the month report returns, every issuance plan of
    the month has a credit, and every collection plan a payment, dated from
    the plan's period to the requested date. *)
Theorem month_report_needs_ledger_rows
  (s : store) (date_obj : date) (entries : list status_entry) :
  get_all_performance s (Some date_obj) = Return entries ->
  (forall plan,
     In plan (get_month_plans s (mkdate (year date_obj) (month date_obj) 1)) ->
     has_ledger_rows s date_obj plan) /\
  (forall plan_sum, completion_rate None plan_sum = Raise TypeError) /\
  (forall plan_date plan v v',
     get_month_sum_issued_loans s plan_date = Ok None ->
     id_is plan (get_category_id_by_name s "видача") = true ->
     month_step s plan_date plan v = Ok v' ->
     v_sum_issued_loans v' = PInt 0) /\
  (forall plan_date plan v v',
     get_month_sum_payments s plan_date = Ok None ->
     id_is plan (get_category_id_by_name s "видача") = false ->
     month_step s plan_date plan v = Ok v' ->
     v_sum_payments v' = PInt 0).
Proof.
  intros Hrun. split; [|split; [reflexivity | split]].
  - unfold get_all_performance in Hrun.
    destruct (date_new (year date_obj) (month date_obj) 1)
      as [first | e] eqn:Hfirst; cbn [run] in Hrun; [|discriminate].
    apply date_new_ok in Hfirst as [-> _].
    destruct (get_month_plans s (mkdate (year date_obj) (month date_obj) 1))
      as [| p rest] eqn:Hplans; [discriminate|].
    destruct (plan_statuses s date_obj (p :: rest) []) as [out | err] eqn:Hst;
      cbn [run] in Hrun; [|discriminate].
    eapply plan_statuses_rows; eauto.
  - intros plan_date plan v v' Hsum Hid. unfold month_step.
    rewrite Hid, Hsum.
    destruct (get_amount_of_loans s plan_date); cbn [bind];
      [|discriminate].
    now intros [= <-].
  - intros plan_date plan v v' Hsum Hid. unfold month_step.
    rewrite Hid, Hsum.
    destruct (get_amount_of_payments s plan_date); cbn [bind];
      [|discriminate].
    now intros [= <-].
Qed.

Lemma month_report_needs_ledger_rows_witness :
  (forall plan,
     In plan (get_month_plans Sample.march (mkdate 2024 3 1)) ->
     has_ledger_rows Sample.march (mkdate 2024 3 20) plan) /\
  (forall plan_sum, completion_rate None plan_sum = Raise TypeError) /\
  (forall plan_date plan v v',
     get_month_sum_issued_loans Sample.march plan_date = Ok None ->
     id_is plan (get_category_id_by_name Sample.march "видача") = true ->
     month_step Sample.march plan_date plan v = Ok v' ->
     v_sum_issued_loans v' = PInt 0) /\
  (forall plan_date plan v v',
     get_month_sum_payments Sample.march plan_date = Ok None ->
     id_is plan (get_category_id_by_name Sample.march "видача") = false ->
     month_step Sample.march plan_date plan v = Ok v' ->
     v_sum_payments v' = PInt 0).
Proof.
  apply (month_report_needs_ledger_rows Sample.march (mkdate 2024 3 20)
           [IssuedStatus (mkdate 2024 3 1) "видача" (of_cents 1000000)
              (Some (of_cents 600000)) "60.00%";
            PaymentStatus (mkdate 2024 3 1) "збір" (of_cents 800000)
              (Some (of_cents 820000)) "102.50%"]).
  reflexivity.
Defined.

(** Without a credit in range the month report of an issuance plan does not
    return: the [TypeError] escapes the handler. *)
Lemma month_report_without_credits :
  get_all_performance
    (mkstore [] [] Sample.dictionary
       [Plan.mk 1 (mkdate 2024 3 1) (of_cents 1000000) 3])
    (Some (mkdate 2024 3 20)) = Escaped TypeError.
Proof. reflexivity. Qed.

(** ** Year performance *)

Lemma percent_of_nothing (float_round2_str : Z -> Z -> string) :
  percent_string float_round2_str (PInt 0) (PInt 0) = Raise ZeroDivisionError.
Proof. reflexivity. Qed.

(** While no plan of the month is an issuance plan, the second pass leaves
    the issuance target and the issued sum at the int 0 they start from. *)
Lemma month_loop_no_issuance (s : store) (plan_date : date)
  (plans_list : list Plan.t) :
  (forall plan, In plan plans_list ->
                id_is plan (get_category_id_by_name s "видача") = false) ->
  forall v v',
    month_loop s plan_date plans_list v = Ok v' ->
    v_plan_sum_issued_loans v' = v_plan_sum_issued_loans v /\
    v_sum_issued_loans v' = v_sum_issued_loans v.
Proof.
  induction plans_list as [| plan rest IH]; intros Hnone v v';
    cbn [month_loop].
  - now intros [= <-].
  - unfold month_step at 1. rewrite (Hnone plan (or_introl eq_refl)).
    destruct (get_amount_of_payments s plan_date); cbn [bind];
      [|discriminate].
    destruct (get_month_sum_payments s plan_date); cbn [bind];
      [|discriminate].
    intros Hrest. apply IH in Hrest; [|intros p Hp; apply Hnone; now right].
    exact Hrest.
Qed.

(** A month without an issuance plan never gets its dict: the issuance rate
    divides the int 0 by the int 0. *)
Lemma month_without_issuance_plan
  (float_round2_str : Z -> Z -> string) (s : store) (totals : pynum * pynum)
  (plan_date : date) (plans_list : list Plan.t) (v : month_vars) :
  (forall plan, In plan plans_list ->
                id_is plan (get_category_id_by_name s "видача") = false) ->
  month_loop s plan_date plans_list fresh_vars = Ok v ->
  month_entry float_round2_str s totals plan_date plans_list =
  Raise ZeroDivisionError.
Proof.
  intros Hnone Hloop. unfold month_entry. destruct totals as [issues paid].
  fold fresh_vars. rewrite Hloop. cbn [bind].
  destruct (month_loop_no_issuance s plan_date plans_list Hnone _ _ Hloop)
    as [Hplan Hsum].
  rewrite Hplan, Hsum. reflexivity.
Qed.

(** C3 at its failing input: a year whose only plan is the collection plan
    of March.  The month holds no issuance plan; its issuance rate is
    computed as 0 * 100 / 0 and the handler ends in [ZeroDivisionError],
    whatever floats look like. *)
Lemma year_report_division_by_zero (float_round2_str : Z -> Z -> string) :
  get_year_performance float_round2_str Sample.collection_only 2024 =
  Escaped ZeroDivisionError.
Proof. reflexivity. Qed.

(** The first pass counts a month's payments for every plan that is not an
    issuance plan, whatever its category. *)
Lemma not_issuance_counts_as_collection
  (s : store) (plan_date : date) (plan : Plan.t) (issues paid : pynum) :
  id_is plan (get_category_id_by_name s "видача") = false ->
  add_to_year s plan_date plan (issues, paid) =
  (month_sum <- get_month_sum_payments s plan_date;;
   total <- py_add paid (opt_or month_sum (PInt 0));;
   Ok (issues, total)).
Proof. intros H. unfold add_to_year. now rewrite H. Qed.

Lemma issuance_counts_as_issuance
  (s : store) (plan_date : date) (plan : Plan.t) (issues paid : pynum) :
  id_is plan (get_category_id_by_name s "видача") = true ->
  add_to_year s plan_date plan (issues, paid) =
  (month_sum <- get_month_sum_issued_loans s plan_date;;
   total <- py_add issues (opt_or month_sum (PInt 0));;
   Ok (total, paid)).
Proof. intros H. unfold add_to_year. now rewrite H. Qed.

(** C5 at its failing input: March holds an issuance plan and a plan whose
    category is the payment type "body".  The year holds no collection plan,
    and yet the first pass adds the payments of March, 8200.00, to the annual
    collection total; in the report March then makes up 100.00% of the
    year's payments. *)
Lemma other_category_counts_as_collection
  (float_round2_str : Z -> Z -> string) :
  get_category_name_by_id Sample.other_category 1 = Some "body" /\
  get_year_plans Sample.other_category 2024 =
    Ok [(mkdate 2024 3 1, plans Sample.other_category)] /\
  year_totals Sample.other_category
    [(mkdate 2024 3 1, plans Sample.other_category)] (PInt 0, PInt 0) =
    Ok (PDec (of_cents 600000), PDec (of_cents 820000)) /\
  get_year_performance float_round2_str Sample.other_category 2024 =
    Return [mkmonth "03.2024"
              2 (PDec (of_cents 1000000)) (PDec (of_cents 600000)) "60.00%"
              2 (PDec (of_cents 800000)) (PDec (of_cents 820000)) "102.50%"
              "100.00%" "100.00%"].
Proof. repeat split. Qed.
(** * Further properties *)

(** ** The dictionary *)

Lemma same_row_by_key {A : Type} (f : A -> Z) (l : list A) (a b : A) :
  NoDup (map f l) -> In a l -> In b l -> f a = f b -> a = b.
Proof.
  induction l as [| x l IH]; cbn [map]; intros Hnodup Ha Hb Hkey;
    [destruct Ha|].
  inversion Hnodup as [| ? ? Hnotin Hrest]; subst.
  destruct Ha as [-> | Ha], Hb as [-> | Hb]; try reflexivity.
  - exfalso. apply Hnotin. rewrite Hkey. now apply in_map.
  - exfalso. apply Hnotin. rewrite <- Hkey. now apply in_map.
  - now apply IH.
Qed.

Lemma same_row_by_name (l : list Dictionary.t) (a b : Dictionary.t) :
  NoDup (map Dictionary.name l) -> In a l -> In b l ->
  Dictionary.name a = Dictionary.name b -> a = b.
Proof.
  induction l as [| x l IH]; cbn [map]; intros Hnodup Ha Hb Hkey;
    [destruct Ha|].
  inversion Hnodup as [| ? ? Hnotin Hrest]; subst.
  destruct Ha as [-> | Ha], Hb as [-> | Hb]; try reflexivity.
  - exfalso. apply Hnotin. rewrite Hkey. now apply in_map.
  - exfalso. apply Hnotin. rewrite <- Hkey. now apply in_map.
  - now apply IH.
Qed.

Lemma find_finds {A : Type} (f : A -> bool) (l : list A) (a : A) :
  In a l -> f a = true -> exists b, find f l = Some b.
Proof.
  intros Hin Hf. destruct (find f l) as [b |] eqn:Hfind; [eauto|].
  pose proof (find_none _ _ Hfind a Hin) as H. congruence.
Qed.

(** X1: where ids identify the rows of the dictionary (they are its primary
    key), the id found for a name leads back to that name. *)
Theorem category_name_of_found_id (s : store) (name : string) (id : Z) :
  NoDup (map Dictionary.id (dictionaries s)) ->
  get_category_id_by_name s name = Some id ->
  get_category_name_by_id s id = Some name.
Proof.
  intros Hkeys. unfold get_category_id_by_name, get_category_name_by_id.
  destruct (find (fun d => (Dictionary.name d =? name)%string)
              (dictionaries s)) as [d |] eqn:Hd; [|discriminate].
  cbn [option_map]. intros [= <-].
  apply find_some in Hd as [Hin Hname]. apply String.eqb_eq in Hname.
  destruct (find_finds (fun d' => Dictionary.id d' =? Dictionary.id d)
              (dictionaries s) d Hin (Z.eqb_refl _)) as [d' Hd'].
  rewrite Hd'. cbn [option_map].
  apply find_some in Hd' as [Hin' Hid]. apply Z.eqb_eq in Hid.
  rewrite (same_row_by_key Dictionary.id _ d' d Hkeys Hin' Hin Hid).
  now rewrite Hname.
Qed.

Lemma category_name_of_found_id_witness :
  get_category_name_by_id Sample.march 4 = Some "збір".
Proof.
  apply (category_name_of_found_id Sample.march "збір" 4).
  - repeat constructor; cbn; intuition discriminate.
  - reflexivity.
Defined.

(** X2: where no two rows of the dictionary bear the same name, the name
    found for an id leads back to that id. *)
Theorem category_id_of_found_name (s : store) (name : string) (id : Z) :
  NoDup (map Dictionary.name (dictionaries s)) ->
  get_category_name_by_id s id = Some name ->
  get_category_id_by_name s name = Some id.
Proof.
  intros Hnames. unfold get_category_id_by_name, get_category_name_by_id.
  destruct (find (fun d => Dictionary.id d =? id) (dictionaries s))
    as [d |] eqn:Hd; [|discriminate].
  cbn [option_map]. intros [= <-].
  apply find_some in Hd as [Hin Hid]. apply Z.eqb_eq in Hid.
  destruct (find_finds
              (fun d' => (Dictionary.name d' =? Dictionary.name d)%string)
              (dictionaries s) d Hin (String.eqb_refl _)) as [d' Hd'].
  rewrite Hd'. cbn [option_map].
  apply find_some in Hd' as [Hin' Hname]. apply String.eqb_eq in Hname.
  rewrite (same_row_by_name _ d' d Hnames Hin' Hin Hname).
  now rewrite Hid.
Qed.

Lemma category_id_of_found_name_witness :
  get_category_id_by_name Sample.march "видача" = Some 3.
Proof.
  apply (category_id_of_found_name Sample.march "видача" 3).
  - repeat constructor; cbn; intuition discriminate.
  - reflexivity.
Defined.

(** ** The window of a month *)

Lemma incr_month_value (p next : date) :
  incr_month p = Ok next ->
  day next = 1 /\
  (month p = 12 /\ year next = year p + 1 /\ month next = 1 \/
   month p <> 12 /\ year next = year p /\ month next = month p + 1).
Proof.
  unfold incr_month.
  destruct (Z.eqb_spec (month p) 12) as [H12 | H12];
    intros H; apply date_new_ok in H as [-> _]; cbn; lia.
Qed.

Lemma date_ltb_true (a b : date) : date_ltb a b = true <-> date_before a b.
Proof.
  unfold date_ltb, date_before.
  rewrite orb_true_iff, andb_true_iff, orb_true_iff, andb_true_iff,
    !Z.ltb_lt, !Z.eqb_eq.
  reflexivity.
Qed.

Lemma date_ltb_false (a b : date) :
  date_ltb a b = false <-> ~ date_before a b.
Proof. rewrite <- date_ltb_true. symmetry. apply not_true_iff_false. Qed.

Lemma date_eqb_true (a b : date) : date_eqb a b = true <-> date_same a b.
Proof.
  unfold date_eqb, date_same. rewrite !andb_true_iff, !Z.eqb_eq. tauto.
Qed.

Lemma date_eqb_false (a b : date) :
  date_eqb a b = false <-> ~ date_same a b.
Proof. rewrite <- date_eqb_true. symmetry. apply not_true_iff_false. Qed.

Lemma date_leb_true (a b : date) :
  date_leb a b = true <-> date_before a b \/ date_same a b.
Proof.
  unfold date_leb. now rewrite orb_true_iff, date_ltb_true, date_eqb_true.
Qed.

Lemma same_month_true (p d : date) :
  same_month p d = true <-> year d = year p /\ month d = month p.
Proof. unfold same_month. now rewrite andb_true_iff, !Z.eqb_eq. Qed.

(** Questions of order between dates, as linear arithmetic. *)
Ltac date_order :=
  repeat match goal with
         | H : date_ltb _ _ = true |- _ => apply date_ltb_true in H
         | H : date_ltb _ _ = false |- _ => apply date_ltb_false in H
         | H : date_eqb _ _ = true |- _ => apply date_eqb_true in H
         | H : date_eqb _ _ = false |- _ => apply date_eqb_false in H
         end;
  try match goal with
      | |- date_ltb _ _ = true => apply date_ltb_true
      | |- date_ltb _ _ = false => apply date_ltb_false
      | |- date_eqb _ _ = true => apply date_eqb_true
      | |- date_eqb _ _ = false => apply date_eqb_false
      end;
  unfold date_before, date_same in *; cbn [year month day] in *; lia.

(** X3: the window [period, incr_month(period)) of the month queries holds
    exactly the dates of that month. *)
Theorem month_window (p next d : date) :
  valid_date p = true -> day p = 1 -> valid_date d = true ->
  incr_month p = Ok next ->
  date_leb p d && date_ltb d next = same_month p d.
Proof.
  intros Hp Hday Hd Hnext.
  apply valid_date_bounds in Hp as (_ & Hmp & _).
  apply valid_date_bounds in Hd as (_ & Hmd & Hdd).
  apply incr_month_value in Hnext as (Hn1 & Hn).
  apply eq_true_iff_eq.
  rewrite andb_true_iff, date_leb_true, date_ltb_true, same_month_true.
  unfold date_before, date_same. lia.
Qed.

Lemma month_window_witness :
  date_leb (mkdate 2024 2 1) (mkdate 2024 2 29) &&
  date_ltb (mkdate 2024 2 29) (mkdate 2024 3 1) =
  same_month (mkdate 2024 2 1) (mkdate 2024 2 29).
Proof.
  apply (month_window (mkdate 2024 2 1) (mkdate 2024 3 1) (mkdate 2024 2 29));
    reflexivity.
Defined.

Lemma month_end_window (p d : date) :
  valid_date p = true -> day p = 1 -> valid_date d = true ->
  date_leb p d && date_leb d (last_of_month p) = same_month p d.
Proof.
  intros Hp Hday Hd.
  apply valid_date_bounds in Hp as (_ & Hmp & _).
  apply valid_date_bounds in Hd as (_ & Hmd & Hdd).
  apply eq_true_iff_eq.
  rewrite andb_true_iff, !date_leb_true, same_month_true.
  unfold date_before, date_same, last_of_month. cbn [year month day].
  split.
  - lia.
  - intros [Hy Hm]. rewrite Hy, Hm in Hdd. lia.
Qed.

(** X4: asked on the last day of a month, the sums of the month report (up
    to the requested day) are the sums of the year report (the whole month),
    for credits and for payments. *)
Theorem month_sums_at_month_end (s : store) (p : date) :
  valid_date p = true -> day p = 1 ->
  (forall c, In c (credits s) -> valid_date (Credit.issuance_date c) = true) ->
  (forall q, In q (payments s) -> valid_date (Payment.payment_date q) = true) ->
  (forall x, get_month_sum_issued_loans s p = Ok x ->
             get_sum_issued_loans s p (last_of_month p) = x) /\
  (forall x, get_month_sum_payments s p = Ok x ->
             get_payment_sum s p (last_of_month p) = x).
Proof.
  intros Hp Hday Hcredits Hpayments. split.
  - intros x. unfold get_month_sum_issued_loans, get_sum_issued_loans.
    destruct (incr_month p) as [next |] eqn:Hnext; cbn [bind];
      [|discriminate].
    intros [= <-]. f_equal. f_equal. apply filter_ext_in. intros c Hc.
    rewrite (month_window p next _ Hp Hday (Hcredits c Hc) Hnext).
    apply month_end_window; auto.
  - intros x. unfold get_month_sum_payments, get_payment_sum.
    destruct (incr_month p) as [next |] eqn:Hnext; cbn [bind];
      [|discriminate].
    intros [= <-]. f_equal. f_equal. apply filter_ext_in. intros q Hq.
    rewrite (month_window p next _ Hp Hday (Hpayments q Hq) Hnext).
    apply month_end_window; auto.
Qed.

Lemma month_sums_at_month_end_witness :
  (forall x, get_month_sum_issued_loans Sample.march (mkdate 2024 3 1) = Ok x ->
             get_sum_issued_loans Sample.march (mkdate 2024 3 1)
               (last_of_month (mkdate 2024 3 1)) = x) /\
  (forall x, get_month_sum_payments Sample.march (mkdate 2024 3 1) = Ok x ->
             get_payment_sum Sample.march (mkdate 2024 3 1)
               (last_of_month (mkdate 2024 3 1)) = x).
Proof.
  apply (month_sums_at_month_end Sample.march (mkdate 2024 3 1)).
  - reflexivity.
  - reflexivity.
  - intros c Hc. cbn in Hc. intuition (subst; reflexivity).
  - intros q Hq. cbn in Hq. intuition (subst; reflexivity).
Defined.

(** ** Payments of a credit *)

Lemma coalesced_sum (cents : list Z) :
  is_amount (opt_or (sql_sum cents) (PInt 0)) (fold_right Z.add 0 cents).
Proof.
  unfold is_amount. destruct cents as [| x rest]; [now left|].
  cbn [sql_sum opt_or]. set (z := fold_right Z.add 0 (x :: rest)).
  unfold py_or, truthy, dec_bool, of_cents, is_zero.
  destruct (N.eqb_spec (Z.abs_N z) 0) as [H0 | H0]; cbn [negb].
  - left. split; [lia | reflexivity].
  - right. split; [lia | reflexivity].
Qed.

Lemma filter_both {A : Type} (f g : A -> bool) (l : list A) :
  filter f (filter g l) = filter (fun a => f a && g a) l.
Proof.
  induction l as [| a l IH]; cbn [filter]; [reflexivity|].
  destruct (g a); cbn [filter]; rewrite ?andb_true_r, ?andb_false_r;
    [destruct (f a)|]; now rewrite IH.
Qed.

Lemma total_by_type (ps : list Payment.t) :
  (forall p, In p ps -> Payment.type_id p = 1 \/ Payment.type_id p = 2) ->
  total_cents ps =
  total_cents (filter (fun p => Payment.type_id p =? 1) ps) +
  total_cents (filter (fun p => Payment.type_id p =? 2) ps).
Proof.
  unfold total_cents.
  induction ps as [| p ps IH]; intros Htypes; [reflexivity|].
  cbn [filter map fold_right].
  rewrite IH by (intros q Hq; apply Htypes; now right).
  destruct (Htypes p (or_introl eq_refl)) as [-> | ->];
    cbn [Z.eqb Pos.eqb map fold_right]; lia.
Qed.

(** X5: the three payment totals of a credit are exact: each is the sum of
    the selected payments, handed over as the int 0 when that sum is zero.
    When every payment of the credit is of type 1 (body) or 2 (percent), the
    total paid is the body part plus the percent part. *)
Theorem payment_totals (s : store) (credit_id : Z) :
  is_amount (get_loan_payment_amount_by_credit_id s credit_id)
            (total_cents (payments_of s credit_id)) /\
  is_amount (get_credit_payments_by_type s credit_id 1)
            (total_cents (payments_of_type s credit_id 1)) /\
  is_amount (get_credit_payments_by_type s credit_id 2)
            (total_cents (payments_of_type s credit_id 2)) /\
  ((forall p, In p (payments_of s credit_id) ->
              Payment.type_id p = 1 \/ Payment.type_id p = 2) ->
   total_cents (payments_of s credit_id) =
   total_cents (payments_of_type s credit_id 1) +
   total_cents (payments_of_type s credit_id 2)).
Proof.
  unfold get_loan_payment_amount_by_credit_id, get_credit_payments_by_type,
    payments_of_type, payments_of.
  rewrite !filter_both.
  repeat split; try apply coalesced_sum.
  rewrite <- !filter_both. apply total_by_type.
Qed.

(** X6: a user without any credit is answered with status 404; any other
    user gets one dict per credit, in storage order, marked repaid exactly
    when the actual return date is set and carrying the exact totals of the
    credit's payments. *)
Theorem user_credits_report (s : store) (today : date) (user_id : Z) :
  (get_credit_by_user_id s user_id = [] ->
   get_user_credits s today user_id =
   HTTPException 404 (DetailText "Користувача не знайдено")) /\
  (get_credit_by_user_id s user_id <> [] ->
   exists infos,
     get_user_credits s today user_id = Return infos /\
     Forall2 (describes s today) (get_credit_by_user_id s user_id) infos) /\
  (forall c, In c (get_credit_by_user_id s user_id) <->
             In c (credits s) /\ Credit.user_id c = user_id).
Proof.
  unfold get_user_credits. split; [|split].
  - now intros ->.
  - intros Hsome.
    destruct (get_credit_by_user_id s user_id) as [| c cs];
      [contradiction|].
    exists (map (credit_entry s today) (c :: cs)). split; [reflexivity|].
    generalize (c :: cs). clear.
    induction l as [| credit l IH]; cbn [map]; constructor; [|exact IH].
    unfold describes, credit_entry.
    destruct (payment_totals s (Credit.id credit)) as (Hall & Hbody & Hpct & _).
    destruct (Credit.actual_return_date credit); eauto 8.
  - intros c. unfold get_credit_by_user_id. rewrite filter_In, Z.eqb_eq.
    reflexivity.
Qed.

(** ** What an import adds to the store *)

Lemma quantized_sum (d r : Decimal) :
  quantize d (DFinite false 0 (-2)) = Ok r -> storable_sum r.
Proof.
  destruct d as [sg c e | sg | sg [|] payload].
  - intros H. apply quantize_hundredths in H. left. eauto.
  - discriminate.
  - discriminate.
  - cbn. intros [= <-]. right. unfold fix_nan. eauto.
Qed.

Lemma accepted_plan_importable (s : store) (index : Z) (r : row)
  (plan : plan_data) (id : Z) :
  check_row s index r = inr plan ->
  importable s (Plan.mk id (pd_period plan) (pd_sum plan)
                  (pd_category_id plan)).
Proof.
  intros Hrow.
  destruct (check_row_accepted s index r plan Hrow)
    as (_ & Hday & (text & d & _ & _ & Hq) & Hcat & Hnonzero & Hnone).
  unfold importable. cbn [Plan.period Plan.category_id Plan.sum].
  repeat split; auto.
  - unfold get_category_id_by_name in Hcat.
    destruct (find _ (dictionaries s)) as [d0 |] eqn:Hfind; [|discriminate].
    apply find_some in Hfind as [Hin _]. injection Hcat as Hid. eauto.
  - intros q Hq0. unfold get_plan_by_date_and_category in Hnone.
    pose proof (find_none _ _ Hnone q Hq0) as Hno. exact Hno.
  - eapply quantized_sum; eauto.
Qed.

Lemma store_eta (s : store) :
  mkstore (credits s) (payments s) (dictionaries s) (plans s ++ [])%list = s.
Proof. destruct s. cbn. now rewrite app_nil_r. Qed.

Lemma nothing_added (s : store) (answer : response string) :
  exists new,
    fst (s, answer) =
    mkstore (credits s) (payments s) (dictionaries s) (plans s ++ new)%list /\
    ((forall message, snd (s, answer) <> Return message) -> new = []) /\
    (forall p, In p new -> importable s p).
Proof.
  exists []. cbn [fst snd]. rewrite store_eta.
  split; [reflexivity|]. split; [reflexivity|]. intros p [].
Qed.

(** What [upload_plans] leaves: the store with new plans at the end of the
    plans table, none unless it returns. *)
Lemma upload_outcome (s : store) (fault : store_fault) (rows : list row) :
  exists new,
    fst (upload_plans s fault rows) =
    mkstore (credits s) (payments s) (dictionaries s) (plans s ++ new)%list /\
    ((forall message, snd (upload_plans s fault rows) <> Return message) ->
     new = []) /\
    (forall p, In p new -> importable s p).
Proof.
  unfold upload_plans. rewrite check_rows_results. cbn [app].
  destruct (lefts (row_results s 0 rows)) as [| e es].
  - destruct fault as [[k msg] |].
    + rewrite bulk_insert_fails. apply nothing_added.
    + destruct (bulk_insert_works s (rights (row_results s 0 rows)))
        as (new & Hins & Hnew).
      rewrite Hins. exists new. cbn [fst snd]. split; [reflexivity|]. split.
      * intros Hnot. exfalso. eapply Hnot. reflexivity.
      * intros p Hp.
        assert (Hin : In (plan_fields p) (rights (row_results s 0 rows))).
        { rewrite <- Hnew. now apply in_map. }
        destruct (accepted_rows s rows 0 _ Hin) as (i & r & Hrow).
        pose proof (accepted_plan_importable s i r _ (Plan.id p) Hrow) as H.
        now destruct p.
  - apply nothing_added.
Qed.

Lemma substring_all (s : string) : substring 0 (String.length s) s = s.
Proof. induction s as [| c s IH]; cbn; [|rewrite IH]; reflexivity. Qed.

Lemma substring_split (s : string) :
  forall n, (n <= String.length s)%nat ->
            s = substring 0 n s ++ substring n (String.length s - n) s.
Proof.
  induction s as [| c s IH]; intros [| n] Hn; cbn in *; try reflexivity;
    try lia.
  - now rewrite substring_all.
  - now rewrite <- IH by lia.
Qed.

Lemma endswith_suffix (s suffix : string) :
  endswith s suffix = true -> exists stem, s = stem ++ suffix.
Proof.
  unfold endswith. intros H. apply andb_true_iff in H as [Hlen Heq].
  apply Nat.leb_le in Hlen. apply String.eqb_eq in Heq.
  exists (substring 0 (String.length s - String.length suffix) s).
  pose proof (substring_split s (String.length s - String.length suffix)
                ltac:(lia)) as H.
  replace (String.length s - (String.length s - String.length suffix))%nat
    with (String.length suffix) in H by lia.
  now rewrite Heq in H.
Qed.

(** X7: whatever is uploaded, credits, payments and the dictionary stay as
    they are and no plan is changed or removed: the plans table can only grow
    at its end, and it grows only when the answer is the success message.
    Every plan added is dated the first of a month, refers to a row of the
    dictionary by an id other than 0, takes a (period, category id) pair that
    no plan of the store had, and holds a sum with two fractional digits or
    a quiet NaN. *)
Theorem upload_only_adds_plans
  (s : store) (fault : store_fault) (filename : string) (contents : decoded) :
  exists new,
    fst (upload_plans_file s fault filename contents) =
    mkstore (credits s) (payments s) (dictionaries s) (plans s ++ new)%list /\
    ((forall message,
        snd (upload_plans_file s fault filename contents) <> Return message) ->
     new = []) /\
    (forall p, In p new -> importable s p).
Proof.
  unfold upload_plans_file.
  destruct (negb (endswith filename ".xls" || endswith filename ".xlsx")).
  - apply nothing_added.
  - destruct contents as [message | df]; [apply nothing_added|].
    destruct (negb (forallb (contains (columns df)) required_columns));
      [apply nothing_added | apply upload_outcome].
Qed.

(** X8: the success message is only given for a file whose name ends in
    .xls or .xlsx and whose sheet has the columns period, sum and
    category_name; the answer is then the one the rows of the sheet give. *)
Theorem upload_gates
  (s : store) (fault : store_fault) (filename : string) (contents : decoded)
  (message : string) :
  snd (upload_plans_file s fault filename contents) = Return message ->
  (exists stem, filename = stem ++ ".xls" \/ filename = stem ++ ".xlsx") /\
  exists df,
    contents = Sheet df /\
    (forall col, In col required_columns -> In col (columns df)) /\
    upload_plans_file s fault filename contents =
    upload_plans s fault (sheet_rows df).
Proof.
  unfold upload_plans_file.
  destruct (endswith filename ".xls") eqn:Hxls;
    [|destruct (endswith filename ".xlsx") eqn:Hxlsx];
    cbn [orb negb]; try discriminate.
  - destruct contents as [msg | df]; [discriminate|].
    destruct (forallb (contains (columns df)) required_columns) eqn:Hcols;
      cbn [negb]; [|discriminate].
    intros _. split.
    + apply endswith_suffix in Hxls as [stem ->]. eauto.
    + exists df. repeat split.
      intros col Hcol. rewrite forallb_forall in Hcols.
      specialize (Hcols col Hcol). unfold contains in Hcols.
      apply existsb_exists in Hcols as (c & Hin & Heq).
      apply String.eqb_eq in Heq. now subst.
  - destruct contents as [msg | df]; [discriminate|].
    destruct (forallb (contains (columns df)) required_columns) eqn:Hcols;
      cbn [negb]; [|discriminate].
    intros _. split.
    + apply endswith_suffix in Hxlsx as [stem ->]. eauto.
    + exists df. repeat split.
      intros col Hcol. rewrite forallb_forall in Hcols.
      specialize (Hcols col Hcol). unfold contains in Hcols.
      apply existsb_exists in Hcols as (c & Hin & Heq).
      apply String.eqb_eq in Heq. now subst.
Qed.

Lemma upload_gates_witness :
  (exists stem, "plans.xlsx" = stem ++ ".xls" \/ "plans.xlsx" = stem ++ ".xlsx")
  /\
  exists df,
    Sheet (mksheet ["period"; "sum"; "category_name"; "note"]
             [Sample.collection_row "100"]) = Sheet df /\
    (forall col, In col required_columns -> In col (columns df)) /\
    upload_plans_file Sample.no_plans None "plans.xlsx"
      (Sheet (mksheet ["period"; "sum"; "category_name"; "note"]
                [Sample.collection_row "100"])) =
    upload_plans Sample.no_plans None (sheet_rows df).
Proof.
  apply (upload_gates Sample.no_plans None "plans.xlsx"
           (Sheet (mksheet ["period"; "sum"; "category_name"; "note"]
                     [Sample.collection_row "100"]))
           "Успішно додано 1 записів в БД").
  reflexivity.
Defined.

(** The three refusals: a file of another kind, a file that cannot be read,
    and a sheet without the sum and the category columns. *)
Lemma upload_refusals :
  upload_plans_file Sample.no_plans None "plans.csv" (Sheet (mksheet [] [])) =
  (Sample.no_plans,
   HTTPException 400
     (DetailText "Файл повинен бути у форматі Excel (.xls, .xlsx)")) /\
  upload_plans_file Sample.no_plans None "plans.xls"
    (Unreadable "File is not a zip file") =
  (Sample.no_plans,
   HTTPException 500
     (DetailText "Помилка обробки файлу: File is not a zip file")) /\
  upload_plans_file Sample.no_plans None "plans.xlsx"
    (Sheet (mksheet ["period"; "total"] [])) =
  (Sample.no_plans,
   HTTPException 400
     (DetailText "В файлі відсутні обов'язкові колонки: sum, category_name")).
Proof. repeat split. Qed.

(** ** The month report *)

Lemma plan_statuses_entries (s : store) (date_obj : date)
  (month_plans : list Plan.t) :
  forall acc out,
    plan_statuses s date_obj month_plans acc = Ok out ->
    exists entries,
      out = (acc ++ entries)%list /\
      Forall2 (reports s date_obj) (filter (recognised s) month_plans)
              entries.
Proof.
  induction month_plans as [| p rest IH]; intros acc out;
    cbn [plan_statuses filter].
  - intros [= <-]. exists []. now rewrite app_nil_r.
  - unfold recognised at 1. cbv zeta.
    destruct (name_is (get_category_name_by_id s (Plan.category_id p))
                "видача") eqn:Hissue; cbn [orb].
    + destruct (completion_rate _ (Plan.sum p)) as [rate | err] eqn:Hrate;
        cbn [bind]; [|discriminate].
      intros Hrest. apply IH in Hrest as (entries & -> & Hall).
      eexists (_ :: entries). rewrite <- app_assoc. split; [reflexivity|].
      constructor; [|exact Hall].
      exists rate. now rewrite Hissue.
    + destruct (name_is (get_category_name_by_id s (Plan.category_id p))
                  "збір") eqn:Hcollect.
      * destruct (completion_rate _ (Plan.sum p)) as [rate | err] eqn:Hrate;
          cbn [bind]; [|discriminate].
        intros Hrest. apply IH in Hrest as (entries & -> & Hall).
        eexists (_ :: entries). rewrite <- app_assoc. split; [reflexivity|].
        constructor; [|exact Hall].
        exists rate. now rewrite Hissue.
      * apply IH.
Qed.

Lemma date_eqb_eq (a b : date) : date_eqb a b = true -> a = b.
Proof.
  unfold date_eqb. rewrite !andb_true_iff, !Z.eqb_eq.
  destruct a, b; cbn. intros [[-> ->] ->]. reflexivity.
Qed.

(** X9: when the month report returns, the month has plans, all dated the
    first of the requested month, and the list holds one dict for every
    issuance or collection plan, in storage order, with the plan's sum, the
    sum of the ledger from the first of the month to the requested day and
    the rate of the two; plans of other categories are passed over. *)
Theorem month_report_entries
  (s : store) (date_obj : date) (entries : list status_entry) :
  get_all_performance s (Some date_obj) = Return entries ->
  let first := mkdate (year date_obj) (month date_obj) 1 in
  get_month_plans s first <> [] /\
  (forall plan, In plan (get_month_plans s first) ->
                In plan (plans s) /\ Plan.period plan = first) /\
  Forall2 (reports s date_obj)
          (filter (recognised s) (get_month_plans s first)) entries.
Proof.
  intros Hrun first.
  unfold get_all_performance in Hrun.
  destruct (date_new (year date_obj) (month date_obj) 1)
    as [actual_month | e] eqn:Hfirst; cbn [run] in Hrun; [|discriminate].
  apply date_new_ok in Hfirst as [-> _]. fold first in Hrun.
  destruct (get_month_plans s first) as [| p rest] eqn:Hplans;
    [discriminate|].
  destruct (plan_statuses s date_obj (p :: rest) []) as [out | err] eqn:Hst;
    cbn [run] in Hrun; [|discriminate].
  injection Hrun as <-.
  split; [discriminate|]. split.
  - intros plan Hin. rewrite <- Hplans in Hin.
    unfold get_month_plans in Hin. apply filter_In in Hin as [Hin Heq].
    split; [exact Hin | now apply date_eqb_eq].
  - apply plan_statuses_entries in Hst as (es & -> & Hall). exact Hall.
Qed.

Lemma month_report_entries_witness :
  let first := mkdate (year (mkdate 2024 3 20)) (month (mkdate 2024 3 20)) 1 in
  get_month_plans Sample.other_category first <> [] /\
  (forall plan, In plan (get_month_plans Sample.other_category first) ->
                In plan (plans Sample.other_category) /\
                Plan.period plan = first) /\
  Forall2 (reports Sample.other_category (mkdate 2024 3 20))
          (filter (recognised Sample.other_category)
                  (get_month_plans Sample.other_category first))
          [IssuedStatus (mkdate 2024 3 1) "видача" (of_cents 1000000)
             (Some (of_cents 600000)) "60.00%"].
Proof.
  apply (month_report_entries Sample.other_category (mkdate 2024 3 20)).
  reflexivity.
Defined.

Lemma plan_statuses_unrecognised (s : store) (date_obj : date)
  (month_plans : list Plan.t) (acc : list status_entry) :
  (forall plan, In plan month_plans -> recognised s plan = false) ->
  plan_statuses s date_obj month_plans acc = Ok acc.
Proof.
  induction month_plans as [| p rest IH]; intros Hnone;
    cbn [plan_statuses]; [reflexivity|].
  pose proof (Hnone p (or_introl eq_refl)) as Hp.
  unfold recognised in Hp. cbv zeta in Hp. apply orb_false_iff in Hp as [-> ->].
  apply IH. intros plan Hin. apply Hnone. now right.
Qed.

(** X10: a month whose plans are all of categories other than issuance and
    collection is answered with an empty list, not with status 404; status
    404 is the answer when the month has no plan at all. *)
Theorem month_report_of_other_categories (s : store) (date_obj : date) :
  valid_date date_obj = true ->
  let first := mkdate (year date_obj) (month date_obj) 1 in
  (forall plan, In plan (get_month_plans s first) ->
                recognised s plan = false) ->
  (get_month_plans s first <> [] ->
   get_all_performance s (Some date_obj) = Return []) /\
  (get_month_plans s first = [] ->
   exists detail,
     get_all_performance s (Some date_obj) = HTTPException 404 detail).
Proof.
  intros Hvalid first Hnone. subst first.
  apply valid_date_bounds in Hvalid as (Hy & Hm & _).
  unfold get_all_performance.
  rewrite date_new_valid by (apply valid_first_of_month; lia). cbn [run].
  split.
  - intros Hsome.
    destruct (get_month_plans s _) as [| p rest] eqn:Hplans;
      [contradiction|].
    now rewrite plan_statuses_unrecognised.
  - intros ->. eauto.
Qed.

Lemma month_report_of_other_categories_witness :
  let s := mkstore [] [] Sample.dictionary
             [Plan.mk 1 (mkdate 2024 3 1) (of_cents 800000) 1] in
  let first := mkdate (year (mkdate 2024 3 20)) (month (mkdate 2024 3 20)) 1 in
  (get_month_plans s first <> [] ->
   get_all_performance s (Some (mkdate 2024 3 20)) = Return []) /\
  (get_month_plans s first = [] ->
   exists detail,
     get_all_performance s (Some (mkdate 2024 3 20)) =
     HTTPException 404 detail).
Proof.
  apply (month_report_of_other_categories
           (mkstore [] [] Sample.dictionary
              [Plan.mk 1 (mkdate 2024 3 1) (of_cents 800000) 1])
           (mkdate 2024 3 20)).
  - reflexivity.
  - intros plan [<- | []]. reflexivity.
Defined.

(** *** No division by zero in the month report *)

Lemma guarded_divisor (plan_sum : Decimal) :
  is_zero (as_decimal (py_or (PDec plan_sum) (PInt 1))) = false.
Proof.
  unfold py_or, truthy, dec_bool.
  destruct (is_zero plan_sum) eqn:Hz; cbn [negb as_decimal];
    [reflexivity | exact Hz].
Qed.

Lemma completion_rate_raises
  (actual : option Decimal) (plan_sum : Decimal) (err : exn) :
  completion_rate actual plan_sum = Raise err ->
  is_division_by_zero err = false.
Proof.
  unfold completion_rate.
  destruct actual as [a |]; [|now intros [= <-]].
  destruct (dec_mul a (of_int 100)) as [n | e1] eqn:Hmul; cbn [bind].
  - destruct (dec_div n _) as [q | e2] eqn:Hdiv; cbn [bind].
    + unfold render_percent, dec_round.
      destruct (quantize q (DFinite false 1 (- (2)))) as [r | e3] eqn:Hq;
        cbn [bind]; [discriminate|].
      intros [= <-]. eapply quantize_raises; eauto.
    + intros [= <-].
      destruct (is_division_by_zero e2) eqn:Hz; [|reflexivity].
      pose proof (dec_div_raises _ _ _ Hdiv Hz) as H.
      now rewrite guarded_divisor in H.
  - intros [= <-]. eapply dec_mul_raises; eauto.
Qed.

Lemma plan_statuses_raises (s : store) (date_obj : date)
  (month_plans : list Plan.t) :
  forall acc err,
    plan_statuses s date_obj month_plans acc = Raise err ->
    is_division_by_zero err = false.
Proof.
  induction month_plans as [| p rest IH]; intros acc err;
    cbn [plan_statuses]; [discriminate|].
  destruct (name_is _ "видача").
  - destruct (completion_rate _ (Plan.sum p)) as [rate | e] eqn:Hrate;
      cbn [bind]; [apply IH|].
    intros [= <-]. eapply completion_rate_raises; eauto.
  - destruct (name_is _ "збір"); [|apply IH].
    destruct (completion_rate _ (Plan.sum p)) as [rate | e] eqn:Hrate;
      cbn [bind]; [apply IH|].
    intros [= <-]. eapply completion_rate_raises; eauto.
Qed.

(** X11: the month report never ends in a division by zero, whatever the
    sums of the plans and of the ledger are: no exception that escapes it is
    [ZeroDivisionError], [DivisionByZero] or [DivisionUndefined]. *)
Theorem month_report_never_divides_by_zero
  (s : store) (parsed : option date) (err : exn) :
  get_all_performance s parsed = Escaped err ->
  is_division_by_zero err = false.
Proof.
  unfold get_all_performance.
  destruct parsed as [date_obj |]; [|discriminate].
  destruct (date_new (year date_obj) (month date_obj) 1)
    as [actual_month | e] eqn:Hfirst; cbn [run].
  2: { intros [= <-].
       now destruct (date_new_raises _ _ _ _ Hfirst) as [-> | ->]. }
  destruct (get_month_plans s _) as [| p rest]; [discriminate|].
  destruct (plan_statuses s date_obj (p :: rest) []) as [out | e] eqn:Hst;
    cbn [run]; [discriminate|].
  intros [= <-]. eapply plan_statuses_raises; eauto.
Qed.

Lemma month_report_never_divides_by_zero_witness :
  is_division_by_zero TypeError = false.
Proof.
  apply (month_report_never_divides_by_zero
           (mkstore [] [] Sample.dictionary
              [Plan.mk 1 (mkdate 2024 3 1) (of_cents 0) 3])
           (Some (mkdate 2024 3 20)) TypeError).
  reflexivity.
Defined.

(** ** The date of the month report *)

Lemma numbers_in (a b n : Z) : a <= n <= b -> In n (numbers a b).
Proof.
  intros H. unfold numbers. apply in_map_iff.
  exists (Z.to_nat (n - a)). split; [lia|].
  apply in_seq. lia.
Qed.

(** *** The characters of an ASCII text *)

Lemma chars_ascii_cons (b : ascii) (s : string) :
  is_ascii b = true ->
  chars (String b s) = mkchar (N_of_ascii b) (String b "") :: chars s.
Proof.
  unfold is_ascii. intros Hb. cbn [chars]. unfold decode. now rewrite Hb.
Qed.

Lemma chars_ascii_app (s rest : string) :
  forallb is_ascii (list_ascii_of_string s) = true ->
  chars (s ++ rest) = (ascii_chars s ++ chars rest)%list.
Proof.
  induction s as [| b s IH]; cbn [list_ascii_of_string forallb];
    [reflexivity|].
  rewrite andb_true_iff. intros [Hb Hs].
  change (String b s ++ rest) with (String b (s ++ rest)).
  rewrite chars_ascii_cons, IH by assumption. reflexivity.
Qed.

Lemma chars_ascii (s : string) :
  forallb is_ascii (list_ascii_of_string s) = true ->
  chars s = ascii_chars s.
Proof.
  intros Hs. pose proof (chars_ascii_app s "" Hs) as H.
  cbn [chars] in H. rewrite app_nil_r in H. rewrite <- H.
  f_equal. clear. induction s as [| b s IH]; cbn; [|rewrite IH at 1];
    reflexivity.
Qed.

Lemma digit_is_decimal (a : ascii) :
  is_digit a = true ->
  is_ascii a = true /\ isdecimal (N_of_ascii a) = true.
Proof.
  destruct a as [[] [] [] [] [] [] [] []]; intros H;
    solve [discriminate H | split; reflexivity].
Qed.

Lemma digits_are_ascii (s : string) :
  forallb is_digit (list_ascii_of_string s) = true ->
  forallb is_ascii (list_ascii_of_string s) = true.
Proof.
  rewrite !forallb_forall. intros H b Hb.
  now apply digit_is_decimal, H.
Qed.

Lemma reads_back_text (texts : Z -> string) (a b n : Z) :
  forallb (fun i => reads_back (texts i) i) (numbers a b) = true ->
  a <= n <= b ->
  forallb is_ascii (list_ascii_of_string (texts n)) = true /\
  group_value (ascii_chars (texts n)) = n.
Proof.
  intros Hall Hn. rewrite forallb_forall in Hall.
  specialize (Hall n (numbers_in a b n Hn)).
  unfold reads_back in Hall. rewrite andb_true_iff, Z.eqb_eq in Hall.
  destruct Hall as [Hdigits Hvalue].
  split; [now apply digits_are_ascii | exact Hvalue].
Qed.

Lemma years_read_back :
  forallb
    (fun n =>
       (String.length (zero_pad 4 (str_of_Z n)) =? 4)%nat &&
       reads_back (zero_pad 4 (str_of_Z n)) n)
    (numbers 1 9999) = true.
Proof. vm_compute. reflexivity. Qed.

Lemma year_text (y : Z) :
  1 <= y <= 9999 ->
  exists a b c d,
    zero_pad 4 (str_of_Z y) = String a (String b (String c (String d ""))) /\
    is_digit a = true /\ is_digit b = true /\ is_digit c = true /\
    is_digit d = true /\
    group_value (ascii_chars (String a (String b (String c (String d "")))))
    = y.
Proof.
  intros Hy.
  pose proof years_read_back as Hall. rewrite forallb_forall in Hall.
  specialize (Hall y (numbers_in 1 9999 y Hy)).
  unfold reads_back in Hall.
  destruct (zero_pad 4 (str_of_Z y)) as [| a [| b [| c [| d [| e rest]]]]];
    try discriminate Hall.
  exists a, b, c, d.
  cbn [String.length list_ascii_of_string forallb] in Hall.
  rewrite !andb_true_iff, Z.eqb_eq in Hall.
  intuition.
Qed.

Lemma year_group {A : Type} (k : list char -> list char -> option A)
  (a b c d : ascii) (rest : list char) :
  is_digit a = true -> is_digit b = true -> is_digit c = true ->
  is_digit d = true ->
  alternation year_alternatives k
    (ascii_chars (String a (String b (String c (String d ""))))
       ++ rest)%list =
  k (ascii_chars (String a (String b (String c (String d ""))))) rest.
Proof.
  intros Ha Hb Hc Hd. unfold year_alternatives, ascii_chars.
  cbn [list_ascii_of_string map app alternation match_classes code].
  apply digit_is_decimal in Ha as [_ ->], Hb as [_ ->], Hc as [_ ->],
    Hd as [_ ->].
  now destruct (k _ rest).
Qed.

Ltac by_cases_of Hn :=
  vm_compute in Hn;
  repeat (destruct Hn as [<- | Hn];
          [intros Hk; vm_compute in Hk; split; [|reflexivity];
           vm_compute; now rewrite Hk|]);
  destruct Hn.

Lemma day_group {A : Type} (k : list char -> list char -> option A)
  (n : Z) (rest : list char) (v : A) :
  1 <= n <= 31 ->
  k (ascii_chars (zero_pad 2 (str_of_Z n))) rest = Some v ->
  alternation day_alternatives k
    (ascii_chars (zero_pad 2 (str_of_Z n)) ++ rest)%list = Some v /\
  group_value (ascii_chars (zero_pad 2 (str_of_Z n))) = n.
Proof.
  intros Hn. apply (numbers_in 1 31) in Hn. by_cases_of Hn.
Qed.

Lemma month_group {A : Type} (k : list char -> list char -> option A)
  (n : Z) (rest : list char) (v : A) :
  1 <= n <= 12 ->
  k (ascii_chars (zero_pad 2 (str_of_Z n))) rest = Some v ->
  alternation month_alternatives k
    (ascii_chars (zero_pad 2 (str_of_Z n)) ++ rest)%list = Some v /\
  group_value (ascii_chars (zero_pad 2 (str_of_Z n))) = n.
Proof.
  intros Hn. apply (numbers_in 1 12) in Hn. by_cases_of Hn.
Qed.

Lemma literal_dash {A : Type} (k : list char -> option A)
  (rest : list char) :
  literal "-" k (dash :: rest) = k rest.
Proof. reflexivity. Qed.

Lemma padded_read_back :
  forallb (fun n => reads_back (zero_pad 2 (str_of_Z n)) n) (numbers 1 31)
  = true.
Proof. vm_compute. reflexivity. Qed.

(** The characters of a text made of three ASCII parts and two dashes. *)
Lemma chars_of_parts (dtext mtext ytext : string) :
  forallb is_ascii (list_ascii_of_string dtext) = true ->
  forallb is_ascii (list_ascii_of_string mtext) = true ->
  forallb is_ascii (list_ascii_of_string ytext) = true ->
  chars (dtext ++ "-" ++ mtext ++ "-" ++ ytext) =
  (ascii_chars dtext ++ dash :: ascii_chars mtext ++ dash
     :: ascii_chars ytext ++ [])%list.
Proof.
  intros Hd Hm Hy.
  rewrite (chars_ascii_app dtext) by exact Hd.
  change ("-" ++ mtext ++ "-" ++ ytext)
    with (String "-" (mtext ++ "-" ++ ytext)).
  rewrite chars_ascii_cons by reflexivity.
  rewrite (chars_ascii_app mtext) by exact Hm.
  change ("-" ++ ytext) with (String "-" ytext).
  rewrite chars_ascii_cons by reflexivity.
  rewrite (chars_ascii ytext) by exact Hy.
  now rewrite app_nil_r.
Qed.

Lemma day_at_most_31 (d : date) :
  valid_date d = true -> 1 <= day d <= 31.
Proof.
  intros Hvalid.
  pose proof (valid_date_bounds d Hvalid) as (_ & _ & Hd).
  unfold days_in_month in Hd.
  destruct (month d =? 2); [destruct (is_leap (year d)); lia|].
  destruct ((month d =? 4) || (month d =? 6) || (month d =? 9)
            || (month d =? 11)); lia.
Qed.

(** The text of a valid date whose day and month are written as [dtext]
    and [mtext], which the expression reads as these numbers, and whose
    year is written with four digits. *)
Lemma strptime_reads (d : date) (dtext mtext : string) :
  valid_date d = true ->
  forallb is_ascii (list_ascii_of_string dtext) = true ->
  forallb is_ascii (list_ascii_of_string mtext) = true ->
  (forall A (k : list char -> list char -> option A) rest v,
     k (ascii_chars dtext) (dash :: rest) = Some v ->
     alternation day_alternatives k (ascii_chars dtext ++ dash :: rest)%list
     = Some v) ->
  (forall A (k : list char -> list char -> option A) rest v,
     k (ascii_chars mtext) (dash :: rest) = Some v ->
     alternation month_alternatives k
       (ascii_chars mtext ++ dash :: rest)%list = Some v) ->
  group_value (ascii_chars dtext) = day d ->
  group_value (ascii_chars mtext) = month d ->
  strptime_d_m_Y (dtext ++ "-" ++ mtext ++ "-"
                    ++ zero_pad 4 (str_of_Z (year d))) = Ok d.
Proof.
  intros Hvalid Hdascii Hmascii Hdgroup Hmgroup Hdvalue Hmvalue.
  pose proof (valid_date_bounds d Hvalid) as (Hy & _ & _).
  destruct (year_text (year d) Hy)
    as (a & b & c & e & Hyear & Ha & Hb & Hc & He & Hvalue).
  unfold strptime_d_m_Y, match_d_m_Y. rewrite Hyear.
  rewrite chars_of_parts; try assumption.
  2: { cbn [list_ascii_of_string forallb].
       apply digit_is_decimal in Ha as [-> _], Hb as [-> _], Hc as [-> _],
         He as [-> _]. reflexivity. }
  erewrite Hdgroup.
  2: { rewrite literal_dash. apply Hmgroup. rewrite literal_dash.
       rewrite year_group by assumption. reflexivity. }
  cbv beta iota. rewrite Hvalue, Hmvalue, Hdvalue.
  destruct d as [y m dd]. cbn [year month day] in *.
  now apply date_new_valid.
Qed.

(** X12: the text of a valid date in the form DD-MM-YYYY is read back as
    that date, so the month report for the text is the month report for the
    date. *)
Theorem strptime_reads_formatted (d : date) :
  valid_date d = true ->
  strptime_d_m_Y (format_d_m_Y d) = Ok d /\
  forall s,
    get_all_performance_str s (format_d_m_Y d) =
    get_all_performance s (Some d).
Proof.
  intros Hvalid.
  assert (Hread : strptime_d_m_Y (format_d_m_Y d) = Ok d).
  { pose proof (valid_date_bounds d Hvalid) as (_ & Hm & _).
    pose proof (day_at_most_31 d Hvalid) as Hd.
    assert (Hm31 : 1 <= month d <= 31) by lia.
    unfold format_d_m_Y.
    apply strptime_reads; try assumption.
    - apply (reads_back_text _ 1 31 _ padded_read_back Hd).
    - apply (reads_back_text _ 1 31 _ padded_read_back Hm31).
    - intros A k rest v Hk. now apply day_group.
    - intros A k rest v Hk. now apply month_group.
    - apply (reads_back_text _ 1 31 _ padded_read_back Hd).
    - apply (reads_back_text _ 1 31 _ padded_read_back Hm31). }
  split; [exact Hread|].
  intros s. unfold get_all_performance_str. now rewrite Hread.
Qed.

Lemma strptime_reads_formatted_witness :
  strptime_d_m_Y (format_d_m_Y (mkdate 2024 3 20)) = Ok (mkdate 2024 3 20) /\
  forall s,
    get_all_performance_str s (format_d_m_Y (mkdate 2024 3 20)) =
    get_all_performance s (Some (mkdate 2024 3 20)).
Proof.
  apply (strptime_reads_formatted (mkdate 2024 3 20)). reflexivity.
Defined.

(** The forms of a request: padded, unpadded, and refused ones. *)
Lemma month_report_requests :
  format_d_m_Y (mkdate 2024 3 20) = "20-03-2024" /\
  strptime_d_m_Y "20-03-2024" = Ok (mkdate 2024 3 20) /\
  strptime_d_m_Y "5-3-2024" = Ok (mkdate 2024 3 5) /\
  strptime_d_m_Y "1٥-03-٢٠٢٤" = Ok (mkdate 2024 3 15) /\
  strptime_d_m_Y "٠٥-03-2024" = Raise ValueError /\
  strptime_d_m_Y "31-02-2024" = Raise ValueError /\
  strptime_d_m_Y "2024-03-20" = Raise ValueError /\
  strptime_d_m_Y "20-03-2024 " = Raise ValueError /\
  get_all_performance_str Sample.march "20.03.2024" =
  HTTPException 400
    (DetailText "Невірний формат дати. Очікується формат DD-MM-YYYY.").
Proof. repeat split. Qed.

(** ** The year report *)

Lemma dec_add_raises (a b : Decimal) (err : exn) :
  dec_add a b = Raise err -> is_division_by_zero err = false.
Proof.
  unfold dec_add.
  destruct (check_nans a b) as [r | [[s1 c1 e1 | s1] [s2 c2 e2 | s2]]] eqn:Hn.
  - intros ->. eapply check_nans_raises; eauto.
  - destruct ((c1 =? 0)%N && (c2 =? 0)%N); [fix_case|].
    destruct (c1 =? 0)%N; [fix_case|].
    destruct (c2 =? 0)%N; [fix_case|].
    destruct (normalize (c1, e1) (c2, e2)) as [[i1 x1] [i2 x2]].
    destruct (xorb s1 s2); [|fix_case].
    destruct (i1 =? i2)%N; [fix_case|].
    destruct (i1 <? i2)%N; fix_case.
  - discriminate.
  - discriminate.
  - destruct (xorb s1 s2); [now intros [= <-] | discriminate].
Qed.

Lemma py_add_raises (x y : pynum) (err : exn) :
  py_add x y = Raise err -> is_division_by_zero err = false.
Proof.
  destruct x as [a | d], y as [b | d']; cbn [py_add as_decimal];
    try discriminate.
  all: match goal with
       | |- bind ?c _ = _ -> _ => destruct c eqn:Hadd; cbn [bind]
       end; try discriminate.
  all: intros [= <-]; eapply dec_add_raises; eauto.
Qed.

Lemma incr_month_raises (d : date) (err : exn) :
  incr_month d = Raise err -> is_division_by_zero err = false.
Proof.
  unfold incr_month.
  destruct (month d =? 12); intros H;
    now destruct (date_new_raises _ _ _ _ H) as [-> | ->].
Qed.

Ltac month_query :=
  match goal with
  | |- context [incr_month ?d] =>
    let H := fresh "Hnext" in
    destruct (incr_month d) eqn:H; cbn [bind];
    [|let E := fresh in
      intros E; injection E as <-; eapply incr_month_raises; eauto]
  end.

Lemma zero_divisor (x : pynum) :
  is_zero (as_decimal x) = true -> truthy x = false.
Proof.
  destruct x as [z | d]; cbn [as_decimal truthy].
  - unfold of_int, is_zero. intros H. apply N.eqb_eq in H.
    assert (z = 0) as -> by lia. reflexivity.
  - unfold dec_bool. now intros ->.
Qed.

(** A percentage of the year report fails with a division by zero only when
    its divisor is a zero. *)
Lemma percent_string_raises
  (float_round2_str : Z -> Z -> string) (num den : pynum) (err : exn) :
  percent_string float_round2_str num den = Raise err ->
  is_division_by_zero err = true ->
  truthy den = false.
Proof.
  unfold percent_string.
  destruct (py_mul_int num 100) as [n | e1] eqn:Hmul; cbn [bind].
  - assert (Hdec :
      forall err,
        (q <- dec_div (as_decimal n) (as_decimal den);; render_percent q) =
        Raise err ->
        is_division_by_zero err = true -> truthy den = false).
    { intros err0.
      destruct (dec_div (as_decimal n) (as_decimal den)) as [q | e2] eqn:Hdiv;
        cbn [bind].
      - unfold render_percent, dec_round.
        destruct (quantize q _) as [r | e3] eqn:Hq; cbn [bind];
          [discriminate|].
        intros [= <-] Hz. erewrite quantize_raises in Hz; eauto.
        discriminate.
      - intros [= <-] Hz. apply zero_divisor.
        eapply dec_div_raises; eauto. }
    destruct n as [x | dn], den as [y | dd]; try apply Hdec.
    destruct (Z.eqb_spec y 0) as [-> | Hy]; [reflexivity | discriminate].
  - intros [= <-] Hz.
    destruct num as [x | dn]; cbn [py_mul_int] in Hmul; [discriminate|].
    destruct (dec_mul dn (of_int 100)) eqn:Hm; cbn [bind] in Hmul;
      [discriminate|].
    injection Hmul as <-. erewrite dec_mul_raises in Hz; eauto.
    discriminate.
Qed.

Lemma guarded_percent_raises
  (float_round2_str : Z -> Z -> string) (num den : pynum) (err : exn) :
  percent_string float_round2_str num (py_or den (PInt 1)) = Raise err ->
  is_division_by_zero err = false.
Proof.
  intros H. destruct (is_division_by_zero err) eqn:Hz; [|reflexivity].
  pose proof (percent_string_raises _ _ _ _ H Hz) as Hden.
  unfold py_or in Hden. destruct (truthy den) eqn:Ht; [congruence|].
  discriminate Hden.
Qed.

Lemma month_step_raises (s : store) (plan_date : date) (plan : Plan.t)
  (v : month_vars) (err : exn) :
  month_step s plan_date plan v = Raise err ->
  is_division_by_zero err = false.
Proof.
  unfold month_step, get_amount_of_loans, get_amount_of_payments,
    get_month_sum_issued_loans, get_month_sum_payments.
  destruct (id_is plan _); month_query; cbn [bind]; discriminate.
Qed.

Lemma month_loop_raises (s : store) (plan_date : date)
  (plans_list : list Plan.t) :
  forall v err,
    month_loop s plan_date plans_list v = Raise err ->
    is_division_by_zero err = false.
Proof.
  induction plans_list as [| plan rest IH]; intros v err; cbn [month_loop];
    [discriminate|].
  destruct (month_step s plan_date plan v) as [v' | e] eqn:Hstep; cbn [bind];
    [apply IH|].
  intros [= <-]. eapply month_step_raises; eauto.
Qed.

(** The targets of a month after the second pass: for each branch, the sum
    of the last plan that took it. *)
Lemma month_loop_targets (s : store) (plan_date : date)
  (plans_list : list Plan.t) :
  forall v v',
    month_loop s plan_date plans_list v = Ok v' ->
    v_plan_sum_issued_loans v' =
      fold_left (fun _ p => PDec (Plan.sum p))
                (issuance_plans s plans_list) (v_plan_sum_issued_loans v) /\
    v_plan_sum_payments v' =
      fold_left (fun _ p => PDec (Plan.sum p))
                (other_plans s plans_list) (v_plan_sum_payments v).
Proof.
  unfold issuance_plans, other_plans.
  induction plans_list as [| plan rest IH]; intros v v';
    cbn [month_loop filter].
  - now intros [= <-].
  - unfold month_step.
    change (id_is plan (get_category_id_by_name s "видача"))
      with (is_issuance s plan).
    destruct (is_issuance s plan); cbn [negb].
    + destruct (get_amount_of_loans s plan_date); cbn [bind];
        [|discriminate].
      destruct (get_month_sum_issued_loans s plan_date); cbn [bind];
        [|discriminate].
      intros H. apply IH in H.
      cbn [v_plan_sum_issued_loans v_plan_sum_payments fold_left] in *.
      exact H.
    + destruct (get_amount_of_payments s plan_date); cbn [bind];
        [|discriminate].
      destruct (get_month_sum_payments s plan_date); cbn [bind];
        [|discriminate].
      intros H. apply IH in H.
      cbn [v_plan_sum_issued_loans v_plan_sum_payments fold_left] in *.
      exact H.
Qed.

Lemma add_to_year_raises (s : store) (plan_date : date) (plan : Plan.t)
  (totals : pynum * pynum) (err : exn) :
  add_to_year s plan_date plan totals = Raise err ->
  is_division_by_zero err = false.
Proof.
  unfold add_to_year, get_month_sum_issued_loans, get_month_sum_payments.
  destruct totals as [issues paid].
  destruct (id_is plan _); month_query; cbn [bind].
  all: match goal with
       | |- bind (py_add ?x ?y) _ = _ -> _ =>
         destruct (py_add x y) eqn:Hadd; cbn [bind]; [discriminate|]
       end.
  all: intros [= <-]; eapply py_add_raises; eauto.
Qed.

Lemma year_totals_raises (s : store) (groups : list (date * list Plan.t)) :
  forall totals err,
    year_totals s groups totals = Raise err ->
    is_division_by_zero err = false.
Proof.
  assert (Hgroup : forall plan_date plans_list totals err,
             add_group_to_year s plan_date plans_list totals = Raise err ->
             is_division_by_zero err = false).
  { intros plan_date plans_list.
    induction plans_list as [| plan rest IH]; intros totals err;
      cbn [add_group_to_year]; [discriminate|].
    destruct (add_to_year s plan_date plan totals) as [t | e] eqn:Hadd;
      cbn [bind]; [apply IH|].
    intros [= <-]. eapply add_to_year_raises; eauto. }
  induction groups as [| [plan_date plans_list] rest IH]; intros totals err;
    cbn [year_totals]; [discriminate|].
  destruct (add_group_to_year s plan_date plans_list totals) as [t | e]
    eqn:Hadd; cbn [bind]; [apply IH|].
  intros [= <-]. eapply Hgroup; eauto.
Qed.

Lemma month_entry_raises
  (float_round2_str : Z -> Z -> string) (s : store) (totals : pynum * pynum)
  (plan_date : date) (plans_list : list Plan.t) (err : exn) :
  month_entry float_round2_str s totals plan_date plans_list = Raise err ->
  is_division_by_zero err = true ->
  truthy (last_target (issuance_plans s plans_list)) = false \/
  truthy (last_target (other_plans s plans_list)) = false.
Proof.
  unfold month_entry. destruct totals as [issues paid].
  destruct (month_loop s plan_date plans_list _) as [v | e] eqn:Hloop;
    cbn [bind].
  - destruct (month_loop_targets s plan_date plans_list _ _ Hloop)
      as [Hissued Hpaid].
    cbn [v_plan_sum_issued_loans v_plan_sum_payments] in Hissued, Hpaid.
    fold (last_target (issuance_plans s plans_list)) in Hissued.
    fold (last_target (other_plans s plans_list)) in Hpaid.
    destruct (percent_string _ (v_sum_issued_loans v) _) as [r1 | e1] eqn:H1;
      cbn [bind].
    + destruct (percent_string _ (v_sum_payments v)
                  (v_plan_sum_payments v)) as [r2 | e2] eqn:H2; cbn [bind].
      * destruct (percent_string _ (v_sum_issued_loans v) (py_or issues _))
          as [r3 | e3] eqn:H3; cbn [bind].
        -- destruct (percent_string _ (v_sum_payments v) (py_or paid _))
             as [r4 | e4] eqn:H4; cbn [bind]; [discriminate|].
           intros [= <-] Hz.
           erewrite guarded_percent_raises in Hz; eauto. discriminate.
        -- intros [= <-] Hz.
           erewrite guarded_percent_raises in Hz; eauto. discriminate.
      * intros [= <-] Hz. right. rewrite <- Hpaid.
        eapply percent_string_raises; eauto.
    + intros [= <-] Hz. left. rewrite <- Hissued.
      eapply percent_string_raises; eauto.
  - intros [= <-] Hz. erewrite month_loop_raises in Hz; eauto. discriminate.
Qed.

Lemma year_months_raises
  (float_round2_str : Z -> Z -> string) (s : store) (totals : pynum * pynum)
  (groups : list (date * list Plan.t)) :
  forall year_status err,
    year_months float_round2_str s totals groups year_status = Raise err ->
    is_division_by_zero err = true ->
    exists plan_date plans_list,
      In (plan_date, plans_list) groups /\
      (truthy (last_target (issuance_plans s plans_list)) = false \/
       truthy (last_target (other_plans s plans_list)) = false).
Proof.
  induction groups as [| [plan_date plans_list] rest IH];
    intros year_status err; cbn [year_months]; [discriminate|].
  destruct (month_entry _ s totals plan_date plans_list) as [entry | e]
    eqn:Hentry; cbn [bind].
  - intros Hrest Hz.
    destruct (IH _ _ Hrest Hz) as (d & ps & Hin & Hzero).
    exists d, ps. split; [now right | exact Hzero].
  - intros [= <-] Hz. exists plan_date, plans_list.
    split; [now left | eapply month_entry_raises; eauto].
Qed.

Lemma get_year_plans_raises (s : store) (year : Z) (err : exn) :
  get_year_plans s year = Raise err ->
  err = OverflowError \/ err = ValueError.
Proof.
  unfold get_year_plans.
  destruct (date_new year 1 1) as [first | e] eqn:Hfirst; cbn [bind].
  - destruct (date_new year 12 1) as [last | e] eqn:Hlast; cbn [bind];
      [discriminate|].
    intros [= <-]. eapply date_new_raises; eauto.
  - intros [= <-]. eapply date_new_raises; eauto.
Qed.

(** X13: the year report ends in a division by zero only when, for some
    month of the year, the issuance target or the collection target is a
    zero: the month has no plan for it, or the last plan for it has the sum
    0.  The shares of the year never divide by zero. *)
Theorem year_report_zero_division
  (float_round2_str : Z -> Z -> string) (s : store) (year : Z) (err : exn) :
  get_year_performance float_round2_str s year = Escaped err ->
  is_division_by_zero err = true ->
  exists groups plan_date plans_list,
    get_year_plans s year = Ok groups /\
    In (plan_date, plans_list) groups /\
    (truthy (last_target (issuance_plans s plans_list)) = false \/
     truthy (last_target (other_plans s plans_list)) = false).
Proof.
  unfold get_year_performance.
  destruct (get_year_plans s year) as [groups | e] eqn:Hplans; cbn [run].
  - destruct groups as [| g groups]; [discriminate|].
    destruct (year_totals s (g :: groups) _) as [totals | e] eqn:Htotals;
      cbn [run].
    + destruct (year_months _ s totals (g :: groups) []) as [out | e]
        eqn:Hmonths; cbn [run]; [discriminate|].
      intros [= <-] Hz.
      destruct (year_months_raises _ _ _ _ _ _ Hmonths Hz)
        as (d & ps & Hin & Hzero).
      exists (g :: groups), d, ps. auto.
    + intros [= <-] Hz. erewrite year_totals_raises in Hz; eauto.
      discriminate.
  - intros [= <-] Hz.
    apply get_year_plans_raises in Hplans as [-> | ->]; discriminate.
Qed.

Lemma year_report_zero_division_witness :
  exists groups plan_date plans_list,
    get_year_plans Sample.collection_only 2024 = Ok groups /\
    In (plan_date, plans_list) groups /\
    (truthy (last_target (issuance_plans Sample.collection_only plans_list))
       = false \/
     truthy (last_target (other_plans Sample.collection_only plans_list))
       = false).
Proof.
  apply (year_report_zero_division (fun _ _ => "0.0") Sample.collection_only
           2024 ZeroDivisionError);
    reflexivity.
Defined.

Lemma month_loop_from (s : store) (plan_date : date)
  (loans paid : Z) (issued collected : option Decimal)
  (plans_list : list Plan.t) :
  get_amount_of_loans s plan_date = Ok loans ->
  get_amount_of_payments s plan_date = Ok paid ->
  get_month_sum_issued_loans s plan_date = Ok issued ->
  get_month_sum_payments s plan_date = Ok collected ->
  forall v,
    month_loop s plan_date plans_list v =
    Ok (mkvars
          (v_issued_loans_count v +
           Z.of_nat (List.length (issuance_plans s plans_list)) * loans)
          (v_payments_count v +
           Z.of_nat (List.length (other_plans s plans_list)) * paid)
          (fold_left (fun _ p => PDec (Plan.sum p))
                     (issuance_plans s plans_list)
                     (v_plan_sum_issued_loans v))
          (fold_left (fun _ p => PDec (Plan.sum p))
                     (other_plans s plans_list) (v_plan_sum_payments v))
          match issuance_plans s plans_list with
          | [] => v_sum_issued_loans v
          | _ => opt_or issued (PInt 0)
          end
          match other_plans s plans_list with
          | [] => v_sum_payments v
          | _ => opt_or collected (PInt 0)
          end).
Proof.
  intros Hloans Hpaid Hissued Hcollected.
  unfold issuance_plans, other_plans.
  induction plans_list as [| plan rest IH]; intros v;
    cbn [month_loop filter].
  - destruct v. cbn. now rewrite !Z.add_0_r.
  - unfold month_step.
    change (id_is plan (get_category_id_by_name s "видача"))
      with (is_issuance s plan).
    rewrite Hloans, Hpaid, Hissued, Hcollected.
    destruct (is_issuance s plan); cbn [negb bind]; rewrite IH;
      cbn [v_issued_loans_count v_payments_count v_plan_sum_issued_loans
           v_plan_sum_payments v_sum_issued_loans v_sum_payments
           fold_left List.length].
    + f_equal. f_equal; try lia.
      now destruct (filter (is_issuance s) rest).
    + f_equal. f_equal; try lia.
      now destruct (filter (fun p => negb (is_issuance s p)) rest).
Qed.

(** X14: what the second pass of the year report holds for a month with
    several plans of one kind: the month's count of credits (of payments) is
    added once for every issuance plan (every other plan), the target is the
    sum of the last such plan, and the sum of the ledger is counted once. *)
Theorem month_group_totals (s : store) (plan_date : date)
  (loans paid : Z) (issued collected : option Decimal)
  (plans_list : list Plan.t) :
  get_amount_of_loans s plan_date = Ok loans ->
  get_amount_of_payments s plan_date = Ok paid ->
  get_month_sum_issued_loans s plan_date = Ok issued ->
  get_month_sum_payments s plan_date = Ok collected ->
  month_loop s plan_date plans_list fresh_vars =
  Ok (mkvars
        (Z.of_nat (List.length (issuance_plans s plans_list)) * loans)
        (Z.of_nat (List.length (other_plans s plans_list)) * paid)
        (last_target (issuance_plans s plans_list))
        (last_target (other_plans s plans_list))
        (month_sum_of (issuance_plans s plans_list) issued)
        (month_sum_of (other_plans s plans_list) collected)).
Proof.
  intros Hloans Hpaid Hissued Hcollected.
  rewrite (month_loop_from s plan_date loans paid issued collected)
    by assumption.
  reflexivity.
Qed.

Lemma month_group_totals_witness :
  month_loop Sample2.two_issuance_plans (mkdate 2024 3 1)
    (plans Sample2.two_issuance_plans) fresh_vars =
  Ok (mkvars
        (Z.of_nat (List.length
           (issuance_plans Sample2.two_issuance_plans
              (plans Sample2.two_issuance_plans))) * 2)
        (Z.of_nat (List.length
           (other_plans Sample2.two_issuance_plans
              (plans Sample2.two_issuance_plans))) * 2)
        (last_target (issuance_plans Sample2.two_issuance_plans
                        (plans Sample2.two_issuance_plans)))
        (last_target (other_plans Sample2.two_issuance_plans
                        (plans Sample2.two_issuance_plans)))
        (month_sum_of (issuance_plans Sample2.two_issuance_plans
                         (plans Sample2.two_issuance_plans))
                      (Some (of_cents 600000)))
        (month_sum_of (other_plans Sample2.two_issuance_plans
                         (plans Sample2.two_issuance_plans))
                      (Some (of_cents 820000)))).
Proof.
  apply (month_group_totals Sample2.two_issuance_plans (mkdate 2024 3 1)
           2 2 (Some (of_cents 600000)) (Some (of_cents 820000)));
    reflexivity.
Defined.

(** Two issuance plans in one month: the two credits of the month are
    counted twice, and the target is the second plan's 12000.00. *)
Lemma month_group_totals_example :
  month_loop Sample2.two_issuance_plans (mkdate 2024 3 1)
    (plans Sample2.two_issuance_plans) fresh_vars =
  Ok (mkvars 4 2 (PDec (of_cents 1200000)) (PDec (of_cents 800000))
             (PDec (of_cents 600000)) (PDec (of_cents 820000))).
Proof. reflexivity. Qed.

(** *** The plans of a year, month by month *)

Lemma date_ltb_trans (a b c : date) :
  date_ltb a b = true -> date_ltb b c = true -> date_ltb a c = true.
Proof. intros H1 H2. date_order. Qed.

Lemma date_le_lt_trans (a b c : date) :
  date_ltb b a = false -> date_ltb c b = false -> date_ltb c a = false.
Proof. intros H1 H2. date_order. Qed.

Lemma date_not_lt (a b : date) :
  date_ltb a b = false -> date_eqb a b = false -> date_ltb b a = true.
Proof. intros H1 H2. date_order. Qed.

Lemma date_lt_total (a b : date) :
  date_ltb a b = false -> date_ltb b a = false -> date_eqb a b = true.
Proof. intros H1 H2. date_order. Qed.

Lemma insert_by_period_perm (p : Plan.t) (l : list Plan.t) :
  Permutation (insert_by_period p l) (p :: l).
Proof.
  induction l as [| q l IH]; cbn [insert_by_period]; [reflexivity|].
  destruct (date_ltb (Plan.period p) (Plan.period q)); [reflexivity|].
  rewrite IH. apply perm_swap.
Qed.

Lemma insert_by_period_sorted (p : Plan.t) (l : list Plan.t) :
  StronglySorted period_le l -> StronglySorted period_le (insert_by_period p l).
Proof.
  induction 1 as [| q l Hl IH Hq]; cbn [insert_by_period].
  - repeat constructor.
  - destruct (date_ltb (Plan.period p) (Plan.period q)) eqn:Hpq.
    + assert (Hpq_le : period_le p q) by (unfold period_le; date_order).
      constructor; [now constructor|].
      constructor.
      * exact Hpq_le.
      * rewrite Forall_forall in *. intros r Hr. specialize (Hq r Hr).
        unfold period_le in *.
        eapply date_le_lt_trans; [exact Hpq_le | exact Hq].
    + constructor; [exact IH|].
      rewrite Forall_forall in *. intros r Hr.
      apply (Permutation_in _ (insert_by_period_perm p l)) in Hr.
      destruct Hr as [<- | Hr]; [exact Hpq | now apply Hq].
Qed.

Lemma order_by_period_spec (rows : list Plan.t) :
  Permutation (order_by_period rows) rows /\
  StronglySorted period_le (order_by_period rows).
Proof.
  unfold order_by_period.
  assert (H : forall acc,
             StronglySorted period_le acc ->
             Permutation
               (fold_left (fun sorted p => insert_by_period p sorted) rows acc)
               (rows ++ acc) /\
             StronglySorted period_le
               (fold_left (fun sorted p => insert_by_period p sorted)
                          rows acc)).
  { induction rows as [| p rows IH]; intros acc Hacc; cbn [fold_left app].
    - split; [reflexivity | exact Hacc].
    - destruct (IH (insert_by_period p acc)
                  (insert_by_period_sorted p acc Hacc)) as [Hperm Hsorted].
      split; [|exact Hsorted].
      rewrite Hperm, insert_by_period_perm. symmetry.
      apply Permutation_middle. }
  destruct (H [] (SSorted_nil _)) as [Hperm Hsorted].
  rewrite app_nil_r in Hperm. auto.
Qed.

Lemma group_append_keys (groups : list (date * list Plan.t)) (p : Plan.t) :
  map fst (group_append groups p) =
  if existsb (fun k => date_eqb k (Plan.period p)) (map fst groups)
  then map fst groups
  else (map fst groups ++ [Plan.period p])%list.
Proof.
  induction groups as [| [k ps] rest IH]; cbn [group_append map existsb fst];
    [reflexivity|].
  destruct (date_eqb k (Plan.period p)); cbn [map fst orb]; [reflexivity|].
  rewrite IH.
  now destruct (existsb _ (map fst rest)).
Qed.

Lemma group_append_perm (groups : list (date * list Plan.t)) (p : Plan.t) :
  Permutation (List.concat (map snd (group_append groups p)))
              (p :: List.concat (map snd groups)).
Proof.
  induction groups as [| [k ps] rest IH]; cbn [group_append map List.concat snd].
  - reflexivity.
  - destruct (date_eqb k (Plan.period p)); cbn [map List.concat snd].
    + rewrite <- app_assoc. cbn [app].
      symmetry. apply Permutation_middle.
    + rewrite IH. symmetry. apply Permutation_middle.
Qed.

Lemma group_append_groups (groups : list (date * list Plan.t)) (p : Plan.t) :
  (forall k ps, In (k, ps) groups ->
                ps <> [] /\ forall q, In q ps -> Plan.period q = k) ->
  forall k ps, In (k, ps) (group_append groups p) ->
               ps <> [] /\ forall q, In q ps -> Plan.period q = k.
Proof.
  induction groups as [| [k0 ps0] rest IH]; intros Hok k ps;
    cbn [group_append].
  - intros [[= <- <-] | []]. split; [discriminate|].
    intros q [<- | []]. reflexivity.
  - destruct (date_eqb k0 (Plan.period p)) eqn:Heq.
    + intros [[= <- <-] | Hin].
      * destruct (Hok k0 ps0 (or_introl eq_refl)) as [_ Hall].
        split; [now destruct ps0|].
        intros q Hq. apply in_app_or in Hq as [Hq | [<- | []]];
          [now apply Hall | symmetry; now apply date_eqb_eq].
      * apply Hok. now right.
    + intros [[= <- <-] | Hin].
      * apply Hok. now left.
      * apply IH; [|exact Hin]. intros k' ps' H'. apply Hok. now right.
Qed.

Lemma sorted_snoc (keys : list date) (x : date) :
  StronglySorted date_lt keys ->
  (forall k, In k keys -> date_lt k x) ->
  StronglySorted date_lt (keys ++ [x]).
Proof.
  induction 1 as [| k keys Hkeys IH Hk]; intros Hx; cbn [app].
  - repeat constructor.
  - constructor.
    + apply IH. intros k' Hk'. apply Hx. now right.
    + apply Forall_app. split; [exact Hk|].
      constructor; [apply Hx; now left | constructor].
Qed.

Lemma grouping (rows : list Plan.t) :
  forall groups,
    StronglySorted period_le rows ->
    well_grouped groups ->
    (forall k q, In k (map fst groups) -> In q rows ->
                 date_ltb (Plan.period q) k = false) ->
    well_grouped (fold_left group_append rows groups) /\
    Permutation (List.concat (map snd (fold_left group_append rows groups)))
                (rows ++ List.concat (map snd groups)).
Proof.
  induction rows as [| p rows IH]; intros groups Hsorted [Hkeys Hgroups] Hle;
    cbn [fold_left app].
  - split; [split; assumption | reflexivity].
  - inversion Hsorted as [| ? ? Hrows Hp]; subst.
    destruct (IH (group_append groups p) Hrows) as [Hwell Hperm].
    + split; [|now apply group_append_groups].
      rewrite group_append_keys.
      destruct (existsb _ (map fst groups)) eqn:Hex; [exact Hkeys|].
      apply sorted_snoc; [exact Hkeys|].
      intros k Hk. unfold date_lt.
      apply date_not_lt; [apply Hle; [exact Hk | now left]|].
      rewrite date_eqb_sym.
      destruct (date_eqb k (Plan.period p)) eqn:Heq; [|reflexivity].
      assert (existsb (fun k => date_eqb k (Plan.period p))
                (map fst groups) = true) as Hyes
        by (apply existsb_exists; eauto).
      congruence.
    + intros k q Hk Hq. rewrite group_append_keys in Hk.
      rewrite Forall_forall in Hp.
      destruct (existsb _ (map fst groups)).
      * apply Hle; [exact Hk | now right].
      * apply in_app_or in Hk as [Hk | [<- | []]];
          [apply Hle; [exact Hk | now right] | now apply Hp].
    + split; [exact Hwell|].
      rewrite Hperm, group_append_perm. symmetry. apply Permutation_middle.
Qed.

Lemma year_plans_grouped (s : store) (year : Z)
  (groups : list (date * list Plan.t)) :
  get_year_plans s year = Ok groups ->
  well_grouped groups /\
  Permutation (List.concat (map snd groups)) (filter (in_year year) (plans s)).
Proof.
  unfold get_year_plans.
  destruct (date_new year 1 1) as [first | e] eqn:Hfirst; cbn [bind];
    [|discriminate].
  destruct (date_new year 12 1) as [last | e] eqn:Hlast; cbn [bind];
    [|discriminate].
  apply date_new_ok in Hfirst as [-> _], Hlast as [-> _].
  intros [= <-].
  change (fun p => date_leb (mkdate year 1 1) (Plan.period p) &&
                   date_leb (Plan.period p) (mkdate year 12 1))
    with (in_year year).
  destruct (order_by_period_spec (filter (in_year year) (plans s)))
    as [Hperm Hsorted].
  destruct (grouping (order_by_period (filter (in_year year) (plans s))) []
              Hsorted) as [Hwell Hall].
  - split; [constructor | intros k ps []].
  - intros k q [].
  - split; [exact Hwell|].
    rewrite Hall. cbn [map List.concat]. now rewrite app_nil_r.
Qed.

(** X15: the plans of a year come grouped by period: the periods are in
    ascending order, none twice; every group is not empty and holds plans of
    its period only; and every plan of the store dated from the first of
    January to the first of December of the year is in the groups exactly
    once, and no other plan is. *)
Theorem year_plans_by_month (s : store) (year : Z)
  (groups : list (date * list Plan.t)) :
  get_year_plans s year = Ok groups ->
  StronglySorted date_lt (map fst groups) /\
  (forall k ps, In (k, ps) groups ->
                ps <> [] /\ forall q, In q ps -> Plan.period q = k) /\
  Permutation (List.concat (map snd groups)) (filter (in_year year) (plans s)).
Proof.
  intros H. destruct (year_plans_grouped s year groups H) as [[Hk Hg] Hp].
  auto.
Qed.

Lemma year_plans_by_month_witness :
  let groups :=
    [(mkdate 2024 3 1,
      [Plan.mk 2 (mkdate 2024 3 1) (of_cents 1200000) 3;
       Plan.mk 5 (mkdate 2024 3 1) (of_cents 800000) 4]);
     (mkdate 2024 5 1, [Plan.mk 1 (mkdate 2024 5 1) (of_cents 1000000) 3]);
     (mkdate 2024 12 1, [Plan.mk 4 (mkdate 2024 12 1) (of_cents 800000) 4])]
  in
  StronglySorted date_lt (map fst groups) /\
  (forall k ps, In (k, ps) groups ->
                ps <> [] /\ forall q, In q ps -> Plan.period q = k) /\
  Permutation (List.concat (map snd groups))
              (filter (in_year 2024) (plans Sample2.three_months)).
Proof.
  apply (year_plans_by_month Sample2.three_months 2024). reflexivity.
Defined.

(** X16: the year report of a year that does not fit a C int (32 bits) ends
    in [OverflowError], and that of any other year outside 1..9999 in
    [ValueError]; for a year inside, status 404 is the answer exactly when
    the store holds no plan dated from the first of January to the first of
    December of that year. *)
Theorem year_report_not_found
  (float_round2_str : Z -> Z -> string) (s : store) (year : Z) :
  (year < - 2147483648 \/ 2147483647 < year ->
   get_year_performance float_round2_str s year = Escaped OverflowError) /\
  (- 2147483648 <= year < 1 \/ 9999 < year <= 2147483647 ->
   get_year_performance float_round2_str s year = Escaped ValueError) /\
  (1 <= year <= 9999 ->
   ((exists detail,
       get_year_performance float_round2_str s year =
       HTTPException 404 detail) <->
    forall p, In p (plans s) -> in_year year p = false)).
Proof.
  split; [|split].
  - intros Hout. unfold get_year_performance, get_year_plans, date_new.
    assert (Hfits : fits_c_int year = false).
    { unfold fits_c_int.
      destruct (Z.leb_spec (- 2147483648) year),
        (Z.leb_spec year 2147483647); try reflexivity.
      lia. }
    now rewrite Hfits.
  - intros Hout. unfold get_year_performance, get_year_plans.
    rewrite date_new_fits; try (apply fits_c_int_range; lia).
    assert (Hinvalid : valid_date (mkdate year 1 1) = false).
    { unfold valid_date, MINYEAR, MAXYEAR. cbn [PyDate.year].
      destruct (Z.leb_spec 1 year), (Z.leb_spec year 9999); try reflexivity.
      lia. }
    now rewrite Hinvalid.
  - intros Hin.
    destruct (get_year_plans s year) as [groups | e] eqn:Hplans.
    + destruct (year_plans_grouped s year groups Hplans)
        as [[_ Hgroups] Hperm].
      unfold get_year_performance. rewrite Hplans. cbn [run].
      destruct groups as [| [k ps] groups].
      * cbn [map List.concat] in Hperm. apply Permutation_nil in Hperm.
        split; [|eauto].
        intros _ p Hp.
        destruct (in_year year p) eqn:Hy; [|reflexivity].
        assert (In p (filter (in_year year) (plans s))) as Hf
          by (apply filter_In; auto).
        rewrite Hperm in Hf. destruct Hf.
      * split.
        -- intros [detail H]. exfalso.
           destruct (year_totals s _ _); cbn [run] in H; [|discriminate].
           destruct (year_months _ s _ _ _); discriminate.
        -- intros Hnone. exfalso.
           destruct (Hgroups k ps (or_introl eq_refl)) as [Hne Hall].
           destruct ps as [| q ps]; [contradiction|].
           assert (In q (filter (in_year year) (plans s))) as Hq.
           { eapply Permutation_in; [exact Hperm|].
             cbn [map List.concat snd]. now left. }
           apply filter_In in Hq as [Hq Hy].
           rewrite (Hnone q Hq) in Hy. discriminate.
    + exfalso. unfold get_year_plans in Hplans.
      rewrite !date_new_valid in Hplans
        by (apply valid_first_of_month; lia).
      discriminate.
Qed.

(** *** Requests without leading zeros *)

Lemma day_group_plain {A : Type} (k : list char -> list char -> option A)
  (n : Z) (rest : list char) (v : A) :
  1 <= n <= 31 ->
  k (ascii_chars (str_of_Z n)) (dash :: rest) = Some v ->
  alternation day_alternatives k
    (ascii_chars (str_of_Z n) ++ dash :: rest)%list = Some v /\
  group_value (ascii_chars (str_of_Z n)) = n.
Proof.
  intros Hn. apply (numbers_in 1 31) in Hn. by_cases_of Hn.
Qed.

Lemma month_group_plain {A : Type} (k : list char -> list char -> option A)
  (n : Z) (rest : list char) (v : A) :
  1 <= n <= 12 ->
  k (ascii_chars (str_of_Z n)) (dash :: rest) = Some v ->
  alternation month_alternatives k
    (ascii_chars (str_of_Z n) ++ dash :: rest)%list = Some v /\
  group_value (ascii_chars (str_of_Z n)) = n.
Proof.
  intros Hn. apply (numbers_in 1 12) in Hn. by_cases_of Hn.
Qed.

Lemma plain_read_back :
  forallb (fun n => reads_back (str_of_Z n) n) (numbers 1 31) = true.
Proof. vm_compute. reflexivity. Qed.

(** X17: a request may leave out the leading zero of the day and of the
    month: the text D-M-YYYY of a valid date is read back as that date too. *)
Theorem strptime_reads_plain (d : date) :
  valid_date d = true ->
  strptime_d_m_Y (format_plain d) = Ok d /\
  forall s,
    get_all_performance_str s (format_plain d) =
    get_all_performance s (Some d).
Proof.
  intros Hvalid.
  assert (Hread : strptime_d_m_Y (format_plain d) = Ok d).
  { pose proof (valid_date_bounds d Hvalid) as (_ & Hm & _).
    pose proof (day_at_most_31 d Hvalid) as Hd.
    assert (Hm31 : 1 <= month d <= 31) by lia.
    unfold format_plain.
    apply strptime_reads; try assumption.
    - apply (reads_back_text _ 1 31 _ plain_read_back Hd).
    - apply (reads_back_text _ 1 31 _ plain_read_back Hm31).
    - intros A k rest v Hk. now apply day_group_plain.
    - intros A k rest v Hk. now apply month_group_plain.
    - apply (reads_back_text _ 1 31 _ plain_read_back Hd).
    - apply (reads_back_text _ 1 31 _ plain_read_back Hm31). }
  split; [exact Hread|].
  intros s. unfold get_all_performance_str. now rewrite Hread.
Qed.

Lemma strptime_reads_plain_witness :
  strptime_d_m_Y (format_plain (mkdate 2024 3 5)) = Ok (mkdate 2024 3 5) /\
  forall s,
    get_all_performance_str s (format_plain (mkdate 2024 3 5)) =
    get_all_performance s (Some (mkdate 2024 3 5)).
Proof.
  apply (strptime_reads_plain (mkdate 2024 3 5)). reflexivity.
Defined.

(** ** Importing a sheet twice *)

Lemma row_category_same (s s' : store) (r : row) :
  dictionaries s' = dictionaries s -> row_category s' r = row_category s r.
Proof.
  intros H. unfold row_category, get_category_id_by_name. now rewrite H.
Qed.

Lemma accepted_row_facts (s : store) (index : Z) (r : row)
  (plan : plan_data) :
  check_row s index r = inr plan ->
  row_date r = Some (pd_period plan) /\
  day (pd_period plan) = 1 /\
  is_some (row_amount r) = true /\
  row_category s r = Some (pd_category_id plan).
Proof.
  intros Hrow.
  destruct (check_row_accepted s index r plan Hrow)
    as (Hdate & Hday & (text & d & Hsum & Hparse & Hq) & Hcat & Hnz & _).
  repeat split; auto.
  - unfold row_amount. rewrite Hsum, Hparse. cbn [bind]. now rewrite Hq.
  - unfold row_category. rewrite Hcat.
    destruct (Z.eqb_spec (pd_category_id plan) 0); [contradiction|].
    reflexivity.
Qed.

Lemma rights_in (s : store) (rows : list row) :
  forall index i r plan,
    nth_error rows i = Some r ->
    check_row s (index + Z.of_nat i) r = inr plan ->
    In plan (rights (row_results s index rows)).
Proof.
  induction rows as [| r0 rest IH]; intros index [| i] r plan;
    cbn [nth_error row_results rights]; try discriminate.
  - intros [= ->]. rewrite Z.add_0_r. intros ->. now left.
  - intros Hnth Hrow.
    assert (Hin : In plan (rights (row_results s (index + 1) rest))).
    { eapply IH; [exact Hnth|].
      now replace (index + 1 + Z.of_nat i) with (index + Z.of_nat (S i))
        by lia. }
    destruct (check_row s index r0); cbn [rights]; [exact Hin | now right].
Qed.

Lemma all_rows_rejected (s' : store) (rows : list row) :
  forall index,
    (forall i r, nth_error rows i = Some r ->
                 exists message,
                   check_row s' (index + Z.of_nat i) r = inl message) ->
    List.length (lefts (row_results s' index rows)) = List.length rows.
Proof.
  induction rows as [| r rest IH]; intros index Hall;
    cbn [row_results lefts List.length]; [reflexivity|].
  destruct (Hall 0%nat r eq_refl) as [message Hmsg].
  change (Z.of_nat 0) with 0 in Hmsg.
  rewrite Z.add_0_r in Hmsg. rewrite Hmsg. cbn [lefts List.length].
  f_equal. apply IH. intros i r' Hnth.
  destruct (Hall (S i) r' Hnth) as [m Hm]. exists m.
  now replace (index + 1 + Z.of_nat i) with (index + Z.of_nat (S i)) by lia.
Qed.

(** X18: a sheet that was imported cannot be imported again: whenever an
    import of at least one row succeeds, uploading the same rows once more
    is answered with status 400 and one "already exists" message per row,
    and the store stays as the first import left it. *)
Theorem second_upload_refused
  (s s' : store) (fault : store_fault) (rows : list row) (message : string) :
  rows <> [] ->
  upload_plans s None rows = (s', Return message) ->
  exists errors,
    upload_plans s' fault rows = (s', HTTPException 400 (DetailErrors errors))
    /\ List.length errors = List.length rows
    /\ forall i r, nth_error rows i = Some r ->
                   nth_error errors i =
                   Some (message_of (Z.of_nat i) r NoExistingPlan).
Proof.
  intros Hrows Hfirst.
  unfold upload_plans in Hfirst. rewrite check_rows_results in Hfirst.
  cbn [app] in Hfirst.
  destruct (lefts (row_results s 0 rows)) as [| e es] eqn:Hlefts;
    [|discriminate].
  destruct (bulk_insert_works s (rights (row_results s 0 rows)))
    as (new & Hins & Hnew).
  rewrite Hins in Hfirst. injection Hfirst as <- _.
  assert (Hrejected :
    forall i r, nth_error rows i = Some r ->
                check_row
                  (mkstore (credits s) (payments s) (dictionaries s)
                           (plans s ++ new)%list) (Z.of_nat i) r =
                inl (message_of (Z.of_nat i) r NoExistingPlan)).
  { intros i r Hnth.
    assert (Hres : nth_error (row_results s 0 rows) i =
                   Some (check_row s (Z.of_nat i) r))
      by (rewrite row_results_nth, Hnth; reflexivity).
    rewrite lefts_nil_iff in Hlefts.
    destruct (Hlefts i _ Hres) as [plan Hplan].
    destruct (accepted_row_facts s _ r plan Hplan)
      as (Hdate & Hday & Hamount & Hcat).
    assert (Hin : In plan (rights (row_results s 0 rows)))
      by (eapply rights_in; eauto).
    rewrite <- Hnew in Hin. apply in_map_iff in Hin as (p & Hp & Hpin).
    subst plan. cbn [plan_fields pd_period pd_category_id] in *.
    apply (existing_plan_rejected _ None (Z.of_nat i) r p).
    - cbn [plans]. apply in_or_app. now right.
    - exact Hdate.
    - exact Hday.
    - exact Hamount.
    - now rewrite (row_category_same s). }
  set (s' := mkstore (credits s) (payments s) (dictionaries s)
                     (plans s ++ new)%list) in *.
  exists (lefts (row_results s' 0 rows)).
  assert (Hlen : List.length (lefts (row_results s' 0 rows)) =
                 List.length rows).
  { apply all_rows_rejected. intros i r Hnth. rewrite Z.add_0_l. eauto. }
  assert (Hnth_errors :
    forall i r, nth_error rows i = Some r ->
                nth_error (lefts (row_results s' 0 rows)) i =
                Some (message_of (Z.of_nat i) r NoExistingPlan)).
  { assert (Hgen : forall rest index i r,
              (forall j r', nth_error rest j = Some r' ->
                 check_row s' (index + Z.of_nat j) r' =
                 inl (message_of (index + Z.of_nat j) r' NoExistingPlan)) ->
              nth_error rest i = Some r ->
              nth_error (lefts (row_results s' index rest)) i =
              Some (message_of (index + Z.of_nat i) r NoExistingPlan)).
    { induction rest as [| r0 rest IH]; intros index [| i] r Hall;
        cbn [nth_error row_results]; try discriminate.
      - intros [= ->]. pose proof (Hall 0%nat r eq_refl) as H0.
        change (Z.of_nat 0) with 0 in *. rewrite Z.add_0_r in *.
        now rewrite H0.
      - intros Hnth.
        pose proof (Hall 0%nat r0 eq_refl) as H0.
        change (Z.of_nat 0) with 0 in H0.
        rewrite Z.add_0_r in H0. rewrite H0. cbn [lefts nth_error].
        replace (index + Z.of_nat (S i)) with (index + 1 + Z.of_nat i)
          by lia.
        apply IH; [|exact Hnth].
        intros j r' Hj.
        replace (index + 1 + Z.of_nat j) with (index + Z.of_nat (S j))
          by lia.
        now apply (Hall (S j)). }
    intros i r Hnth.
    rewrite <- (Z.add_0_l (Z.of_nat i)).
    apply Hgen; [|exact Hnth].
    intros j r' Hj. rewrite Z.add_0_l. now apply Hrejected. }
  split; [|split; [exact Hlen | exact Hnth_errors]].
  unfold upload_plans. rewrite check_rows_results. cbn [app].
  destruct (lefts (row_results s' 0 rows)) as [| e es] eqn:Hl;
    [|reflexivity].
  destruct rows; [contradiction | discriminate Hlen].
Qed.

Lemma second_upload_refused_witness :
  exists errors,
    upload_plans
      (mkstore Sample.ledger_credits Sample.ledger_payments Sample.dictionary
         [Plan.mk 1 (mkdate 2024 3 1) (DFinite false 10000 (-2)) 4])
      None [Sample.collection_row "100"] =
    (mkstore Sample.ledger_credits Sample.ledger_payments Sample.dictionary
       [Plan.mk 1 (mkdate 2024 3 1) (DFinite false 10000 (-2)) 4],
     HTTPException 400 (DetailErrors errors))
    /\ List.length errors = List.length [Sample.collection_row "100"]
    /\ forall i r, nth_error [Sample.collection_row "100"] i = Some r ->
                   nth_error errors i =
                   Some (message_of (Z.of_nat i) r NoExistingPlan).
Proof.
  apply (second_upload_refused Sample.no_plans _ None
           [Sample.collection_row "100"] "Успішно додано 1 записів в БД").
  - discriminate.
  - reflexivity.
Defined.

(** An empty sheet is accepted as often as one likes: nothing is added. *)
Lemma empty_sheet :
  upload_plans Sample.march None [] =
  (Sample.march, Return "Успішно додано 0 записів в БД").
Proof. reflexivity. Qed.

(** ** The months of the year report *)

Lemma year_months_labels
  (float_round2_str : Z -> Z -> string) (s : store) (totals : pynum * pynum)
  (groups : list (date * list Plan.t)) :
  forall acc months,
    year_months float_round2_str s totals groups acc = Ok months ->
    map date_label months =
    (map date_label acc ++ map (fun g => strftime_m_Y (fst g)) groups)%list.
Proof.
  induction groups as [| [plan_date plans_list] rest IH]; intros acc months;
    cbn [year_months map].
  - intros [= <-]. now rewrite app_nil_r.
  - destruct (month_entry _ s totals plan_date plans_list) as [entry | e]
      eqn:Hentry; cbn [bind]; [|discriminate].
    intros H. apply IH in H. rewrite H, map_app, <- app_assoc. cbn [map app].
    f_equal. f_equal.
    unfold month_entry in Hentry. destruct totals as [issues paid].
    destruct (month_loop _ _ _ _); cbn [bind] in Hentry; [|discriminate].
    repeat match type of Hentry with
           | bind ?c _ = _ =>
             destruct c; cbn [bind] in Hentry; [|discriminate]
           end.
    now injection Hentry as <-.
Qed.

(** X19: when the year report returns, it holds one dict for every month of
    the year that has a plan, in ascending order of the months, each
    labelled with the month in two digits, a dot and the year as the number
    is written: 03.2024, and 03.999 for the year 999. *)
Theorem year_report_months
  (float_round2_str : Z -> Z -> string) (s : store) (year : Z)
  (months : list month_status) :
  get_year_performance float_round2_str s year = Return months ->
  exists groups,
    get_year_plans s year = Ok groups /\
    groups <> [] /\
    StronglySorted date_lt (map fst groups) /\
    map date_label months = map (fun g => month_label (fst g)) groups.
Proof.
  unfold get_year_performance.
  destruct (get_year_plans s year) as [groups | e] eqn:Hplans; cbn [run];
    [|discriminate].
  destruct (year_plans_grouped s year groups Hplans) as [[Hsorted _] _].
  destruct groups as [| g groups]; [discriminate|].
  destruct (year_totals s (g :: groups) _) as [totals | e]; cbn [run];
    [|discriminate].
  destruct (year_months _ s totals (g :: groups) []) as [out | e] eqn:Hm;
    cbn [run]; [|discriminate].
  intros [= <-]. exists (g :: groups).
  repeat split; try assumption; [discriminate|].
  now apply year_months_labels in Hm.
Qed.

Lemma year_report_months_witness :
  exists months groups,
    get_year_performance (fun _ _ => "0.0") Sample2.year_999 999 =
    Return months /\
    get_year_plans Sample2.year_999 999 = Ok groups /\
    groups <> [] /\
    StronglySorted date_lt (map fst groups) /\
    map date_label months = map (fun g => month_label (fst g)) groups.
Proof.
  assert (Hreport :
    exists months,
      get_year_performance (fun _ _ => "0.0") Sample2.year_999 999
      = Return months) by (eexists; vm_compute; reflexivity).
  destruct Hreport as [months Hreport]. exists months.
  destruct (year_report_months (fun _ _ => "0.0") Sample2.year_999
              999 months Hreport) as (groups & H).
  exists groups. split; [exact Hreport | exact H].
Defined.

(** The labels of two reports: March 2024, and March of the year 999. *)
Lemma year_report_labels :
  (exists months,
     get_year_performance (fun _ _ => "0.0") Sample2.two_issuance_plans 2024
     = Return months /\
     map date_label months = ["03.2024"]) /\
  (exists months,
     get_year_performance (fun _ _ => "0.0") Sample2.year_999 999
     = Return months /\
     map date_label months = ["03.999"]).
Proof. split; eexists; split; vm_compute; reflexivity. Qed.
